(** * Project Scopes: scope store, visibility filter and directory listings

    A shallow embedding of the scope manager ([ScopeManager]), the scoped
    file tree ([FileExplorerTreeDataProvider]) and the filtering file system
    provider ([ScopeFileSystemProvider]) of the Project Scopes extension,
    with the properties of its specification stated over the embedding.

    Conventions of the embedding
    - JavaScript strings are [string]; [s.startsWith(p)] is [startsWith s p].
    - The [scopes] object, used as a map from scope name to scope, is a
      [gmap string Scope] for its own keys; [scopes[k]] is [Js.get scopes k]:
      the scope of an own key, a property of [Object.prototype] for the
      names that every object inherits, [undefined] otherwise.
    - Strings are sequences of bytes, a character outside ASCII being its
      UTF-8 sequence.
    - [null]/[undefined] are [None]; a string value is truthy when it is not
      the empty string.
    - A file system path is the list of its components; [path.join(d, n)]
      appends the component [n].
    - [async] functions are run sequentially; a rejected promise is an
      explicit error result.
    - What the user answers in an input box or a quick pick, and whether a
      write of the settings succeeds, are arguments of the function that
      asks for them. *)

From Stdlib Require Import String Ascii List Bool Arith Lia.
From Stdlib Require Import Sorting.Sorted Permutation.
From stdpp Require Import gmap strings list pretty.

Local Open Scope string_scope.

(** ** Strings *)

Module Str.

(** [s.startsWith(p)] *)
Definition startsWith (s p : string) : bool := String.prefix p s.

(** One character of [replace(/\\/g, "/")]: a backslash becomes a slash. *)
Definition slash (c : ascii) : ascii :=
  if Ascii.eqb c "\"%char then "/"%char else c.

(** [s.replace(/\\/g, "/")] *)
Fixpoint normalize (s : string) : string :=
  match s with
  | EmptyString => EmptyString
  | String c rest => String (slash c) (normalize rest)
  end.

(** JavaScript truthiness of a string value. *)
Definition truthy (s : string) : bool :=
  match s with EmptyString => false | String _ _ => true end.

(** White space and line terminators removed by [trim()].  In one byte:
    tab, line feed, vertical tab, form feed, carriage return, space. *)
Definition isSpace (c : ascii) : bool :=
  let n := nat_of_ascii c in
  Nat.eqb n 32 || (Nat.leb 9 n && Nat.leb n 13).

(** In two bytes: U+00A0. *)
Definition isSpace2 (a b : ascii) : bool :=
  Nat.eqb (nat_of_ascii a) 194 && Nat.eqb (nat_of_ascii b) 160.

(** In three bytes: U+1680, U+2000 to U+200A, U+2028, U+2029, U+202F,
    U+205F, U+3000 and U+FEFF. *)
Definition isSpace3 (a b c : ascii) : bool :=
  let x := nat_of_ascii a in
  let y := nat_of_ascii b in
  let z := nat_of_ascii c in
  (Nat.eqb x 225 && Nat.eqb y 154 && Nat.eqb z 128)
  || (Nat.eqb x 226 && Nat.eqb y 128
      && ((Nat.leb 128 z && Nat.leb z 138) || Nat.eqb z 168
          || Nat.eqb z 169 || Nat.eqb z 175))
  || (Nat.eqb x 226 && Nat.eqb y 129 && Nat.eqb z 159)
  || (Nat.eqb x 227 && Nat.eqb y 128 && Nat.eqb z 128)
  || (Nat.eqb x 239 && Nat.eqb y 187 && Nat.eqb z 191).

(** [!value.trim()]: the value is empty once trimmed, that is, it consists
    of white space only. *)
Fixpoint blank (s : string) : bool :=
  match s with
  | EmptyString => true
  | String a rest =>
      if isSpace a then blank rest
      else
        match rest with
        | EmptyString => false
        | String b rest2 =>
            if isSpace2 a b then blank rest2
            else
              match rest2 with
              | EmptyString => false
              | String c rest3 =>
                  if isSpace3 a b c then blank rest3 else false
              end
        end
  end.

(** The string has no backslash: it is already in canonical separator form. *)
Fixpoint canonical (s : string) : bool :=
  match s with
  | EmptyString => true
  | String c rest => negb (Ascii.eqb c "\"%char) && canonical rest
  end.

End Str.

(** ** Data model *)

(** A stored scope: [{ folders, created, description }]. *)
Record Scope := mkScope {
  folders : list string;
  created : string;
  description : string
}.

(** ** Objects and errors of the language *)

Module Js.
Import Str.

(** A completed call: a value, or a thrown error. *)
Inductive Result (A E : Type) :=
| Returned (value : A)
| Thrown (error : E).
Arguments Returned {A E} value.
Arguments Thrown {A E} error.

(** The error of reading a property of [undefined]. *)
Inductive JsError := TypeError.

(** The names that every object inherits from [Object.prototype]. *)
Definition prototypeNames : list string :=
  [ "constructor"; "toString"; "toLocaleString"; "valueOf";
    "hasOwnProperty"; "isPrototypeOf"; "propertyIsEnumerable"; "__proto__";
    "__defineGetter__"; "__defineSetter__"; "__lookupGetter__";
    "__lookupSetter__" ].

Definition inherited (k : string) : bool :=
  existsb (String.eqb k) prototypeNames.

(** The value of [scopes[k]]: the scope stored under an own key; for a name
    that is no own key, the property inherited from [Object.prototype], a
    function or object that is truthy and has no [folders]; otherwise
    [undefined]. *)
Inductive Property :=
| Undefined
| Own (scope : Scope)
| Inherited.

Definition get (scopes : gmap string Scope) (k : string) : Property :=
  match scopes !! k with
  | Some scope => Own scope
  | None => if inherited k then Inherited else Undefined
  end.

(** The value of [activeScope && scopes[activeScope]], [undefined] standing
    for every falsy value. *)
Definition guard (activeScope : option string) (scopes : gmap string Scope)
  : Property :=
  match activeScope with
  | None => Undefined
  | Some name => if truthy name then get scopes name else Undefined
  end.

End Js.

(** ** Visibility filter ([ScopeFileSystemProvider.shouldShowEntry]) *)

Module Visibility.
Import Str Js.

(** The loop [for (const folder of scopeFolders)] of [shouldShowEntry]. *)
Fixpoint withinFolders (relativePath : string) (scopeFolders : list string)
  : bool :=
  match scopeFolders with
  | [] => false
  | folder :: rest =>
      let normalizedFolder := normalize folder in
      let normalizedPath := normalize relativePath in
      if String.eqb normalizedPath normalizedFolder
         || startsWith normalizedPath (normalizedFolder ++ "/")
      then true
      else if startsWith normalizedFolder (normalizedPath ++ "/")
      then true
      else withinFolders relativePath rest
  end.

(** After the guard [!activeScope || !scopes[activeScope]] the loop runs
    over [scopes[activeScope].folders]; for an object without [folders] the
    loop over [undefined] throws. *)
Definition shouldShowEntry (relativePath : string)
    (activeScope : option string) (scopes : gmap string Scope)
  : Result bool JsError :=
  match guard activeScope scopes with
  | Undefined => Returned true
  | Own scope => Returned (withinFolders relativePath (folders scope))
  | Inherited => Thrown TypeError
  end.

(** The three permissive rules, on the canonical separator form. *)
Definition related (p f : string) : Prop :=
  normalize p = normalize f
  \/ (exists rest, normalize p = normalize f ++ "/" ++ rest)
  \/ (exists rest, normalize f = normalize p ++ "/" ++ rest).

(** The same rules read on the strings as they are. *)
Definition relatedLiterally (p f : string) : Prop :=
  p = f
  \/ (exists rest, p = f ++ "/" ++ rest)
  \/ (exists rest, f = p ++ "/" ++ rest).

End Visibility.

(** ** File system, host platform and paths *)

Module Fs.
Export Js.
Import Str.

(** A path as the list of its components. *)
Definition Path := list string.

(** An entry of [fs.promises.readdir(p, { withFileTypes: true })]. *)
Record Dirent := mkDirent {
  d_name : string;
  d_isDirectory : bool
}.

(** [vscode.FileType], as far as the code uses it. *)
Inductive FileType := File | Directory.

Definition FileType_eqb (a b : FileType) : bool :=
  match a, b with
  | File, File | Directory, Directory => true
  | _, _ => false
  end.

(** The file system as the code observes it: [readdir] lists a directory or
    rejects ([None]); [stat] resolves to [isDirectory()] or rejects. *)
Record FileSystem := mkFileSystem {
  readdir : Path -> option (list Dirent);
  stat : Path -> option bool
}.

(** What the code takes from the platform: the separator of [path], the
    [path.resolve] and [path.basename] functions on folder strings and the
    locale-aware [localeCompare]. *)
Record Host := mkHost {
  sep : string;
  resolve : Path -> string -> Path;
  basename : string -> string;
  localeCompare : string -> string -> Z
}.

Inductive FileSystemError := FileNotFound (fsPath : Path).

(** [path.join(dirPath, name)] for an entry name. *)
Definition join (dirPath : Path) (entry : string) : Path :=
  (dirPath ++ [entry])%list.

(** [path.relative(from, to)] on component lists: the common prefix is
    dropped, what is left of [from] is climbed with [..]. *)
Fixpoint relative (from to : Path) : Path :=
  match from, to with
  | [], _ => to
  | f :: from', t :: to' =>
      if String.eqb f t then relative from' to'
      else (repeat ".." (List.length from) ++ to)%list
  | _ :: _, [] => repeat ".." (List.length from)
  end.

(** The string of a relative path, and of an absolute one ([uri.fsPath]). *)
Definition display (h : Host) (rel : Path) : string :=
  String.concat (sep h) rel.

Definition fsPathOf (h : Host) (abs : Path) : string :=
  String.concat "" (map (fun c => sep h ++ c) abs).

(** The names no listing of the tree views shows:
    [name.startsWith(".") || name === "node_modules"]. *)
Definition excluded (entry : string) : bool :=
  startsWith entry "." || String.eqb entry "node_modules".

(** *** Recursive directory enumerator
    ([ScopeManager.getDirectoriesRecursive]) *)

(** The body of [getDirectoriesRecursive] with [remaining] standing for
    [maxDepth - currentDepth]: nothing when [currentDepth >= maxDepth],
    nothing when [readdir] rejects (the [catch] ignores the error). *)
Fixpoint enumerate (remaining : nat) (fs : FileSystem)
    (dirPath workspaceRoot : Path) : list Path :=
  match remaining with
  | 0 => []
  | S remaining' =>
      match readdir fs dirPath with
      | None => []
      | Some items =>
          flat_map (fun item =>
            if d_isDirectory item
               && negb (startsWith (d_name item) ".")
               && negb (String.eqb (d_name item) "node_modules")
            then
              let fullPath := join dirPath (d_name item) in
              let relativePath := relative workspaceRoot fullPath in
              relativePath :: enumerate remaining' fs fullPath workspaceRoot
            else []) items
      end
  end.

Definition getDirectoriesRecursive (fs : FileSystem)
    (dirPath workspaceRoot : Path) (maxDepth currentDepth : nat)
  : list Path :=
  enumerate (maxDepth - currentDepth) fs dirPath workspaceRoot.

(** *** Scoped file tree ([FileExplorerTreeDataProvider.getChildren]) *)

(** An element of the tree: [{ name, uri, type }]. *)
Record Child := mkChild {
  c_name : string;
  c_uri : Path;
  c_type : FileType
}.

Definition typeOf (entry : Dirent) : FileType :=
  if d_isDirectory entry then Directory else File.

(** The comparator given to [children.sort]. *)
Definition compareChildren (h : Host) (a b : Child) : Z :=
  if FileType_eqb (c_type a) (c_type b)
  then localeCompare h (c_name a) (c_name b)
  else match c_type a with Directory => (-1)%Z | File => 1%Z end.

(** [Array.prototype.sort] is stable; a stable insertion sort stands for it. *)
Fixpoint insertBy {A} (cmp : A -> A -> Z) (x : A) (l : list A) : list A :=
  match l with
  | [] => [x]
  | y :: rest =>
      if (cmp x y <=? 0)%Z then x :: y :: rest
      else y :: insertBy cmp x rest
  end.

Definition sortBy {A} (cmp : A -> A -> Z) (l : list A) : list A :=
  fold_right (insertBy cmp) [] l.

(** The branch of [getChildren] for a directory element: the children of
    the directory, hidden names skipped, directories first.  A rejected
    [readdir] is caught and yields the empty listing. *)
Definition listChildren (fs : FileSystem) (h : Host) (dir : Path)
  : list Child :=
  match readdir fs dir with
  | Some entries =>
      sortBy (compareChildren h)
        (flat_map (fun entry =>
           if startsWith (d_name entry) "."
              || String.eqb (d_name entry) "node_modules"
           then []
           else [mkChild (d_name entry) (join dir (d_name entry))
                         (typeOf entry)]) entries)
  | None => []
  end.

(** The root branch of [getChildren]: the folders of the scope that exist
    as directories, per workspace folder. *)
Definition rootItems (fs : FileSystem) (h : Host)
    (scopeFolders : list string) (workspaceFolders : list Path)
  : list Child :=
  flat_map (fun scopeFolder =>
    flat_map (fun workspaceFolder =>
      let scopePath := resolve h workspaceFolder scopeFolder in
      match stat fs scopePath with
      | Some true => [mkChild (basename h scopeFolder) scopePath Directory]
      | _ => []
      end) workspaceFolders) scopeFolders.

(** At the root, the loop over [scopes[activeScope].folders] throws for an
    object without [folders]; nothing catches it. *)
Definition getChildren (fs : FileSystem) (h : Host)
    (workspaceFolders : list Path)
    (activeScope : option string) (scopes : gmap string Scope)
    (element : option Child) : Result (list Child) JsError :=
  match guard activeScope scopes with
  | Undefined => Returned []
  | found =>
      match workspaceFolders with
      | [] => Returned []
      | _ :: _ =>
          match element with
          | None =>
              match found with
              | Own scope =>
                  Returned (rootItems fs h (folders scope) workspaceFolders)
              | _ => Thrown TypeError
              end
          | Some el => Returned (listChildren fs h (c_uri el))
          end
      end
  end.

(** *** Filtering file system provider ([ScopeFileSystemProvider]) *)

Fixpoint getRelativePath (h : Host) (workspaceFolders : list Path)
    (absolutePath : Path) : string :=
  match workspaceFolders with
  | [] => fsPathOf h absolutePath
  | workspacePath :: rest =>
      if startsWith (fsPathOf h absolutePath) (fsPathOf h workspacePath)
      then display h (relative workspacePath absolutePath)
      else getRelativePath h rest absolutePath
  end.

(** The loop of [_readDirectory] over the entries read; [None] when
    [shouldShowEntry] throws at an entry. *)
Fixpoint visibleEntries (h : Host) (workspaceFolders : list Path)
    (activeScope : option string) (scopes : gmap string Scope)
    (fsPath : Path) (entries : list Dirent)
  : option (list (string * FileType)) :=
  match entries with
  | [] => Some []
  | entry :: rest =>
      let entryPath := join fsPath (d_name entry) in
      let relativePath := getRelativePath h workspaceFolders entryPath in
      match Visibility.shouldShowEntry relativePath activeScope scopes with
      | Thrown _ => None
      | Returned show =>
          match visibleEntries h workspaceFolders activeScope scopes fsPath
                  rest with
          | None => None
          | Some result =>
              Some (if show then (d_name entry, typeOf entry) :: result
                    else result)
          end
      end
  end.

(** Whatever is thrown inside the [try], by [readdir] or by
    [shouldShowEntry], is caught and thrown again as [FileNotFound]. *)
Definition readDirectory (fs : FileSystem) (h : Host)
    (workspaceFolders : list Path)
    (activeScope : option string) (scopes : gmap string Scope)
    (fsPath : Path) : Result (list (string * FileType)) FileSystemError :=
  match readdir fs fsPath with
  | None => Thrown (FileNotFound fsPath)
  | Some entries =>
      match visibleEntries h workspaceFolders activeScope scopes fsPath
              entries with
      | Some result => Returned result
      | None => Thrown (FileNotFound fsPath)
      end
  end.

End Fs.

(** ** Scope store ([ScopeManager]) *)

Module Store.
Import Str Js.

(** The persisted workspace configuration [projectScopes]. *)
Record Config := mkConfig {
  cfgScopes : gmap string Scope;
  cfgActiveScope : option string
}.

Inductive ConfigKey := KeyScopes | KeyActiveScope.

(** The messages of the input boxes and notifications. *)
Inductive Message :=
| NameEmpty                         (* Scope name cannot be empty *)
| NameExists                        (* Scope name already exists *)
| NoScopesDefined
| NoScopesCreateFirst
| NotFound (scopeName : string)
| NoActiveScopeToClear
| Created (scopeName : string)
| Renamed (oldName newName : string)
| FoldersUpdated (scopeName : string)
| DescriptionUpdated (scopeName : string)
| Deleted (scopeName : string)
| Activated (scopeName : string)
| Cleared (previousScope : string).

(** What a call does to the outside, in the order it does it. *)
Inductive Effect :=
| ConfigUpdate (key : ConfigKey)    (* a [config.update] that resolved *)
| ScopeChanged                      (* [_onScopeChanged.fire()] *)
| StatusBar (shown : option string) (* [updateStatusBar()] *)
| Shown (m : Message).              (* a notification *)

Record ScopeManager := mkManager {
  scopes : gmap string Scope;
  activeScope : option string;
  config : Config;
  trace : list Effect
}.

Definition getScopes (s : ScopeManager) : gmap string Scope := scopes s.
Definition getActiveScope (s : ScopeManager) : option string := activeScope s.

Definition withScopes (s : ScopeManager) (m : gmap string Scope) :=
  mkManager m (activeScope s) (config s) (trace s).
Definition withActiveScope (s : ScopeManager) (a : option string) :=
  mkManager (scopes s) a (config s) (trace s).
Definition withConfig (s : ScopeManager) (c : Config) :=
  mkManager (scopes s) (activeScope s) c (trace s).
Definition emit (s : ScopeManager) (e : Effect) :=
  mkManager (scopes s) (activeScope s) (config s) (trace s ++ [e])%list.

(** How a call ends.  [Unscoped]: an edit reached its write with an object
    inherited from [Object.prototype] in the place of a scope; what it
    writes is no scope, and the state is given as it was before the write. *)
Inductive Completion :=
| Done                    (* ran to its end *)
| Nothing                 (* returned early without an error *)
| Refused (m : Message)   (* returned early, the message says why *)
| Failed                  (* the promise is rejected: a save failed, or
                             the status bar update threw *)
| Unscoped.

(** The two [config.update] calls of [saveScopes]; either may reject. *)
Inductive SaveOutcome := Saves | RejectsScopes | RejectsActiveScope.

Definition saveScopes (s : ScopeManager) (o : SaveOutcome)
  : ScopeManager * bool :=
  match o with
  | RejectsScopes => (s, false)
  | RejectsActiveScope =>
      (emit (withConfig s (mkConfig (scopes s) (cfgActiveScope (config s))))
            (ConfigUpdate KeyScopes), false)
  | Saves =>
      (emit (emit (withConfig s (mkConfig (scopes s) (activeScope s)))
                  (ConfigUpdate KeyScopes))
            (ConfigUpdate KeyActiveScope), true)
  end.

(** [this.activeScope && this.scopes[this.activeScope]]: the text is set,
    then the tooltip reads [folders.join] of the object found, which throws
    for an object without [folders]; [false] when it throws. *)
Definition updateStatusBar (s : ScopeManager) : ScopeManager * bool :=
  match guard (activeScope s) (scopes s) with
  | Own _ => (emit s (StatusBar (activeScope s)), true)
  | Inherited => (emit s (StatusBar (activeScope s)), false)
  | Undefined => (emit s (StatusBar None), true)
  end.

(** [showInputBox] with [validateInput]: the box accepts a typed value only
    when the validation returns [null]; a refused value leaves its message
    on the box, which then resolves to [undefined]. *)
Definition showInputBox (validateInput : string -> option Message)
    (typed : option string) : Message + option string :=
  match typed with
  | None => inr None
  | Some value =>
      match validateInput value with
      | Some m => inl m
      | None => inr (Some value)
      end
  end.

(** [scopes[k]] is truthy. *)
Definition present (m : gmap string Scope) (k : string) : bool :=
  match get m k with Undefined => false | _ => true end.

Definition eqActive (a : option string) (scopeName : string) : bool :=
  match a with Some n => String.eqb n scopeName | None => false end.

Definition setActiveScope (s : ScopeManager) (scopeName : string)
    (save : SaveOutcome) : ScopeManager * Completion :=
  if negb (present (scopes s) scopeName) then
    (emit s (Shown (NotFound scopeName)), Refused (NotFound scopeName))
  else
    let s1 := withActiveScope s (Some scopeName) in
    match saveScopes s1 save with
    | (s2, false) => (s2, Failed)
    | (s2, true) =>
        match updateStatusBar s2 with
        | (s3, false) => (s3, Failed)
        | (s3, true) =>
            let s4 := emit s3 ScopeChanged in
            (emit s4 (Shown (Activated scopeName)), Done)
        end
    end.

Definition clearActiveScope (s : ScopeManager) (save : SaveOutcome)
  : ScopeManager * Completion :=
  match activeScope s with
  | Some previousScope =>
      if truthy previousScope then
        let s1 := withActiveScope s None in
        match saveScopes s1 save with
        | (s2, false) => (s2, Failed)
        | (s2, true) =>
            match updateStatusBar s2 with
            | (s3, false) => (s3, Failed)
            | (s3, true) =>
                let s4 := emit s3 ScopeChanged in
                (emit s4 (Shown (Cleared previousScope)), Done)
            end
        end
      else (emit s (Shown NoActiveScopeToClear), Nothing)
  | None => (emit s (Shown NoActiveScopeToClear), Nothing)
  end.

(** [createScope]: [typed] is what the user enters in the name box,
    [selected] what [selectFolders] returns, [now] the time stamp,
    [activate] the answer to the activation question. *)
Definition createScope (s : ScopeManager) (typed : option string)
    (selected : option (list string)) (now : string) (save : SaveOutcome)
    (activate : option string) (save' : SaveOutcome)
  : ScopeManager * Completion :=
  match showInputBox (fun value =>
          if blank value then Some NameEmpty
          else if present (scopes s) value then Some NameExists
          else None) typed with
  | inl m => (s, Refused m)
  | inr None => (s, Nothing)
  | inr (Some scopeName) =>
      if negb (truthy scopeName) then (s, Nothing) else
      match selected with
      | None | Some [] => (s, Nothing)
      | Some folders =>
          let s1 :=
            withScopes s (<[scopeName := mkScope folders now ""]> (scopes s)) in
          match saveScopes s1 save with
          | (s2, false) => (s2, Failed)
          | (s2, true) =>
              let s3 := emit s2 (Shown (Created scopeName)) in
              match activate with
              | Some answer =>
                  if String.eqb answer "Yes"
                  then setActiveScope s3 scopeName save'
                  else (s3, Done)
              | None => (s3, Done)
              end
          end
      end
  end.

(** The scope an edit or a delete works on: the argument when it is given,
    otherwise what the user picks among the scope names. *)
Definition chooseScope (s : ScopeManager) (scopeName picked : option string)
  : Message + option string :=
  match scopeName with
  | Some n =>
      if truthy n then inr (Some n)
      else if decide (scopes s = ∅) then inl NoScopesDefined else inr picked
  | None =>
      if decide (scopes s = ∅) then inl NoScopesDefined else inr picked
  end.

(** In the three edits, [current] is [this.scopes[scopeName]], which
    [editScope] has found truthy before it calls them: a scope, or [None]
    for an object inherited from [Object.prototype]. *)
Definition editScopeName (s : ScopeManager) (oldName : string)
    (current : option Scope) (typed : option string) (save : SaveOutcome)
  : ScopeManager * Completion :=
  match showInputBox (fun value =>
          if blank value then Some NameEmpty
          else if negb (String.eqb value oldName) && present (scopes s) value
          then Some NameExists
          else None) typed with
  | inl m => (s, Refused m)
  | inr None => (s, Nothing)
  | inr (Some newName) =>
      if negb (truthy newName) || String.eqb newName oldName
      then (s, Nothing)
      else
        match current with
        | None => (s, Unscoped)
        | Some current =>
            let s1 :=
              withScopes s
                (delete oldName (<[newName := current]> (scopes s))) in
            let s2 :=
              if eqActive (activeScope s1) oldName
              then withActiveScope s1 (Some newName) else s1 in
            match saveScopes s2 save with
            | (s3, false) => (s3, Failed)
            | (s3, true) =>
                let s4 := emit s3 ScopeChanged in
                (emit s4 (Shown (Renamed oldName newName)), Done)
            end
        end
  end.

Definition editScopeFolders (s : ScopeManager) (scopeName : string)
    (current : option Scope) (selected : option (list string))
    (save : SaveOutcome)
  : ScopeManager * Completion :=
  match selected with
  | None => (s, Nothing)
  | Some folders' =>
      match current with
      | None => (s, Unscoped)
      | Some current =>
          let s1 :=
            withScopes s
              (<[scopeName :=
                   mkScope folders' (created current) (description current)]>
                 (scopes s)) in
          match saveScopes s1 save with
          | (s2, false) => (s2, Failed)
          | (s2, true) =>
              let s3 := emit s2 ScopeChanged in
              (emit s3 (Shown (FoldersUpdated scopeName)), Done)
          end
      end
  end.

Definition editScopeDescription (s : ScopeManager) (scopeName : string)
    (current : option Scope) (typed : option string) (save : SaveOutcome)
  : ScopeManager * Completion :=
  match typed with
  | None => (s, Nothing)
  | Some description' =>
      match current with
      | None => (s, Unscoped)
      | Some current =>
          let s1 :=
            withScopes s
              (<[scopeName :=
                   mkScope (folders current) (created current) description']>
                 (scopes s)) in
          match saveScopes s1 save with
          | (s2, false) => (s2, Failed)
          | (s2, true) =>
              (emit s2 (Shown (DescriptionUpdated scopeName)), Done)
          end
      end
  end.

(** The choice of the quick pick of [editScope], with what the user then
    enters. *)
Inductive EditAction :=
| EditName (typed : option string)
| EditFolders (selected : option (list string))
| EditDescription (typed : option string).

(** The [switch (action)] of [editScope]. *)
Definition edit (s : ScopeManager) (scopeName : string)
    (current : option Scope) (action : EditAction) (save : SaveOutcome)
  : ScopeManager * Completion :=
  match action with
  | EditName typed => editScopeName s scopeName current typed save
  | EditFolders selected =>
      editScopeFolders s scopeName current selected save
  | EditDescription typed =>
      editScopeDescription s scopeName current typed save
  end.

Definition editScope (s : ScopeManager) (scopeName picked : option string)
    (action : option EditAction) (save : SaveOutcome)
  : ScopeManager * Completion :=
  match chooseScope s scopeName picked with
  | inl m => (emit s (Shown m), Refused m)
  | inr None => (s, Nothing)
  | inr (Some n) =>
      if negb (truthy n) then (s, Nothing) else
      match get (scopes s) n with
      | Undefined => (s, Nothing)
      | found =>
          match action with
          | None => (s, Nothing)
          | Some chosen =>
              edit s n
                (match found with Own current => Some current | _ => None
                 end) chosen save
          end
      end
  end.

Definition deleteScope (s : ScopeManager) (scopeName picked : option string)
    (confirmation : option string) (save : SaveOutcome)
  : ScopeManager * Completion :=
  match chooseScope s scopeName picked with
  | inl m => (emit s (Shown m), Refused m)
  | inr None => (s, Nothing)
  | inr (Some n) =>
      if negb (truthy n) || negb (present (scopes s) n) then (s, Nothing) else
      match confirmation with
      | Some answer =>
          if String.eqb answer "Delete" then
            let s1 := withScopes s (delete n (scopes s)) in
            let s2 :=
              if eqActive (activeScope s1) n
              then withActiveScope s1 None else s1 in
            match saveScopes s2 save with
            | (s3, false) => (s3, Failed)
            | (s3, true) =>
                let s4 := emit s3 ScopeChanged in
                (emit s4 (Shown (Deleted n)), Done)
            end
          else (s, Nothing)
      | None => (s, Nothing)
      end
  end.

(** [switchScope]: [selected] is the item picked, [Some None] being the
    item that clears the active scope. *)
Definition switchScope (s : ScopeManager)
    (selected : option (option string)) (save : SaveOutcome)
  : ScopeManager * Completion :=
  if decide (scopes s = ∅) then
    (emit s (Shown NoScopesCreateFirst), Refused NoScopesCreateFirst)
  else
    match selected with
    | None => (s, Nothing)
    | Some (Some scopeName) =>
        if truthy scopeName then setActiveScope s scopeName save
        else clearActiveScope s save
    | Some None => clearActiveScope s save
    end.

(** The mutating commands of the store with what the user answers. *)
Inductive Command :=
| CreateScope (typed : option string) (selected : option (list string))
    (now : string) (activate : option string) (save' : SaveOutcome)
| EditScope (scopeName picked : option string) (action : option EditAction)
| DeleteScope (scopeName picked : option string)
    (confirmation : option string)
| SwitchScope (selected : option (option string))
| SetActiveScope (scopeName : string)
| ClearActiveScope.

Definition run (c : Command) (save : SaveOutcome) (s : ScopeManager)
  : ScopeManager * Completion :=
  match c with
  | CreateScope typed selected now activate save' =>
      createScope s typed selected now save activate save'
  | EditScope scopeName picked action =>
      editScope s scopeName picked action save
  | DeleteScope scopeName picked confirmation =>
      deleteScope s scopeName picked confirmation save
  | SwitchScope selected => switchScope s selected save
  | SetActiveScope scopeName => setActiveScope s scopeName save
  | ClearActiveScope => clearActiveScope s save
  end.

(** The active scope reference does not dangle: it is [null], or the empty
    string that the configuration has by default, or the key of a scope. *)
Definition validRef (m : gmap string Scope) (a : option string) : Prop :=
  match a with
  | None => True
  | Some n => n = "" \/ is_Some (m !! n)
  end.

Definition valid (s : ScopeManager) : Prop :=
  validRef (scopes s) (activeScope s).

(** Number of "scopes changed" events in a trace. *)
Definition fired (t : list Effect) : nat :=
  List.length (List.filter
    (fun e => match e with ScopeChanged => true | _ => false end) t).

(** The commands that, run to their end, notify the listeners. *)
Definition notifies (c : Command) : bool :=
  match c with
  | CreateScope _ _ _ (Some answer) _ => String.eqb answer "Yes"
  | CreateScope _ _ _ None _ => false
  | EditScope _ _ (Some (EditDescription _)) => false
  | _ => true
  end.

End Store.

(** ** Notions used to state the properties *)

Module Obs.
Import Str Fs.

(** The entries of a completed listing; a thrown error lists nothing. *)
Definition listing {A E} (r : Result (list A) E) : list A :=
  match r with
  | Returned l => l
  | Thrown _ => []
  end.

(** An element of the tree seen as an entry of a directory listing. *)
Definition entryOf (c : Child) : string * FileType := (c_name c, c_type c).

(** [rel] names a directory nested [length rel] levels below [dir]: every
    component is listed, as a directory, in the directory above it. *)
Fixpoint isDirectoryAt (fs : FileSystem) (dir : Path) (rel : Path) : bool :=
  match rel with
  | [] => true
  | n :: rest =>
      match readdir fs dir with
      | None => false
      | Some items =>
          existsb (fun item =>
            d_isDirectory item && String.eqb (d_name item) n) items
          && isDirectoryAt fs (join dir n) rest
      end
  end.

(** No component of the path is a hidden name or [node_modules]. *)
Definition unexcluded (rel : Path) : bool :=
  forallb (fun n => negb (excluded n)) rel.

End Obs.

(** ** A sample workspace *)

Module Demo.
Import Str Fs Store.

(** Splitting a folder string at slashes, for the POSIX [path.resolve] and
    [path.basename] of the sample host. *)
Fixpoint splitAt (acc : string) (s : string) : list string :=
  match s with
  | EmptyString => [acc]
  | String c rest =>
      if Ascii.eqb c "/"%char then acc :: splitAt "" rest
      else splitAt (acc ++ String c "") rest
  end.

Definition posix : Host :=
  mkHost "/"
    (fun base folder => (base ++ splitAt "" folder)%list)
    (fun folder => List.last (splitAt "" folder) "")
    (fun a b =>
       match String.compare a b with
       | Eq => 0%Z | Lt => (-1)%Z | Gt => 1%Z
       end).

Definition dir (n : string) : Dirent := mkDirent n true.
Definition file (n : string) : Dirent := mkDirent n false.

Definition ws : Path := ["ws"].

(** The tree
<<
    /ws/.git/
    /ws/node_modules/pkg/lib/
    /ws/README.md
    /ws/locked/                      (not readable, see below)
    /ws/src/api/auth.js
    /ws/src/components/.cache/
    /ws/src/components/.eslintrc
    /ws/src/components/Header.js
    /ws/src/components/ui/deep/deeper/
>> *)
Definition tree : list (Path * list Dirent) :=
  [ (["ws"],
     [file "README.md"; dir ".git"; dir "node_modules"; dir "src";
      dir "locked"]);
    (["ws"; ".git"], []);
    (["ws"; "node_modules"], [dir "pkg"]);
    (["ws"; "node_modules"; "pkg"], [dir "lib"]);
    (["ws"; "node_modules"; "pkg"; "lib"], []);
    (["ws"; "src"], [dir "components"; dir "api"]);
    (["ws"; "src"; "api"], [file "auth.js"]);
    (["ws"; "src"; "components"],
     [file "Header.js"; file ".eslintrc"; dir ".cache"; dir "ui"]);
    (["ws"; "src"; "components"; ".cache"], []);
    (["ws"; "src"; "components"; "ui"], [dir "deep"]);
    (["ws"; "src"; "components"; "ui"; "deep"], [dir "deeper"]);
    (["ws"; "src"; "components"; "ui"; "deep"; "deeper"], []) ].

Fixpoint find (p : Path) (t : list (Path * list Dirent))
  : option (list Dirent) :=
  match t with
  | [] => None
  | (q, items) :: rest => if decide (p = q) then Some items else find p rest
  end.

(** Below the directory that cannot be read: [/ws/locked/in/deep/]. *)
Definition lockedDirectories : list Path :=
  [ ["ws"; "locked"]; ["ws"; "locked"; "in"];
    ["ws"; "locked"; "in"; "deep"] ].

Definition disk : FileSystem :=
  mkFileSystem (fun p => find p tree)
    (fun p =>
       match find p tree with
       | Some _ => Some true
       | None =>
           if existsb (fun q => bool_decide (p = q)) lockedDirectories
           then Some true else None
       end).

Definition frontend : Scope :=
  mkScope ["src/components"; "src/pages"] "2025-01-01T00:00:00.000Z" "".

Definition backend : Scope :=
  mkScope ["src/api"] "2025-01-02T00:00:00.000Z" "".

Definition someScopes : gmap string Scope :=
  <["Backend" := backend]> (<["Frontend" := frontend]> ∅).

(** A manager in step with its saved settings, with [Frontend] active. *)
Definition manager : ScopeManager :=
  mkManager someScopes (Some "Frontend")
    (mkConfig someScopes (Some "Frontend")) [].

(** A manager as loaded from settings whose active scope names a scope
    that has since gone. *)
Definition staleManager : ScopeManager :=
  mkManager someScopes (Some "Ghost")
    (mkConfig someScopes (Some "Ghost")) [].

End Demo.

(** ** Scope list view ([ScopeTreeDataProvider]) and the commands on its
    items *)

Module ScopeTree.
Import Str Js Store.

Inductive CollapsibleState := StateNone | StateCollapsed.

(** A [vscode.TreeItem] of the scope list view. *)
Record TreeItem := mkTreeItem {
  label : string;
  collapsibleState : CollapsibleState;
  contextValue : string;
  itemDescription : string;
  tooltip : string;
  iconPath : string
}.

(** The mark in front of a scope name: a filled circle for the active
    scope, a hollow one for the others, each followed by a space. *)
Definition mark (isActive : bool) : string :=
  if isActive then "● " else "○ ".

Fixpoint dropChars (n : nat) (s : string) : string :=
  match n, s with
  | 0, _ => s
  | S n', String _ rest => dropChars n' rest
  | S _, EmptyString => EmptyString
  end.

(** [label.replace(/^[●○] /, "")]: one leading mark is removed. *)
Definition stripMark (l : string) : string :=
  if startsWith l (mark true) then dropChars (String.length (mark true)) l
  else if startsWith l (mark false)
  then dropChars (String.length (mark false)) l
  else l.

Definition newline : string := String (ascii_of_nat 10) EmptyString.

(** The item of a scope at the root level. *)
Definition scopeItem (activeScope : option string) (scopeName : string)
    (scope : Scope) : TreeItem :=
  let isActive := eqActive activeScope scopeName in
  mkTreeItem
    (mark isActive ++ scopeName)
    StateCollapsed
    "scope"
    (if truthy (description scope) then description scope
     else pretty (List.length (folders scope)) ++ " folders")
    (String.concat ", " (folders scope) ++ newline
     ++ (if isActive then "(Active)" else "(Inactive)"))
    (if isActive then "folder-active" else "folder").

Definition folderItem (folder : string) : TreeItem :=
  mkTreeItem folder StateNone "folder" "" "" "folder".

(** [getChildren(element)].  At the root the items follow [Object.keys],
    whose order the map of scopes does not record: the items come in the
    order of [map_to_list].  Below an item, [scope.folders.map] throws for
    an object without [folders]. *)
Definition getChildren (s : ScopeManager) (element : option TreeItem)
  : Result (list TreeItem) JsError :=
  match element with
  | None =>
      Returned
        (map (fun entry =>
                scopeItem (getActiveScope s) (fst entry) (snd entry))
           (map_to_list (getScopes s)))
  | Some el =>
      let scopeName := stripMark (label el) in
      match get (getScopes s) scopeName with
      | Own scope => Returned (map folderItem (folders scope))
      | Inherited => Thrown TypeError
      | Undefined => Returned []
      end
  end.

(** The commands [project-scopes.editScope] and
    [project-scopes.deleteScope], called on an item of the view or without
    one. *)
Definition editScopeCommand (s : ScopeManager) (item : option TreeItem)
    (picked : option string) (action : option EditAction)
    (save : SaveOutcome) : ScopeManager * Completion :=
  let scopeName :=
    match item with
    | Some it => Some (stripMark (label it))
    | None => None
    end in
  editScope s scopeName picked action save.

Definition deleteScopeCommand (s : ScopeManager) (item : option TreeItem)
    (picked : option string) (confirmation : option string)
    (save : SaveOutcome) : ScopeManager * Completion :=
  let scopeName :=
    match item with
    | Some it => Some (stripMark (label it))
    | None => None
    end in
  deleteScope s scopeName picked confirmation save.

End ScopeTree.

(** ** Folder choice ([getAllWorkspaceFolders], [selectFolders]) *)

Module Picker.
Import Str Fs.

(** [[...new Set(folders)]]: the first occurrence of each string is kept. *)
Fixpoint unique (seen : list string) (l : list string) : list string :=
  match l with
  | [] => []
  | x :: rest =>
      if existsb (String.eqb x) seen then unique seen rest
      else x :: unique (x :: seen) rest
  end.

(** The default comparison of [sort()] orders strings by their UTF-16 code
    units.  On the UTF-8 bytes this is the order of the bytes, but for the
    characters from U+E000 to U+FFFF, whose first byte is 238 or 239: their
    one code unit comes after the surrogates, with which the characters
    from U+10000 on, of first byte 240 to 244, begin. *)
Definition unitKey (c : ascii) : N :=
  let n := N_of_ascii c in
  if N.eqb n 238 || N.eqb n 239 then (n + 16)%N else n.

Fixpoint compareUnits (a b : string) : comparison :=
  match a, b with
  | EmptyString, EmptyString => Eq
  | EmptyString, String _ _ => Lt
  | String _ _, EmptyString => Gt
  | String x a', String y b' =>
      match N.compare (unitKey x) (unitKey y) with
      | Eq => compareUnits a' b'
      | r => r
      end
  end.

Definition compareStrings (a b : string) : Z :=
  match compareUnits a b with
  | Lt => (-1)%Z
  | Eq => 0%Z
  | Gt => 1%Z
  end.

Definition getAllWorkspaceFolders (fs : FileSystem) (h : Host)
    (workspaceFolders : list Path) : list string :=
  let folders :=
    flat_map (fun workspaceFolder =>
      map (display h)
        (getDirectoriesRecursive fs workspaceFolder workspaceFolder 3 0))
      workspaceFolders in
  sortBy compareStrings (unique [] folders).

(** An item of the quick pick of [selectFolders]. *)
Record PickItem := mkPickItem {
  pickLabel : string;
  pickPicked : bool
}.

Definition pickItems (allFolders currentFolders : list string)
  : list PickItem :=
  map (fun folder =>
         mkPickItem folder (existsb (String.eqb folder) currentFolders))
    allFolders.

(** [selectFolders(currentFolders)]: [choice] is what the user does with
    the quick pick, [None] when it is dismissed, otherwise the items that
    are ticked when it is accepted.  Without a workspace folder the result
    is [null]. *)
Definition selectFolders (fs : FileSystem) (h : Host)
    (workspaceFolders : list Path) (currentFolders : list string)
    (choice : option (PickItem -> bool)) : option (list string) :=
  match workspaceFolders with
  | [] => None
  | _ :: _ =>
      let allFolders := getAllWorkspaceFolders fs h workspaceFolders in
      let items := pickItems allFolders currentFolders in
      match choice with
      | None => None
      | Some ticked => Some (map pickLabel (List.filter ticked items))
      end
  end.

End Picker.

(** ** Further notions used to state properties *)

Module Obs2.
Import Str Fs Store.

(** Number of status bar refreshes in a trace. *)
Definition statusBarUpdates (t : list Effect) : nat :=
  List.length (List.filter
    (fun e => match e with StatusBar _ => true | _ => false end) t).

(** The state that the rest of the extension reads: scopes, active scope
    and saved settings. *)
Definition sameState (a b : ScopeManager) : Prop :=
  scopes a = scopes b /\ activeScope a = activeScope b
  /\ config a = config b.

(** The saved settings are those in memory. *)
Definition inSync (s : ScopeManager) : Prop :=
  config s = mkConfig (scopes s) (activeScope s).

(** A decision that returned true, and one that threw. *)
Definition shown {E} (r : Result bool E) : bool :=
  match r with Returned b => b | Thrown _ => false end.

Definition throws {A E} (r : Result A E) : bool :=
  match r with Returned _ => false | Thrown _ => true end.

(** Two characters in UTF-8: U+1F600, above the basic plane, and U+FF5E,
    in the basic plane above the surrogates. *)
Definition utf8 (bytes : list nat) : string :=
  fold_right (fun b rest => String (ascii_of_nat b) rest) EmptyString bytes.

Definition grinningFace : string := utf8 [240; 159; 152; 128].
Definition fullwidthTilde : string := utf8 [239; 189; 158].

(** A string written the other way: with a backslash for every slash. *)
Fixpoint withBackslashes (s : string) : string :=
  match s with
  | EmptyString => EmptyString
  | String c rest =>
      String (if Ascii.eqb c "/"%char then "\"%char else c)
        (withBackslashes rest)
  end.

(** In a listing, no file comes before a directory. *)
Fixpoint directoriesFirst (l : list Child) : bool :=
  match l with
  | [] => true
  | c :: rest =>
      match c_type c with
      | Directory => directoriesFirst rest
      | File =>
          forallb (fun d => FileType_eqb (c_type d) File) rest
      end
  end.

End Obs2.

(** * Properties *)

(** ** Strings *)

Module StrFacts.
Import Str.

Lemma startsWith_spec (s p : string) :
  startsWith s p = true <-> exists rest, s = p ++ rest.
Proof.
  unfold startsWith. revert s.
  induction p as [|c p IH]; intros s.
  - destruct s; simpl; split; eauto.
  - destruct s as [|d s]; simpl.
    + split; [discriminate|]. intros [r Hr]. discriminate.
    + destruct (ascii_dec c d) as [->|Hne].
      * rewrite IH. split; intros [r Hr]; exists r.
        -- simpl. now rewrite Hr.
        -- simpl in Hr. now injection Hr.
      * split; [discriminate|]. intros [r Hr]. simpl in Hr.
        injection Hr as -> _. now destruct Hne.
Qed.

Lemma normalize_canonical (s : string) :
  canonical s = true -> normalize s = s.
Proof.
  induction s as [|c s IH]; simpl; [reflexivity|].
  intros H. apply andb_prop in H as [Hc Hs].
  unfold slash. destruct (Ascii.eqb c "\"%char); [discriminate|].
  now rewrite IH.
Qed.

Lemma normalize_idem (s : string) : normalize (normalize s) = normalize s.
Proof.
  induction s as [|c s IH]; simpl; [reflexivity|].
  rewrite IH. f_equal. unfold slash.
  destruct (Ascii.eqb c "\"%char) eqn:E; [reflexivity|]. now rewrite E.
Qed.

Lemma truthy_ne (s : string) : truthy s = true <-> s <> "".
Proof. destruct s; simpl; split; congruence. Qed.

Lemma app_assoc_str (a b c : string) : (a ++ b) ++ c = a ++ (b ++ c).
Proof.
  induction a as [|x a IH]; [reflexivity|].
  change (String x ((a ++ b) ++ c) = String x (a ++ (b ++ c))).
  now rewrite IH.
Qed.

Lemma blank_truthy (s : string) : blank s = false -> truthy s = true.
Proof. destruct s; simpl; [discriminate|reflexivity]. Qed.

End StrFacts.

(** ** Visibility filter *)

Module VisibilityFacts.
Import Str StrFacts Js Visibility.

Lemma withinFolders_spec (p : string) (fs : list string) :
  withinFolders p fs = true <-> exists f, In f fs /\ related p f.
Proof.
  induction fs as [|f fs IH]; simpl.
  - split; [discriminate|]. intros [f [[] _]].
  - destruct (String.eqb_spec (normalize p) (normalize f)) as [Heq|Hne]; simpl.
    { split; [|reflexivity]. intros _. exists f. split; [now left|now left]. }
    destruct (startsWith (normalize p) (normalize f ++ "/")) eqn:E1.
    { split; [|reflexivity]. intros _. exists f. split; [now left|].
      right; left. apply startsWith_spec in E1 as [r Hr]. exists r.
      now rewrite Hr, app_assoc_str. }
    destruct (startsWith (normalize f) (normalize p ++ "/")) eqn:E2.
    { split; [|reflexivity]. intros _. exists f. split; [now left|].
      right; right. apply startsWith_spec in E2 as [r Hr]. exists r.
      now rewrite Hr, app_assoc_str. }
    rewrite IH. split.
    + intros [g [Hg Hr]]. exists g. split; [now right|exact Hr].
    + intros [g [[<-|Hg] Hr]]; [|now exists g].
      exfalso. destruct Hr as [H|[[r H]|[r H]]].
      * contradiction.
      * assert (startsWith (normalize p) (normalize f ++ "/") = true) as X.
        { apply startsWith_spec. exists r. now rewrite app_assoc_str. }
        congruence.
      * assert (startsWith (normalize f) (normalize p ++ "/") = true) as X.
        { apply startsWith_spec. exists r. now rewrite app_assoc_str. }
        congruence.
Qed.

Lemma related_canonical (p f : string) :
  canonical p = true -> canonical f = true ->
  related p f <-> relatedLiterally p f.
Proof.
  intros Hp Hf. unfold related, relatedLiterally.
  now rewrite (normalize_canonical p Hp), (normalize_canonical f Hf).
Qed.

Lemma inherited_truthy (k : string) : inherited k = true -> truthy k = true.
Proof. destruct k; [discriminate|reflexivity]. Qed.

Lemma get_own (scopes : gmap string Scope) (k : string) (scope : Scope) :
  scopes !! k = Some scope -> get scopes k = Own scope.
Proof. intros H. unfold get. now rewrite H. Qed.

Lemma get_undefined (scopes : gmap string Scope) (k : string) :
  scopes !! k = None -> inherited k = false -> get scopes k = Undefined.
Proof. intros H Hi. unfold get. now rewrite H, Hi. Qed.

Lemma get_inherited (scopes : gmap string Scope) (k : string) :
  scopes !! k = None -> inherited k = true -> get scopes k = Inherited.
Proof. intros H Hi. unfold get. now rewrite H, Hi. Qed.

Lemma get_Own_inv (scopes : gmap string Scope) (k : string) (scope : Scope) :
  get scopes k = Own scope -> scopes !! k = Some scope.
Proof.
  unfold get. destruct (scopes !! k); [congruence|].
  destruct (inherited k); discriminate.
Qed.

Lemma guard_active (scopes : gmap string Scope) (active : string)
    (scope : Scope) :
  active <> "" -> scopes !! active = Some scope ->
  guard (Some active) scopes = Own scope.
Proof.
  intros Hne Hin. unfold guard.
  apply truthy_ne in Hne. rewrite Hne. now apply get_own.
Qed.

Lemma guard_dangling (scopes : gmap string Scope) (active : string) :
  scopes !! active = None -> inherited active = false ->
  guard (Some active) scopes = Undefined.
Proof.
  intros Hout Hi. unfold guard. rewrite (get_undefined _ _ Hout Hi).
  now destruct (truthy _).
Qed.

Lemma guard_inherited (scopes : gmap string Scope) (active : string) :
  scopes !! active = None -> inherited active = true ->
  guard (Some active) scopes = Inherited.
Proof.
  intros Hout Hi. unfold guard.
  rewrite (inherited_truthy _ Hi). now apply get_inherited.
Qed.

(** C1. With an active scope whose folders are [F], a path is shown exactly
    when, on the canonical separator form of path and folder (backslashes
    replaced by slashes, as the filter does before it compares), the path
    equals a folder of [F], or begins with a folder of [F] followed by the
    separator, or a folder of [F] begins with the path followed by the
    separator; every other path is not shown.  For a path and folders that
    are already in canonical form the rules hold on the strings as given. *)
Theorem shouldShowEntry_rules (scopes : gmap string Scope) (active : string)
    (scope : Scope) (P : string) :
  active <> "" ->
  scopes !! active = Some scope ->
  (shouldShowEntry P (Some active) scopes = Returned true
     <-> exists f, In f (folders scope) /\ related P f)
  /\ (shouldShowEntry P (Some active) scopes = Returned false
     <-> ~ exists f, In f (folders scope) /\ related P f)
  /\ (canonical P = true ->
      (forall f, In f (folders scope) -> canonical f = true) ->
      (shouldShowEntry P (Some active) scopes = Returned true
         <-> exists f, In f (folders scope) /\ relatedLiterally P f)).
Proof.
  intros Hne Hin. unfold shouldShowEntry.
  rewrite (guard_active _ _ _ Hne Hin).
  pose proof (withinFolders_spec P (folders scope)) as Hspec.
  assert (Hret : forall b : bool,
            @Returned bool JsError (withinFolders P (folders scope))
            = Returned b <-> withinFolders P (folders scope) = b).
  { intros b. split; [now intros [= ->]|now intros ->]. }
  split; [now rewrite Hret|]. split.
  - rewrite Hret. destruct (withinFolders P (folders scope)).
    + split; [discriminate|]. intros Hno. exfalso. apply Hno.
      now apply Hspec.
    + split; [|reflexivity]. intros _ Hex. apply Hspec in Hex. discriminate.
  - intros HP HF. rewrite Hret, Hspec. split.
    + intros [f [Hf Hr]]. exists f. split; [exact Hf|].
      apply related_canonical; auto.
    + intros [f [Hf Hr]]. exists f. split; [exact Hf|].
      apply related_canonical; auto.
Qed.

Lemma shouldShowEntry_rules_witness :
  "Frontend" <> ""
  /\ Demo.someScopes !! "Frontend" = Some Demo.frontend
  /\ (shouldShowEntry "src\components\Header.js" (Some "Frontend")
        Demo.someScopes = Returned true
      <-> exists f, In f (folders Demo.frontend)
                    /\ related "src\components\Header.js" f).
Proof.
  assert (H1 : "Frontend" <> "") by discriminate.
  assert (H2 : Demo.someScopes !! "Frontend" = Some Demo.frontend)
    by reflexivity.
  split; [exact H1|]. split; [exact H2|].
  exact (proj1 (shouldShowEntry_rules Demo.someScopes "Frontend"
                  Demo.frontend "src\components\Header.js" H1 H2)).
Defined.

Lemma shouldShowEntry_dangling (scopes : gmap string Scope)
    (active P : string) :
  scopes !! active = None -> inherited active = false ->
  shouldShowEntry P (Some active) scopes = shouldShowEntry P None scopes.
Proof.
  intros Hout Hi. unfold shouldShowEntry.
  now rewrite (guard_dangling _ _ Hout Hi).
Qed.

Lemma visibleEntries_none (h : Fs.Host) (workspaceFolders : list Fs.Path)
    (scopes : gmap string Scope) (dir : Fs.Path) (entries : list Fs.Dirent) :
  Fs.visibleEntries h workspaceFolders None scopes dir entries
  = Some (map (fun e => (Fs.d_name e, Fs.typeOf e)) entries).
Proof.
  induction entries as [|e entries IH]; [reflexivity|].
  simpl. now rewrite IH.
Qed.

(** When the active scope reference names no scope of the collection and
    is no name that objects inherit, every path is shown, and the overlay
    and the scoped file tree answer as they do with no active scope. *)
Lemma dangling_reference_shows_everything (fs : Fs.FileSystem)
    (h : Fs.Host) (workspaceFolders : list Fs.Path)
    (scopes : gmap string Scope) (active : string) :
  scopes !! active = None ->
  inherited active = false ->
  (forall P, shouldShowEntry P (Some active) scopes = Returned true)
  /\ (forall dir,
        Fs.readDirectory fs h workspaceFolders (Some active) scopes dir
        = Fs.readDirectory fs h workspaceFolders None scopes dir)
  /\ (forall element,
        Fs.getChildren fs h workspaceFolders (Some active) scopes element
        = Fs.getChildren fs h workspaceFolders None scopes element).
Proof.
  intros Hout Hi.
  split; [|split].
  - intros P. now rewrite shouldShowEntry_dangling.
  - intros dir. unfold Fs.readDirectory.
    destruct (Fs.readdir fs dir) as [entries|]; [|reflexivity].
    assert (Heq : Fs.visibleEntries h workspaceFolders (Some active) scopes
                    dir entries
                  = Fs.visibleEntries h workspaceFolders None scopes dir
                      entries).
    { induction entries as [|e entries IH]; [reflexivity|].
      simpl. rewrite IH. now rewrite shouldShowEntry_dangling. }
    now rewrite Heq.
  - intros element. unfold Fs.getChildren.
    now rewrite (guard_dangling _ _ Hout Hi).
Qed.

(** C10. An active scope reference that names no scope of the collection
    but is a name that every object inherits, such as [constructor], is not
    taken as "no scope": the guard finds the inherited property, the
    decision throws for every path where with no active scope it returns
    true, the overlay reports a directory that has entries as not found
    where with no active scope it lists all of them, and the root of the
    scoped file tree throws. *)
Theorem dangling_inherited_name_fails (fs : Fs.FileSystem)
    (h : Fs.Host) (workspaceFolder : Fs.Path)
    (workspaceFolders : list Fs.Path)
    (scopes : gmap string Scope) (active : string)
    (dir : Fs.Path) (entry : Fs.Dirent) (entries : list Fs.Dirent) :
  scopes !! active = None ->
  inherited active = true ->
  Fs.readdir fs dir = Some (entry :: entries) ->
  (forall P, shouldShowEntry P (Some active) scopes = Thrown TypeError
             /\ shouldShowEntry P None scopes = Returned true)
  /\ Fs.readDirectory fs h workspaceFolders (Some active) scopes dir
     = Thrown (Fs.FileNotFound dir)
  /\ Fs.readDirectory fs h workspaceFolders None scopes dir
     = Returned (map (fun e => (Fs.d_name e, Fs.typeOf e)) (entry :: entries))
  /\ Fs.getChildren fs h (workspaceFolder :: workspaceFolders)
       (Some active) scopes None = Thrown TypeError.
Proof.
  intros Hout Hi Hread.
  assert (Hshow : forall P,
            shouldShowEntry P (Some active) scopes = Thrown TypeError).
  { intros P. unfold shouldShowEntry.
    now rewrite (guard_inherited _ _ Hout Hi). }
  split; [|split; [|split]].
  - intros P. split; [apply Hshow|reflexivity].
  - unfold Fs.readDirectory. rewrite Hread. simpl. now rewrite Hshow.
  - unfold Fs.readDirectory. rewrite Hread.
    now rewrite visibleEntries_none.
  - unfold Fs.getChildren. now rewrite (guard_inherited _ _ Hout Hi).
Qed.

Lemma dangling_inherited_name_fails_witness :
  Demo.someScopes !! "constructor" = None
  /\ inherited "constructor" = true
  /\ Fs.readdir Demo.disk ["ws"; "src"]
     = Some [Demo.dir "components"; Demo.dir "api"]
  /\ Fs.readDirectory Demo.disk Demo.posix [Demo.ws] (Some "constructor")
       Demo.someScopes ["ws"; "src"]
     = Thrown (Fs.FileNotFound ["ws"; "src"]).
Proof.
  assert (H1 : Demo.someScopes !! "constructor" = None) by reflexivity.
  assert (H2 : inherited "constructor" = true) by reflexivity.
  assert (H3 : Fs.readdir Demo.disk ["ws"; "src"]
               = Some [Demo.dir "components"; Demo.dir "api"])
    by reflexivity.
  split; [exact H1|]. split; [exact H2|]. split; [exact H3|].
  exact (proj1 (proj2 (dangling_inherited_name_fails Demo.disk Demo.posix
                         Demo.ws [Demo.ws] Demo.someScopes "constructor"
                         ["ws"; "src"] (Demo.dir "components")
                         [Demo.dir "api"] H1 H2 H3))).
Defined.

End VisibilityFacts.

(** ** Directory listings *)

Module FsFacts.
Import Str StrFacts Fs Obs.

Lemma In_insertBy {A} (cmp : A -> A -> Z) (x y : A) (l : list A) :
  In x (insertBy cmp y l) <-> x = y \/ In x l.
Proof.
  induction l as [|z l IH]; simpl.
  - intuition congruence.
  - destruct (cmp y z <=? 0)%Z; simpl; [intuition congruence|].
    rewrite IH. intuition congruence.
Qed.

Lemma In_sortBy {A} (cmp : A -> A -> Z) (x : A) (l : list A) :
  In x (sortBy cmp l) <-> In x l.
Proof.
  unfold sortBy. induction l as [|y l IH]; simpl; [reflexivity|].
  rewrite In_insertBy, IH. intuition congruence.
Qed.

Lemma excluded_inline (n : string) :
  negb (startsWith n ".") && negb (String.eqb n "node_modules")
  = negb (excluded n).
Proof. unfold excluded. now rewrite negb_orb. Qed.

(** What the child listing of the tree contains. *)
Lemma listChildren_In (fs : FileSystem) (h : Host) (dir : Path) (c : Child) :
  In c (listChildren fs h dir) <->
  exists entries e,
    readdir fs dir = Some entries /\ In e entries
    /\ excluded (d_name e) = false
    /\ c = mkChild (d_name e) (join dir (d_name e)) (typeOf e).
Proof.
  unfold listChildren. destruct (readdir fs dir) as [entries|].
  - rewrite In_sortBy, in_flat_map. split.
    + intros [e [He Hc]]. fold (excluded (d_name e)) in Hc.
      destruct (excluded (d_name e)) eqn:Ex; simpl in Hc; [contradiction|].
      destruct Hc as [<-|[]]. exists entries, e. auto.
    + intros [entries' [e [Heq [He [Ex ->]]]]]. injection Heq as <-.
      exists e. split; [exact He|]. fold (excluded (d_name e)).
      rewrite Ex. now left.
  - simpl. split; [contradiction|]. intros [? [? [? _]]]. discriminate.
Qed.

(** The decision throws for every path or for none. *)
Lemma shouldShowEntry_cases (activeScope : option string)
    (scopes : gmap string Scope) :
  (forall P, Visibility.shouldShowEntry P activeScope scopes
             = Thrown TypeError)
  \/ (exists f, forall P, Visibility.shouldShowEntry P activeScope scopes
                          = Returned (f P)).
Proof.
  unfold Visibility.shouldShowEntry.
  destruct (guard activeScope scopes) as [|scope|].
  - right. now exists (fun _ => true).
  - right. now exists (fun P => Visibility.withinFolders P (folders scope)).
  - now left.
Qed.

Lemma visibleEntries_returned (h : Host) (workspaceFolders : list Path)
    (activeScope : option string) (scopes : gmap string Scope)
    (f : string -> bool) (dir : Path) (entries : list Dirent) :
  (forall P, Visibility.shouldShowEntry P activeScope scopes
             = Returned (f P)) ->
  visibleEntries h workspaceFolders activeScope scopes dir entries
  = Some (flat_map (fun entry =>
            if f (getRelativePath h workspaceFolders
                    (join dir (d_name entry)))
            then [(d_name entry, typeOf entry)] else []) entries).
Proof.
  intros Hf. induction entries as [|e entries IH]; [reflexivity|].
  simpl. rewrite Hf, IH. now destruct (f _).
Qed.

Lemma visibleEntries_thrown (h : Host) (workspaceFolders : list Path)
    (activeScope : option string) (scopes : gmap string Scope)
    (dir : Path) (entries : list Dirent) :
  (forall P, Visibility.shouldShowEntry P activeScope scopes
             = Thrown TypeError) ->
  visibleEntries h workspaceFolders activeScope scopes dir entries
  = match entries with [] => Some [] | _ :: _ => None end.
Proof.
  intros Hf. destruct entries as [|e entries]; [reflexivity|].
  simpl. now rewrite Hf.
Qed.

(** What the overlay lists. *)
Lemma readDirectory_In (fs : FileSystem) (h : Host)
    (workspaceFolders : list Path) (activeScope : option string)
    (scopes : gmap string Scope) (dir : Path) (n : string) (t : FileType) :
  In (n, t) (listing (readDirectory fs h workspaceFolders activeScope scopes
                        dir)) <->
  exists entries e,
    readdir fs dir = Some entries /\ In e entries
    /\ n = d_name e /\ t = typeOf e
    /\ Visibility.shouldShowEntry
         (getRelativePath h workspaceFolders (join dir n)) activeScope scopes
       = Returned true.
Proof.
  unfold readDirectory. destruct (readdir fs dir) as [entries|]; simpl.
  - destruct (shouldShowEntry_cases activeScope scopes) as [Hthrow|[f Hf]].
    + rewrite (visibleEntries_thrown _ _ _ _ _ _ Hthrow). split.
      * destruct entries; contradiction.
      * intros [? [? [_ [_ [_ [_ Show]]]]]]. rewrite Hthrow in Show.
        discriminate.
    + rewrite (visibleEntries_returned _ _ _ _ f _ _ Hf). simpl.
      rewrite in_flat_map. split.
      * intros [e [He Hin]].
        destruct (f _) eqn:Show; simpl in Hin; [|contradiction].
        destruct Hin as [Heq|[]]. injection Heq as <- <-.
        exists entries, e. rewrite Hf, Show. auto.
      * intros [entries' [e [Heq [He [-> [-> Show]]]]]]. injection Heq as <-.
        exists e. split; [exact He|]. rewrite Hf in Show.
        injection Show as ->. now left.
  - split; [contradiction|]. intros [? [? [? _]]]. discriminate.
Qed.

Lemma readDirectory_unfiltered (fs : FileSystem) (h : Host)
    (workspaceFolders : list Path) (scopes : gmap string Scope) (dir : Path) :
  readDirectory fs h workspaceFolders None scopes dir
  = match readdir fs dir with
    | Some entries =>
        Returned (map (fun e => (d_name e, typeOf e)) entries)
    | None => Thrown (FileNotFound dir)
    end.
Proof.
  unfold readDirectory. destruct (readdir fs dir) as [entries|];
    [|reflexivity].
  now rewrite VisibilityFacts.visibleEntries_none.
Qed.

(** C2, as the code has it. With no active scope the visibility decision is
    true for every path and the overlay returns every entry that the read
    of the directory yields, in the order read, hidden names and
    [node_modules] included; the child listing of the tree consists of
    exactly those of these entries whose name is not excluded. *)
Theorem no_active_scope_passes_through (fs : FileSystem) (h : Host)
    (workspaceFolders : list Path) (scopes : gmap string Scope) (dir : Path) :
  (forall P, Visibility.shouldShowEntry P None scopes = Returned true
             /\ Visibility.shouldShowEntry P (Some "") scopes
                = Returned true)
  /\ readDirectory fs h workspaceFolders None scopes dir
     = match readdir fs dir with
       | Some entries =>
           Returned (map (fun e => (d_name e, typeOf e)) entries)
       | None => Thrown (FileNotFound dir)
       end
  /\ (forall entry,
        In entry (map entryOf (listChildren fs h dir))
        <-> In entry (listing (readDirectory fs h workspaceFolders None
                                 scopes dir))
            /\ excluded (fst entry) = false).
Proof.
  split; [intros P; split; reflexivity|].
  split; [apply readDirectory_unfiltered|].
  intros [n t]. rewrite in_map_iff. simpl. split.
  - intros [c [Hc Hin]]. apply listChildren_In in Hin
      as [entries [e [Hread [He [Ex ->]]]]].
    unfold entryOf in Hc. simpl in Hc. injection Hc as <- <-.
    split; [|exact Ex]. apply readDirectory_In. exists entries, e. auto.
  - intros [Hin Ex]. apply readDirectory_In in Hin
      as [entries [e [Hread [He [-> [-> _]]]]]].
    exists (mkChild (d_name e) (join dir (d_name e)) (typeOf e)).
    split; [reflexivity|]. apply listChildren_In. exists entries, e. auto.
Qed.

(** C2, as stated, fails: with no active scope the overlay lists [.git],
    which the child listing leaves out. *)
Lemma overlay_differs_from_listChildren :
  In (".git", Directory)
     (listing (readDirectory Demo.disk Demo.posix [Demo.ws] None ∅ Demo.ws))
  /\ ~ In (".git", Directory)
         (map entryOf (listChildren Demo.disk Demo.posix Demo.ws)).
Proof.
  split.
  - vm_compute. tauto.
  - vm_compute. intros H. repeat destruct H as [H|H]; try discriminate H.
    exact H.
Qed.

(** *** The recursive enumerator *)

Lemma relative_below (root rel : Path) :
  relative root (root ++ rel)%list = rel.
Proof.
  induction root as [|c root IH]; simpl; [reflexivity|].
  now rewrite String.eqb_refl.
Qed.

Lemma getDirectoriesRecursive_eq (fs : FileSystem)
    (dirPath workspaceRoot : Path) (maxDepth currentDepth : nat) :
  getDirectoriesRecursive fs dirPath workspaceRoot maxDepth currentDepth
  = if Nat.leb maxDepth currentDepth then []
    else match readdir fs dirPath with
         | None => []
         | Some items =>
             flat_map (fun item =>
               if d_isDirectory item
                  && negb (startsWith (d_name item) ".")
                  && negb (String.eqb (d_name item) "node_modules")
               then
                 let fullPath := join dirPath (d_name item) in
                 relative workspaceRoot fullPath
                 :: getDirectoriesRecursive fs fullPath workspaceRoot
                      maxDepth (currentDepth + 1)
               else []) items
         end.
Proof.
  unfold getDirectoriesRecursive.
  destruct (Nat.leb_spec maxDepth currentDepth) as [Hle|Hlt].
  - replace (maxDepth - currentDepth) with 0 by lia. reflexivity.
  - replace (maxDepth - currentDepth)
      with (S (maxDepth - (currentDepth + 1))) by lia.
    reflexivity.
Qed.

Lemma isDirectoryAt_cons (fs : FileSystem) (dir : Path) (n : string)
    (rest : Path) :
  isDirectoryAt fs dir (n :: rest) = true <->
  exists items item,
    readdir fs dir = Some items /\ In item items
    /\ d_isDirectory item = true /\ d_name item = n
    /\ isDirectoryAt fs (join dir n) rest = true.
Proof.
  simpl. destruct (readdir fs dir) as [items|].
  - rewrite andb_true_iff, existsb_exists. split.
    + intros [[item [Hin Hit]] Hrest].
      apply andb_true_iff in Hit as [Hd Hn]. apply String.eqb_eq in Hn.
      exists items, item. auto.
    + intros [items' [item [Heq [Hin [Hd [Hn Hrest]]]]]].
      injection Heq as <-. split; [|exact Hrest].
      exists item. split; [exact Hin|].
      rewrite Hd. simpl. now apply String.eqb_eq.
  - split; [discriminate|]. intros [? [? [? _]]]. discriminate.
Qed.

(** The enumerator, called [remaining] levels above its bound in the
    directory [pre] below the root, yields exactly the directories that lie
    one to [remaining] levels below [pre] along unexcluded directories. *)
Lemma enumerate_In (fs : FileSystem) (root : Path) (remaining : nat) :
  forall (pre rel : Path),
    In rel (enumerate remaining fs (root ++ pre)%list root) <->
    exists suffix,
      rel = (pre ++ suffix)%list /\ suffix <> []
      /\ List.length suffix <= remaining
      /\ isDirectoryAt fs (root ++ pre)%list suffix = true
      /\ unexcluded suffix = true.
Proof.
  induction remaining as [|k IH]; intros pre rel.
  - simpl. split; [contradiction|].
    intros [[|x suffix] [_ [Hne [Hlen _]]]]; [congruence|simpl in Hlen; lia].
  - simpl. destruct (readdir fs (root ++ pre)%list) as [items|] eqn:Hread.
    + rewrite in_flat_map. split.
      * intros [item [Hin Hrel]].
        rewrite <- andb_assoc, excluded_inline in Hrel.
        destruct (d_isDirectory item) eqn:Hd; simpl in Hrel; [|contradiction].
        destruct (excluded (d_name item)) eqn:Ex; simpl in Hrel;
          [contradiction|].
        unfold join in Hrel. rewrite <- app_assoc, relative_below in Hrel.
        assert (Hstep : isDirectoryAt fs (root ++ pre)%list
                          [d_name item] = true).
        { apply isDirectoryAt_cons. exists items, item. auto. }
        destruct Hrel as [<-|Hdeep].
        -- exists [d_name item]. split; [reflexivity|].
           split; [discriminate|]. split; [simpl; lia|].
           split; [exact Hstep|]. simpl. now rewrite Ex.
        -- apply IH in Hdeep as [suffix [-> [Hne [Hlen [Hdir Hun]]]]].
           exists (d_name item :: suffix).
           split; [now rewrite <- app_assoc|].
           split; [discriminate|]. split; [simpl; lia|]. split.
           ++ apply isDirectoryAt_cons. exists items, item.
              unfold join. rewrite <- app_assoc. auto.
           ++ simpl. now rewrite Ex.
      * intros [[|x suffix] [-> [Hne [Hlen [Hdir Hun]]]]]; [congruence|].
        apply isDirectoryAt_cons in Hdir
          as [items' [item [Heq [Hin [Hd [Hn Hrest]]]]]].
        rewrite Hread in Heq. injection Heq as <-.
        simpl in Hun. apply andb_true_iff in Hun as [Hx Hun].
        apply negb_true_iff in Hx.
        exists item. split; [exact Hin|].
        rewrite <- andb_assoc, excluded_inline, Hd, Hn, Hx. simpl.
        unfold join. rewrite <- app_assoc, relative_below.
        destruct suffix as [|y suffix]; [now left|]. right.
        apply IH. exists (y :: suffix).
        split; [now rewrite <- app_assoc|]. split; [discriminate|].
        split; [simpl in *; lia|]. split; [|exact Hun].
        unfold join in Hrest. now rewrite <- app_assoc in Hrest.
    + split; [contradiction|].
      intros [[|x suffix] [_ [Hne [_ [Hdir _]]]]]; [congruence|].
      simpl in Hdir. rewrite Hread in Hdir. discriminate.
Qed.

Lemma listDirectories_In (fs : FileSystem) (root rel : Path)
    (maxDepth : nat) :
  In rel (getDirectoriesRecursive fs root root maxDepth 0) <->
  rel <> [] /\ List.length rel <= maxDepth
  /\ isDirectoryAt fs root rel = true /\ unexcluded rel = true.
Proof.
  unfold getDirectoriesRecursive. rewrite Nat.sub_0_r.
  pose proof (enumerate_In fs root maxDepth [] rel) as H.
  rewrite app_nil_r in H. rewrite H. simpl. split.
  - intros [suffix [-> Hrest]]. exact Hrest.
  - intros Hrest. now exists rel.
Qed.

(** C4, as the code has it. With [maxDepth = 3] the enumerator started at
    a root lists every directory nested exactly three levels below the root
    that the walk can reach, each of its components being listed as a
    directory by a read of the directory above it that succeeds, and none
    of whose path components is a hidden name or [node_modules]; it lists
    no directory nested four or more levels below the root; at any depth
    the recursion returns nothing once [currentDepth >= maxDepth]. *)
Theorem depth_bound (fs : FileSystem) (root rel : Path) :
  (List.length rel = 3 ->
   isDirectoryAt fs root rel = true ->
   unexcluded rel = true ->
   In rel (getDirectoriesRecursive fs root root 3 0))
  /\ (4 <= List.length rel ->
      ~ In rel (getDirectoriesRecursive fs root root 3 0))
  /\ (forall dirPath workspaceRoot maxDepth currentDepth,
        maxDepth <= currentDepth ->
        getDirectoriesRecursive fs dirPath workspaceRoot maxDepth
          currentDepth = []).
Proof.
  split; [|split].
  - intros Hlen Hdir Hun. apply listDirectories_In.
    split; [intros ->; discriminate|]. split; [lia|]. auto.
  - intros Hlen Hin. apply listDirectories_In in Hin as [_ [Hle _]]. lia.
  - intros dirPath workspaceRoot maxDepth currentDepth Hle.
    rewrite getDirectoriesRecursive_eq.
    destruct (Nat.leb_spec maxDepth currentDepth); [reflexivity|lia].
Qed.

Lemma depth_bound_witness :
  List.length ["src"; "components"; "ui"] = 3
  /\ isDirectoryAt Demo.disk Demo.ws ["src"; "components"; "ui"] = true
  /\ unexcluded ["src"; "components"; "ui"] = true
  /\ In ["src"; "components"; "ui"]
        (getDirectoriesRecursive Demo.disk Demo.ws Demo.ws 3 0)
  /\ 4 <= List.length ["src"; "components"; "ui"; "deep"]
  /\ ~ In ["src"; "components"; "ui"; "deep"]
         (getDirectoriesRecursive Demo.disk Demo.ws Demo.ws 3 0).
Proof.
  assert (H1 : List.length ["src"; "components"; "ui"] = 3) by reflexivity.
  assert (H2 : isDirectoryAt Demo.disk Demo.ws ["src"; "components"; "ui"]
               = true) by reflexivity.
  assert (H3 : unexcluded ["src"; "components"; "ui"] = true)
    by reflexivity.
  assert (H4 : 4 <= List.length ["src"; "components"; "ui"; "deep"])
    by (simpl; lia).
  split; [exact H1|]. split; [exact H2|]. split; [exact H3|]. split.
  - exact (proj1 (depth_bound Demo.disk Demo.ws ["src"; "components"; "ui"])
             H1 H2 H3).
  - split; [exact H4|].
    exact (proj1 (proj2 (depth_bound Demo.disk Demo.ws
                           ["src"; "components"; "ui"; "deep"])) H4).
Defined.

(** C4, as stated, fails: three directories nested exactly three levels
    below the root, one under [node_modules], one with a hidden name and
    one under a directory that cannot be read, are not listed. *)
Lemma directories_at_depth_three_not_listed :
  List.length ["node_modules"; "pkg"; "lib"] = 3
  /\ isDirectoryAt Demo.disk Demo.ws ["node_modules"; "pkg"; "lib"] = true
  /\ ~ In ["node_modules"; "pkg"; "lib"]
         (getDirectoriesRecursive Demo.disk Demo.ws Demo.ws 3 0)
  /\ List.length ["src"; "components"; ".cache"] = 3
  /\ isDirectoryAt Demo.disk Demo.ws ["src"; "components"; ".cache"] = true
  /\ ~ In ["src"; "components"; ".cache"]
         (getDirectoriesRecursive Demo.disk Demo.ws Demo.ws 3 0)
  /\ List.length ["locked"; "in"; "deep"] = 3
  /\ stat Demo.disk (Demo.ws ++ ["locked"; "in"; "deep"])%list = Some true
  /\ unexcluded ["locked"; "in"; "deep"] = true
  /\ readdir Demo.disk (Demo.ws ++ ["locked"])%list = None
  /\ ~ In ["locked"; "in"; "deep"]
         (getDirectoriesRecursive Demo.disk Demo.ws Demo.ws 3 0).
Proof.
  assert (Hout : forall rel,
            unexcluded rel && isDirectoryAt Demo.disk Demo.ws rel = false ->
            ~ In rel (getDirectoriesRecursive Demo.disk Demo.ws Demo.ws 3 0)).
  { intros rel Hex Hin.
    apply listDirectories_In in Hin as [_ [_ [Hdir Hun]]].
    rewrite Hdir, Hun in Hex. discriminate. }
  repeat split; try reflexivity; apply Hout; reflexivity.
Qed.

(** C3, as the code has it. No path listed by the recursive enumerator has
    a component that starts with a dot or is [node_modules], and no child
    listed by the scoped file tree has such a name, whatever the scope
    state; the overlay excludes no name: it lists exactly the entries read
    from the directory that the visibility decision shows. *)
Theorem excluded_names_in_listings (fs : FileSystem) (h : Host)
    (workspaceFolders : list Path) (activeScope : option string)
    (scopes : gmap string Scope) :
  (forall root maxDepth rel,
     In rel (getDirectoriesRecursive fs root root maxDepth 0) ->
     unexcluded rel = true)
  /\ (forall el c,
        In c (listing (getChildren fs h workspaceFolders activeScope scopes
                         (Some el))) ->
        excluded (c_name c) = false)
  /\ (forall dir n t,
        In (n, t) (listing (readDirectory fs h workspaceFolders activeScope
                              scopes dir)) <->
        exists entries e,
          readdir fs dir = Some entries /\ In e entries
          /\ n = d_name e /\ t = typeOf e
          /\ Visibility.shouldShowEntry
               (getRelativePath h workspaceFolders (join dir n))
               activeScope scopes = Returned true).
Proof.
  split; [|split].
  - intros root maxDepth rel Hin.
    now apply listDirectories_In in Hin as [_ [_ [_ Hun]]].
  - intros el c. unfold getChildren.
    destruct (guard activeScope scopes);
      (destruct workspaceFolders; [contradiction|]); simpl;
      try contradiction; intros Hin;
      apply listChildren_In in Hin as [_ [e [_ [_ [Ex ->]]]]];
      exact Ex.
  - intros dir n t. apply readDirectory_In.
Qed.

Lemma excluded_names_in_listings_witness :
  In ["src"; "components"]
     (getDirectoriesRecursive Demo.disk Demo.ws Demo.ws 3 0)
  /\ unexcluded ["src"; "components"] = true.
Proof.
  assert (H : In ["src"; "components"]
                (getDirectoriesRecursive Demo.disk Demo.ws Demo.ws 3 0))
    by (vm_compute; tauto).
  split; [exact H|].
  exact (proj1 (excluded_names_in_listings Demo.disk Demo.posix [Demo.ws]
                  None ∅) Demo.ws 3 ["src"; "components"] H).
Defined.

(** C3, as stated, fails for the overlay: with no active scope it lists
    [.git] and [node_modules], and with a scope active it lists a dot file
    inside a scoped folder. *)
Lemma overlay_lists_excluded_names :
  excluded ".git" = true /\ excluded "node_modules" = true
  /\ excluded ".eslintrc" = true
  /\ In (".git", Directory)
        (listing (readDirectory Demo.disk Demo.posix [Demo.ws] None
                    Demo.someScopes Demo.ws))
  /\ In ("node_modules", Directory)
        (listing (readDirectory Demo.disk Demo.posix [Demo.ws] None
                    Demo.someScopes Demo.ws))
  /\ In (".eslintrc", File)
        (listing (readDirectory Demo.disk Demo.posix [Demo.ws]
                    (Some "Frontend") Demo.someScopes
                    ["ws"; "src"; "components"])).
Proof. vm_compute. tauto. Qed.

(** C6, as the code has it. When the directory cannot be read, the overlay
    throws [FileNotFound] for it, the scoped file tree returns the empty
    listing without an error, and the recursive enumerator returns nothing
    for it, so that an unreadable directory adds no descendants to an
    enumeration that goes on. *)
Theorem unreadable_directory (fs : FileSystem) (h : Host)
    (workspaceFolders : list Path) (activeScope : option string)
    (scopes : gmap string Scope) (dir : Path) :
  readdir fs dir = None ->
  readDirectory fs h workspaceFolders activeScope scopes dir
  = Thrown (FileNotFound dir)
  /\ (forall el, c_uri el = dir ->
        getChildren fs h workspaceFolders activeScope scopes (Some el)
        = Returned [])
  /\ (forall workspaceRoot maxDepth currentDepth,
        getDirectoriesRecursive fs dir workspaceRoot maxDepth currentDepth
        = []).
Proof.
  intros Hread. split; [|split].
  - unfold readDirectory. now rewrite Hread.
  - intros el <-. unfold getChildren, listChildren. rewrite Hread.
    destruct (guard activeScope scopes); now destruct workspaceFolders.
  - intros workspaceRoot maxDepth currentDepth.
    rewrite getDirectoriesRecursive_eq, Hread.
    now destruct (Nat.leb maxDepth currentDepth).
Qed.

Lemma unreadable_directory_witness :
  readdir Demo.disk ["ws"; "locked"] = None
  /\ readDirectory Demo.disk Demo.posix [Demo.ws] (Some "Frontend")
       Demo.someScopes ["ws"; "locked"]
     = Thrown (FileNotFound ["ws"; "locked"]).
Proof.
  assert (H : readdir Demo.disk ["ws"; "locked"] = None) by reflexivity.
  split; [exact H|].
  exact (proj1 (unreadable_directory Demo.disk Demo.posix [Demo.ws]
                  (Some "Frontend") Demo.someScopes ["ws"; "locked"] H)).
Defined.

(** C6, as stated, fails for the scoped file tree: the directory cannot be
    read and the listing is returned empty, no error reaches the caller. *)
Lemma tree_listing_failure_is_silent :
  readdir Demo.disk ["ws"; "locked"] = None
  /\ getChildren Demo.disk Demo.posix [Demo.ws] (Some "Frontend")
       Demo.someScopes (Some (mkChild "locked" ["ws"; "locked"] Directory))
     = Returned []
  /\ forall e,
       getChildren Demo.disk Demo.posix [Demo.ws] (Some "Frontend")
         Demo.someScopes (Some (mkChild "locked" ["ws"; "locked"] Directory))
       <> Thrown e.
Proof.
  split; [reflexivity|]. split; [reflexivity|].
  intros e. vm_compute. discriminate.
Qed.

End FsFacts.

(** ** Scope store *)

Module StoreFacts.
Import Str StrFacts Js Store VisibilityFacts.

Lemma present_key (m : gmap string Scope) (k : string) :
  is_Some (m !! k) -> present m k = true.
Proof. intros [v H]. unfold present. now rewrite (get_own _ _ _ H). Qed.

Lemma present_inherited (m : gmap string Scope) (k : string) :
  inherited k = true -> present m k = true.
Proof.
  intros H. unfold present, get. rewrite H. now destruct (m !! k).
Qed.

Lemma present_false (m : gmap string Scope) (k : string) :
  present m k = false <-> m !! k = None /\ inherited k = false.
Proof.
  unfold present, get. destruct (m !! k); [intuition congruence|].
  destruct (inherited k); intuition congruence.
Qed.

Lemma present_true (m : gmap string Scope) (k : string) :
  present m k = true <-> is_Some (m !! k) \/ inherited k = true.
Proof.
  unfold present, get. destruct (m !! k) as [v|].
  - split; [eauto|reflexivity].
  - destruct (inherited k); split; auto; try discriminate.
    intros [[? H]|H]; discriminate.
Qed.

Lemma inherited_not_blank (k : string) :
  inherited k = true -> blank k = false.
Proof.
  unfold inherited, prototypeNames. simpl. rewrite !orb_true_iff.
  intros H. repeat destruct H as [H|H];
    try (apply String.eqb_eq in H; subst k; reflexivity).
  discriminate.
Qed.

(** Saving, notifying and the status bar leave the scopes and the active
    reference as they are. *)
Lemma saveScopes_scopes (s : ScopeManager) (o : SaveOutcome) :
  scopes (fst (saveScopes s o)) = scopes s
  /\ activeScope (fst (saveScopes s o)) = activeScope s.
Proof. destruct o; simpl; auto. Qed.

Lemma updateStatusBar_state (s : ScopeManager) :
  scopes (fst (updateStatusBar s)) = scopes s
  /\ activeScope (fst (updateStatusBar s)) = activeScope s
  /\ config (fst (updateStatusBar s)) = config s.
Proof. unfold updateStatusBar. now destruct (guard _ _). Qed.

(** The status bar update of a manager whose active reference is [a]. *)
Lemma updateStatusBar_eq (s : ScopeManager) :
  updateStatusBar s
  = match guard (activeScope s) (scopes s) with
    | Own _ => (emit s (StatusBar (activeScope s)), true)
    | Inherited => (emit s (StatusBar (activeScope s)), false)
    | Undefined => (emit s (StatusBar None), true)
    end.
Proof. reflexivity. Qed.

Lemma validRef_insert (m : gmap string Scope) (a : option string)
    (k : string) (v : Scope) :
  validRef m a -> validRef (<[k := v]> m) a.
Proof.
  destruct a as [n|]; simpl; [|auto]. intros [H|H]; [now left|right].
  destruct (decide (k = n)) as [->|Hne].
  - rewrite lookup_insert_eq. eauto.
  - now rewrite lookup_insert_ne.
Qed.

Lemma truthy_false (n : string) : truthy n = false -> n = "".
Proof. destruct n; [reflexivity|discriminate]. Qed.

(** The outcome of an activation whose save succeeds. *)
Lemma setActiveScope_saved (s : ScopeManager) (n : string) :
  setActiveScope s n Saves
  = let s2 := fst (saveScopes (withActiveScope s (Some n)) Saves) in
    let shown := if truthy n then Some n else None in
    match get (scopes s) n with
    | Undefined => (emit s (Shown (NotFound n)), Refused (NotFound n))
    | Own _ =>
        (emit (emit (emit s2 (StatusBar shown)) ScopeChanged)
           (Shown (Activated n)), Done)
    | Inherited =>
        if truthy n then (emit s2 (StatusBar (Some n)), Failed)
        else (emit (emit (emit s2 (StatusBar None)) ScopeChanged)
                (Shown (Activated n)), Done)
    end.
Proof.
  unfold setActiveScope, present, updateStatusBar. cbn.
  destruct (get (scopes s) n) eqn:Hg; cbn; [reflexivity| |];
    destruct (truthy n); cbn; rewrite ?Hg; reflexivity.
Qed.

Lemma valid_setActiveScope (s : ScopeManager) (n : string)
    (save : SaveOutcome) :
  valid s -> snd (setActiveScope s n save) <> Failed ->
  valid (fst (setActiveScope s n save)).
Proof.
  intros Hv. destruct save.
  - rewrite setActiveScope_saved. cbn.
    destruct (get (scopes s) n) eqn:Hg; cbn; [intros _; exact Hv| |].
    + intros _. right. apply get_Own_inv in Hg. cbn. eauto.
    + destruct (truthy n) eqn:Ht; cbn; [congruence|intros _].
      apply truthy_false in Ht. now left.
  - unfold setActiveScope. destruct (present (scopes s) n); cbn;
      [congruence|intros _; exact Hv].
  - unfold setActiveScope. destruct (present (scopes s) n); cbn;
      [congruence|intros _; exact Hv].
Qed.

Lemma clearActiveScope_saved (s : ScopeManager) (p : string) :
  activeScope s = Some p -> truthy p = true ->
  clearActiveScope s Saves
  = let s2 := fst (saveScopes (withActiveScope s None) Saves) in
    (emit (emit (emit s2 (StatusBar None)) ScopeChanged)
       (Shown (Cleared p)), Done).
Proof.
  intros Ha Ht. unfold clearActiveScope. rewrite Ha, Ht. reflexivity.
Qed.

Lemma valid_clearActiveScope (s : ScopeManager) (save : SaveOutcome) :
  valid s -> valid (fst (clearActiveScope s save)).
Proof.
  intros Hv. unfold clearActiveScope.
  destruct (activeScope s) as [p|] eqn:Ha.
  - destruct (truthy p).
    + destruct save; simpl; exact I.
    + unfold valid, validRef. simpl. rewrite Ha. unfold valid, validRef in Hv.
      now rewrite Ha in Hv.
  - unfold valid, validRef. simpl. now rewrite Ha.
Qed.

Lemma valid_createScope (s : ScopeManager) (typed : option string)
    (selected : option (list string)) (now : string)
    (save : SaveOutcome) (activate : option string) (save' : SaveOutcome) :
  valid s ->
  snd (createScope s typed selected now save activate save') <> Failed ->
  valid (fst (createScope s typed selected now save activate save')).
Proof.
  intros Hv. unfold createScope.
  destruct (showInputBox _ typed) as [m|[scopeName|]]; simpl;
    try (intros _; exact Hv).
  destruct (truthy scopeName); simpl; [|intros _; exact Hv].
  destruct selected as [[|f fl]|]; simpl; try (intros _; exact Hv).
  assert (Hins : validRef (<[scopeName := mkScope (f :: fl) now ""]>
                             (scopes s)) (activeScope s))
    by now apply validRef_insert.
  destruct save; simpl; try congruence.
  destruct activate as [answer|]; [|intros _; exact Hins].
  destruct (String.eqb answer "Yes"); [|intros _; exact Hins].
  apply valid_setActiveScope. exact Hins.
Qed.

Lemma valid_editScopeName (s : ScopeManager) (oldName : string)
    (current : option Scope) (typed : option string) (save : SaveOutcome) :
  valid s -> valid (fst (editScopeName s oldName current typed save)).
Proof.
  intros Hv. unfold editScopeName.
  destruct (showInputBox _ typed) as [m|[newName|]]; simpl; try exact Hv.
  destruct (truthy newName); simpl; [|exact Hv].
  destruct (String.eqb_spec newName oldName) as [->|Hne]; [exact Hv|].
  destruct current as [current|]; [|exact Hv].
  assert (Hre : valid
            (let s1 := withScopes s
                         (delete oldName (<[newName := current]> (scopes s)))
             in if eqActive (activeScope s1) oldName
                then withActiveScope s1 (Some newName) else s1)).
  { simpl. destruct (eqActive (activeScope s) oldName) eqn:Ea.
    - unfold valid, validRef. simpl. right.
      rewrite lookup_delete_ne, lookup_insert_eq by congruence. eauto.
    - unfold valid, validRef in *. simpl.
      destruct (activeScope s) as [a|] eqn:Ha; [|exact I].
      destruct Hv as [Hv|Hv]; [now left|right].
      assert (a <> oldName) as Hao.
      { intros ->. simpl in Ea. now rewrite String.eqb_refl in Ea. }
      rewrite lookup_delete_ne by congruence.
      destruct (decide (newName = a)) as [->|Hna].
      + rewrite lookup_insert_eq. eauto.
      + now rewrite lookup_insert_ne. }
  simpl in Hre.
  destruct (eqActive (activeScope s) oldName); destruct save; exact Hre.
Qed.

Lemma valid_editScopeFolders (s : ScopeManager) (n : string)
    (current : option Scope) (selected : option (list string))
    (save : SaveOutcome) :
  valid s -> valid (fst (editScopeFolders s n current selected save)).
Proof.
  intros Hv. unfold editScopeFolders. destruct selected as [fl|]; [|exact Hv].
  destruct current as [current|]; [|exact Hv].
  destruct save; simpl; now apply validRef_insert.
Qed.

Lemma valid_editScopeDescription (s : ScopeManager) (n : string)
    (current : option Scope) (typed : option string) (save : SaveOutcome) :
  valid s -> valid (fst (editScopeDescription s n current typed save)).
Proof.
  intros Hv. unfold editScopeDescription. destruct typed as [d|]; [|exact Hv].
  destruct current as [current|]; [|exact Hv].
  destruct save; simpl; now apply validRef_insert.
Qed.

Lemma valid_editScope (s : ScopeManager) (scopeName picked : option string)
    (action : option EditAction) (save : SaveOutcome) :
  valid s -> valid (fst (editScope s scopeName picked action save)).
Proof.
  intros Hv. unfold editScope.
  destruct (chooseScope s scopeName picked) as [m|[n|]]; simpl;
    try exact Hv.
  destruct (truthy n); simpl; [|exact Hv].
  assert (Hedit : forall current chosen,
            valid (fst (edit s n current chosen save))).
  { intros current [typed|selected|typed]; simpl.
    - now apply valid_editScopeName.
    - now apply valid_editScopeFolders.
    - now apply valid_editScopeDescription. }
  destruct (get (scopes s) n) as [|current|]; [exact Hv| |];
    (destruct action as [chosen|]; [apply Hedit|exact Hv]).
Qed.

Lemma valid_deleteScope (s : ScopeManager) (scopeName picked : option string)
    (confirmation : option string) (save : SaveOutcome) :
  valid s -> valid (fst (deleteScope s scopeName picked confirmation save)).
Proof.
  intros Hv. unfold deleteScope.
  destruct (chooseScope s scopeName picked) as [m|[n|]]; simpl;
    try exact Hv.
  destruct (negb (truthy n) || negb (present (scopes s) n)); [exact Hv|].
  destruct confirmation as [answer|]; [|exact Hv].
  destruct (String.eqb answer "Delete"); [|exact Hv].
  assert (Hre : valid
            (let s1 := withScopes s (delete n (scopes s)) in
             if eqActive (activeScope s1) n
             then withActiveScope s1 None else s1)).
  { simpl. destruct (eqActive (activeScope s) n) eqn:Ea.
    - exact I.
    - unfold valid, validRef in *. simpl.
      destruct (activeScope s) as [a|] eqn:Ha; [|exact I].
      destruct Hv as [Hv|Hv]; [now left|right].
      assert (a <> n) as Han.
      { intros ->. simpl in Ea. now rewrite String.eqb_refl in Ea. }
      now rewrite lookup_delete_ne by congruence. }
  simpl in Hre.
  destruct (eqActive (activeScope s) n); destruct save; exact Hre.
Qed.

Lemma valid_switchScope (s : ScopeManager)
    (selected : option (option string)) (save : SaveOutcome) :
  valid s -> snd (switchScope s selected save) <> Failed ->
  valid (fst (switchScope s selected save)).
Proof.
  intros Hv. unfold switchScope.
  destruct (decide (scopes s = ∅)) as [He|He]; [intros _; exact Hv|].
  destruct selected as [[n|]|]; [| |intros _; exact Hv].
  - destruct (truthy n);
      [now apply valid_setActiveScope
      |intros _; now apply valid_clearActiveScope].
  - intros _. now apply valid_clearActiveScope.
Qed.

(** C7, as the code has it. A mutating command of the store that starts
    with an active scope reference that is null, the empty string or the
    name of a scope of the collection, and that completes without an error
    and not as an edit of an inherited object that is no scope, leaves such
    a reference; deleting the active scope leaves no active scope, and
    renaming the active scope to a name that the input box accepts moves
    the reference, with the scope, to the new name. *)
Theorem active_reference_never_dangles (c : Command) (save : SaveOutcome)
    (s : ScopeManager) :
  valid s ->
  (snd (run c save s) <> Failed -> snd (run c save s) <> Unscoped ->
   valid (fst (run c save s)))
  /\ (forall name picked,
        getActiveScope s = Some name -> name <> "" ->
        getActiveScope
          (fst (deleteScope s (Some name) picked (Some "Delete") save))
        = None)
  /\ (forall oldName newName picked,
        getActiveScope s = Some oldName -> oldName <> "" ->
        blank newName = false -> newName <> oldName ->
        getScopes s !! newName = None -> inherited newName = false ->
        let s' := fst (editScope s (Some oldName) picked
                         (Some (EditName (Some newName))) save) in
        getActiveScope s' = Some newName
        /\ getScopes s' !! newName = getScopes s !! oldName
        /\ getScopes s' !! oldName = None).
Proof.
  intros Hv. split; [|split].
  - intros Hf _. destruct c; simpl in *.
    + now apply valid_createScope.
    + now apply valid_editScope.
    + now apply valid_deleteScope.
    + now apply valid_switchScope.
    + now apply valid_setActiveScope.
    + now apply valid_clearActiveScope.
  - intros name picked Ha Hne. unfold getActiveScope in *.
    unfold valid, validRef in Hv. rewrite Ha in Hv.
    destruct Hv as [Hv|Hv]; [contradiction|].
    apply present_key in Hv. apply truthy_ne in Hne.
    unfold deleteScope, chooseScope. rewrite Hne. cbn.
    rewrite Hne, Hv. cbn. rewrite Ha. cbn. rewrite String.eqb_refl.
    destruct save; reflexivity.
  - intros oldName newName picked Ha Hne Hb Hdiff Hfresh Hplain.
    unfold getActiveScope, getScopes in *.
    unfold valid, validRef in Hv. rewrite Ha in Hv.
    destruct Hv as [Hv|[current Hcur]]; [contradiction|].
    apply truthy_ne in Hne. pose proof (blank_truthy _ Hb) as Ht.
    pose proof (proj2 (present_false _ _) (conj Hfresh Hplain)) as Hp.
    assert (String.eqb newName oldName = false) as Hneq
      by now apply String.eqb_neq.
    unfold editScope, chooseScope. rewrite Hne. cbn.
    rewrite Hne, (get_own _ _ _ Hcur). cbn.
    unfold editScopeName, showInputBox. rewrite Hb, Hneq, Hp. cbn.
    rewrite Ht, Hneq, Ha. cbn. rewrite String.eqb_refl.
    destruct save; simpl;
      rewrite ?lookup_delete_ne, ?lookup_insert_eq, ?lookup_delete_eq
        by congruence; auto.
Qed.

Lemma active_reference_never_dangles_witness :
  valid Demo.manager
  /\ valid (fst (run (DeleteScope (Some "Frontend") None (Some "Delete"))
                   Saves Demo.manager))
  /\ getActiveScope
       (fst (deleteScope Demo.manager (Some "Frontend") None (Some "Delete")
               Saves)) = None.
Proof.
  assert (H : valid Demo.manager) by (right; vm_compute; eauto).
  assert (Ha : getActiveScope Demo.manager = Some "Frontend")
    by reflexivity.
  assert (Hn : "Frontend" <> "") by discriminate.
  assert (Hf : snd (run (DeleteScope (Some "Frontend") None (Some "Delete"))
                      Saves Demo.manager) <> Failed)
    by (vm_compute; discriminate).
  assert (Hu : snd (run (DeleteScope (Some "Frontend") None (Some "Delete"))
                      Saves Demo.manager) <> Unscoped)
    by (vm_compute; discriminate).
  pose proof (active_reference_never_dangles
                (DeleteScope (Some "Frontend") None (Some "Delete"))
                Saves Demo.manager H) as [H1 [H2 _]].
  split; [exact H|]. split; [exact (H1 Hf Hu)|].
  exact (H2 "Frontend" None Ha Hn).
Defined.

(** C7, as stated, fails: the reference loaded from the settings names a
    scope that the collection does not have; a scope is created and saved,
    the call completes, and the reference still names no scope. *)
Lemma stale_reference_stays_dangling :
  let r := run (CreateScope (Some "Tests") (Some ["tests"])
                  "2025-01-03T00:00:00.000Z" (Some "No") Saves)
             Saves Demo.staleManager in
  snd r = Done
  /\ getActiveScope (fst r) = Some "Ghost"
  /\ "Ghost" <> ""
  /\ getScopes (fst r) !! "Ghost" = None
  /\ ~ valid (fst r).
Proof.
  cbv zeta. split; [reflexivity|]. split; [reflexivity|].
  split; [discriminate|]. split; [reflexivity|].
  intros [H|[x H]]; [discriminate|]. vm_compute in H. discriminate.
Qed.

(** For a name that is not empty once trimmed: when the name is not in
    the collection and is no name that objects inherit, creating a scope
    with it and a non-empty folder list puts the name into the collection
    with exactly that folder list, the call runs to its end when the
    settings are saved, and the saved settings then hold the scope too;
    when the name is in the collection, the name is refused as already
    existing, whatever folders are chosen, and nothing changes. *)
Lemma createScope_new_or_duplicate (s : ScopeManager) (name now : string)
    (save save' : SaveOutcome) (activate : option string) :
  blank name = false ->
  (getScopes s !! name = None -> inherited name = false ->
   forall chosen, chosen <> [] ->
     let r := createScope s (Some name) (Some chosen) now save activate
                save' in
     (exists scope,
        getScopes (fst r) !! name = Some scope /\ folders scope = chosen)
     /\ (save = Saves -> save' = Saves ->
         snd r = Done
         /\ exists scope,
              cfgScopes (config (fst r)) !! name = Some scope
              /\ folders scope = chosen))
  /\ (is_Some (getScopes s !! name) ->
      forall selected,
        createScope s (Some name) selected now save activate save'
        = (s, Refused NameExists)).
Proof.
  intros Hb. pose proof (blank_truthy _ Hb) as Ht.
  unfold getScopes. split.
  - intros Hfresh Hplain chosen Hne.
    pose proof (proj2 (present_false _ _) (conj Hfresh Hplain)) as Hp.
    unfold createScope, showInputBox. rewrite Hb, Hp. simpl. rewrite Ht.
    simpl. destruct chosen as [|f fl]; [congruence|].
    set (new := mkScope (f :: fl) now "").
    assert (Hact : forall s0 o,
              scopes s0 = <[name := new]> (scopes s) ->
              scopes (fst (setActiveScope s0 name o)) = scopes s0
              /\ (o = Saves ->
                  snd (setActiveScope s0 name o) = Done
                  /\ config (fst (setActiveScope s0 name o))
                     = mkConfig (scopes s0) (Some name))).
    { intros s0 o Hs0.
      assert (Hg : get (scopes s0) name = Own new).
      { apply get_own. rewrite Hs0. apply lookup_insert_eq. }
      destruct o.
      - rewrite setActiveScope_saved, Hg. cbn. split; [reflexivity|].
        intros _. split; reflexivity.
      - unfold setActiveScope, present. rewrite Hg. cbn.
        split; [reflexivity|discriminate].
      - unfold setActiveScope, present. rewrite Hg. cbn.
        split; [reflexivity|discriminate]. }
    split.
    + exists new. split; [|reflexivity].
      destruct save; simpl; try apply lookup_insert_eq.
      destruct activate as [answer|]; simpl; [|apply lookup_insert_eq].
      destruct (String.eqb answer "Yes"); simpl; [|apply lookup_insert_eq].
      match goal with
      | |- scopes (fst (setActiveScope ?s0 _ _)) !! _ = _ =>
          rewrite (proj1 (Hact s0 save' eq_refl))
      end.
      apply lookup_insert_eq.
    + intros -> ->. simpl.
      destruct activate as [answer|]; simpl.
      * destruct (String.eqb answer "Yes"); simpl.
        -- match goal with
           | |- snd (setActiveScope ?s0 _ _) = _ /\ _ =>
               destruct (proj2 (Hact s0 Saves eq_refl) eq_refl) as [Hd Hc]
           end.
           split; [exact Hd|]. rewrite Hc. exists new. simpl.
           split; [apply lookup_insert_eq|reflexivity].
        -- split; [reflexivity|]. exists new.
           split; [apply lookup_insert_eq|reflexivity].
      * split; [reflexivity|]. exists new.
        split; [apply lookup_insert_eq|reflexivity].
  - intros Hin selected. apply present_key in Hin.
    unfold createScope, showInputBox. now rewrite Hb, Hin.
Qed.

(** C5. The code at the failing input: a name that every object inherits,
    such as [constructor], is not empty once trimmed and is not in the
    collection, and yet the input box of [createScope] refuses it as
    already existing, whatever folders are offered: no scope is created
    and nothing changes. *)
Theorem createScope_refuses_inherited_name (s : ScopeManager)
    (name now : string) (selected : option (list string))
    (save save' : SaveOutcome) (activate : option string) :
  inherited name = true ->
  getScopes s !! name = None ->
  blank name = false
  /\ createScope s (Some name) selected now save activate save'
     = (s, Refused NameExists)
  /\ getScopes
       (fst (createScope s (Some name) selected now save activate save'))
     !! name = None.
Proof.
  intros Hi Hfresh. pose proof (inherited_not_blank _ Hi) as Hb.
  assert (Heq : createScope s (Some name) selected now save activate save'
                = (s, Refused NameExists)).
  { unfold createScope, showInputBox.
    now rewrite Hb, (present_inherited _ _ Hi). }
  split; [exact Hb|]. split; [exact Heq|]. now rewrite Heq.
Qed.

Lemma createScope_refuses_inherited_name_witness :
  inherited "constructor" = true
  /\ getScopes Demo.manager !! "constructor" = None
  /\ blank "constructor" = false
  /\ createScope Demo.manager (Some "constructor") (Some ["src/api"])
       "2025-01-03T00:00:00.000Z" Saves (Some "No") Saves
     = (Demo.manager, Refused NameExists).
Proof.
  assert (H1 : inherited "constructor" = true) by reflexivity.
  assert (H2 : getScopes Demo.manager !! "constructor" = None)
    by reflexivity.
  pose proof (createScope_refuses_inherited_name Demo.manager "constructor"
                "2025-01-03T00:00:00.000Z" (Some ["src/api"]) Saves Saves
                (Some "No") H1 H2) as [H3 [H4 _]].
  split; [exact H1|]. split; [exact H2|]. split; [exact H3|exact H4].
Defined.

(** C8. Clearing the active scope twice leaves the scopes, the active
    reference and the saved settings as clearing it once does, and the
    second call ends without an error; renaming a scope to the name it has
    ends without an error and changes nothing. *)
Theorem clearing_twice_and_renaming_to_itself (s : ScopeManager)
    (save1 save2 save : SaveOutcome) (name : string)
    (picked : option string) :
  (let once := fst (clearActiveScope s save1) in
   let twice := fst (clearActiveScope once save2) in
   getScopes twice = getScopes once
   /\ getActiveScope twice = getActiveScope once
   /\ config twice = config once
   /\ snd (clearActiveScope once save2) = Nothing)
  /\ (is_Some (getScopes s !! name) -> blank name = false ->
      editScope s (Some name) picked (Some (EditName (Some name))) save
      = (s, Nothing)).
Proof.
  split.
  - unfold clearActiveScope.
    destruct (activeScope s) as [p|] eqn:Ha.
    + destruct (truthy p) eqn:Hp.
      * destruct save1; simpl; auto.
      * simpl. rewrite Ha, Hp. simpl. auto.
    + simpl. rewrite Ha. simpl. auto.
  - intros [current Hcur] Hb. unfold getScopes in Hcur.
    pose proof (blank_truthy _ Hb) as Ht.
    unfold editScope, chooseScope. rewrite Ht. cbn.
    rewrite Ht, (get_own _ _ _ Hcur). cbn.
    unfold editScopeName, showInputBox.
    rewrite Hb, String.eqb_refl. cbn. rewrite Ht, String.eqb_refl.
    reflexivity.
Qed.

Lemma clearing_twice_and_renaming_to_itself_witness :
  is_Some (getScopes Demo.manager !! "Frontend")
  /\ blank "Frontend" = false
  /\ editScope Demo.manager (Some "Frontend") None
       (Some (EditName (Some "Frontend"))) Saves
     = (Demo.manager, Nothing).
Proof.
  assert (H1 : is_Some (getScopes Demo.manager !! "Frontend"))
    by (vm_compute; eauto).
  assert (H2 : blank "Frontend" = false) by reflexivity.
  split; [exact H1|]. split; [exact H2|].
  exact (proj2 (clearing_twice_and_renaming_to_itself Demo.manager Saves
                  Saves Saves "Frontend" None) H1 H2).
Defined.

(** *** Change notification *)

Lemma fired_app (a b : list Effect) :
  fired (a ++ b)%list = fired a + fired b.
Proof.
  unfold fired. induction a as [|e a IH]; simpl; [reflexivity|].
  destruct e; simpl; rewrite IH; reflexivity.
Qed.

(** What a save appends to the trace. *)
Lemma saveScopes_trace (s : ScopeManager) :
  trace (fst (saveScopes s Saves))
  = (trace s ++ [ConfigUpdate KeyScopes; ConfigUpdate KeyActiveScope])%list
  /\ config (fst (saveScopes s Saves)) = mkConfig (scopes s) (activeScope s).
Proof. simpl. now rewrite <- app_assoc. Qed.

(** An edit of the description that is saved ends the call; the settings
    hold the new description; no event has been fired. *)
Lemma editScopeDescription_silent (s : ScopeManager) (scopeName : string)
    (current : Scope) (text : string) :
  let r := editScopeDescription s scopeName (Some current) (Some text)
             Saves in
  snd r = Done
  /\ cfgScopes (config (fst r)) !! scopeName
     = Some (mkScope (folders current) (created current) text)
  /\ fired (trace (fst r)) = fired (trace s).
Proof.
  simpl. split; [reflexivity|]. split; [apply lookup_insert_eq|].
  rewrite !fired_app. cbn. lia.
Qed.

(** C9. The code at the failing input: a description is edited and the
    settings are saved, the call runs to its end, the saved settings hold
    the new description, and the trace has the two settings updates and the
    notification to the user but no "scopes changed" event.  A scope
    created and saved without activating it fires no event either. *)
Theorem description_edit_fires_no_event :
  let r := editScope Demo.manager (Some "Frontend") None
             (Some (EditDescription (Some "UI code"))) Saves in
  let r' := createScope Demo.manager (Some "Tests") (Some ["tests"])
              "2025-01-03T00:00:00.000Z" Saves (Some "No") Saves in
  snd r = Done
  /\ (exists scope,
        cfgScopes (config (fst r)) !! "Frontend" = Some scope
        /\ description scope = "UI code")
  /\ trace (fst r)
     = [ConfigUpdate KeyScopes; ConfigUpdate KeyActiveScope;
        Shown (DescriptionUpdated "Frontend")]
  /\ fired (trace (fst r)) = 0
  /\ snd r' = Done
  /\ trace (fst r')
     = [ConfigUpdate KeyScopes; ConfigUpdate KeyActiveScope;
        Shown (Created "Tests")]
  /\ fired (trace (fst r')) = 0.
Proof.
  cbv zeta.
  pose proof (editScopeDescription_silent Demo.manager "Frontend"
                Demo.frontend "UI code") as [H1 [H2 H3]].
  assert (Heq : editScope Demo.manager (Some "Frontend") None
                  (Some (EditDescription (Some "UI code"))) Saves
                = editScopeDescription Demo.manager "Frontend"
                    (Some Demo.frontend) (Some "UI code") Saves)
    by reflexivity.
  rewrite Heq. split; [exact H1|]. split.
  - eexists. split; [exact H2|reflexivity].
  - repeat split; reflexivity.
Qed.

Lemma setActiveScope_fires (s : ScopeManager) (scopeName : string)
    (save : SaveOutcome) :
  snd (setActiveScope s scopeName save) = Done ->
  exists rest,
    trace (fst (setActiveScope s scopeName save))
    = (trace s ++ ConfigUpdate KeyScopes :: ConfigUpdate KeyActiveScope
               :: rest)%list
    /\ fired rest = 1.
Proof.
  destruct save.
  - rewrite setActiveScope_saved. cbn.
    destruct (get (scopes s) scopeName); cbn; try discriminate.
    + intros _. eexists. rewrite <- !app_assoc. simpl.
      split; reflexivity.
    + destruct (truthy scopeName); cbn; try discriminate.
      intros _. eexists. rewrite <- !app_assoc. simpl.
      split; reflexivity.
  - unfold setActiveScope. destruct (present _ _); discriminate.
  - unfold setActiveScope. destruct (present _ _); discriminate.
Qed.

Lemma clearActiveScope_fires (s : ScopeManager) (save : SaveOutcome) :
  snd (clearActiveScope s save) = Done ->
  exists rest,
    trace (fst (clearActiveScope s save))
    = (trace s ++ ConfigUpdate KeyScopes :: ConfigUpdate KeyActiveScope
               :: rest)%list
    /\ fired rest = 1.
Proof.
  unfold clearActiveScope.
  destruct (activeScope s) as [p|]; try discriminate.
  destruct (truthy p); try discriminate.
  destruct save; simpl; try discriminate. intros _.
  eexists. rewrite <- !app_assoc. simpl. split; reflexivity.
Qed.

Lemma setActiveScope_failed (s : ScopeManager) (scopeName : string)
    (save : SaveOutcome) :
  snd (setActiveScope s scopeName save) = Failed ->
  fired (trace (fst (setActiveScope s scopeName save))) = fired (trace s).
Proof.
  destruct save.
  - rewrite setActiveScope_saved. cbv zeta.
    destruct (get (scopes s) scopeName); simpl; try discriminate.
    destruct (truthy scopeName); simpl; try discriminate.
    intros _. rewrite !fired_app. cbn. lia.
  - unfold setActiveScope. destruct (present _ _); simpl; try discriminate.
    intros _. reflexivity.
  - unfold setActiveScope. destruct (present _ _); simpl; try discriminate.
    intros _. rewrite !fired_app. cbn. lia.
Qed.

Lemma clearActiveScope_failed (s : ScopeManager) (save : SaveOutcome) :
  snd (clearActiveScope s save) = Failed ->
  fired (trace (fst (clearActiveScope s save))) = fired (trace s).
Proof.
  unfold clearActiveScope.
  destruct (activeScope s) as [p|]; try discriminate.
  destruct (truthy p); try discriminate.
  destruct save; simpl; try discriminate; intros _;
    rewrite ?fired_app; cbn; lia.
Qed.

(** The three edits, one by one. *)
Lemma edit_fires (s : ScopeManager) (n : string) (current : option Scope)
    (action : EditAction) (save : SaveOutcome) :
  let r := edit s n current action save in
  (snd r = Done ->
   match action with EditDescription _ => False | _ => True end ->
   exists rest,
     trace (fst r)
     = (trace s ++ ConfigUpdate KeyScopes :: ConfigUpdate KeyActiveScope
                :: rest)%list
     /\ fired rest = 1)
  /\ (snd r = Failed -> fired (trace (fst r)) = fired (trace s)).
Proof.
  destruct action as [typed|selected|typed]; cbv zeta; unfold edit.
  - unfold editScopeName.
    destruct (showInputBox _ typed) as [m|[newName|]];
      try (split; discriminate).
    destruct (negb (truthy newName) || String.eqb newName n);
      try (split; discriminate).
    destruct current as [current|]; try (split; discriminate).
    simpl. destruct (eqActive (activeScope s) n); destruct save; simpl;
      (split;
       [intros Hd _; try discriminate Hd;
        eexists; rewrite <- !app_assoc; simpl; split; reflexivity
       |intros Hf; try discriminate Hf; rewrite ?fired_app; cbn; lia]).
  - unfold editScopeFolders.
    destruct selected as [fl|]; try (split; discriminate).
    destruct current as [current|]; try (split; discriminate).
    destruct save; simpl;
      (split;
       [intros Hd _; try discriminate Hd;
        eexists; rewrite <- !app_assoc; simpl; split; reflexivity
       |intros Hf; try discriminate Hf; rewrite ?fired_app; cbn; lia]).
  - unfold editScopeDescription.
    destruct typed as [d|]; try (split; [intros _ []|discriminate]).
    destruct current as [current|]; try (split; [intros _ []|discriminate]).
    destruct save; simpl;
      (split;
       [intros _ []
       |intros Hf; try discriminate Hf; rewrite ?fired_app; cbn; lia]).
Qed.

(** The other commands: run to the end, they fire one event, and the event
    comes after the two settings updates of a save. *)
Lemma notifying_commands_fire_once_after_save (c : Command)
    (save : SaveOutcome) (s : ScopeManager) :
  notifies c = true ->
  snd (run c save s) = Done ->
  exists rest,
    trace (fst (run c save s))
    = (trace s ++ ConfigUpdate KeyScopes :: ConfigUpdate KeyActiveScope
               :: rest)%list
    /\ fired rest = 1.
Proof.
  intros Hn Hdone.
  destruct c as [typed selected now activate save'
                |scopeName picked action
                |scopeName picked confirmation
                |selected|scopeName|]; simpl in *.
  - unfold createScope in *.
    destruct (showInputBox _ typed) as [m|[n|]]; try discriminate.
    destruct (truthy n); simpl in *; try discriminate.
    destruct selected as [[|f fl]|]; try discriminate.
    destruct save; simpl in *; try discriminate.
    destruct activate as [answer|]; [|discriminate]. rewrite Hn in *.
    apply setActiveScope_fires in Hdone as [rest [Htr Hfire]].
    rewrite Htr. cbn. eexists. rewrite <- !app_assoc. cbn.
    split; [reflexivity|]. cbn. exact Hfire.
  - unfold editScope in *.
    destruct (chooseScope s scopeName picked) as [m|[n|]];
      try discriminate.
    destruct (truthy n); simpl in *; try discriminate.
    destruct action as [action|];
      [|destruct (get (scopes s) n); discriminate].
    assert (Hnot : match action with
                   | EditDescription _ => False | _ => True end)
      by (destruct action; [exact I|exact I|discriminate]).
    destruct (get (scopes s) n) as [|current|]; try discriminate.
    + exact (proj1 (edit_fires s n (Some current) action save) Hdone Hnot).
    + exact (proj1 (edit_fires s n None action save) Hdone Hnot).
  - unfold deleteScope in *.
    destruct (chooseScope s scopeName picked) as [m|[n|]];
      try discriminate.
    destruct (negb (truthy n) || negb (present (scopes s) n));
      try discriminate.
    destruct confirmation as [answer|]; try discriminate.
    destruct (String.eqb answer "Delete"); try discriminate.
    destruct (eqActive _ n);
      destruct save; simpl in *; try discriminate.
    all: eexists; rewrite <- !app_assoc; simpl; split; reflexivity.
  - unfold switchScope in *.
    destruct (decide (scopes s = ∅)) as [He|He]; try discriminate.
    destruct selected as [[n|]|]; try discriminate.
    + destruct (truthy n);
        [now apply setActiveScope_fires|now apply clearActiveScope_fires].
    + now apply clearActiveScope_fires.
  - now apply setActiveScope_fires.
  - now apply clearActiveScope_fires.
Qed.

(** A command that fails, its save being rejected or the status bar update
    throwing, fires no event. *)
Lemma failed_save_fires_no_event (c : Command) (save : SaveOutcome)
    (s : ScopeManager) :
  snd (run c save s) = Failed ->
  fired (trace (fst (run c save s))) = fired (trace s).
Proof.
  intros Hfail.
  destruct c as [typed selected now activate save'
                |scopeName picked action
                |scopeName picked confirmation
                |selected|scopeName|]; simpl in *.
  - unfold createScope in *.
    destruct (showInputBox _ typed) as [m|[n|]]; try discriminate.
    destruct (truthy n); simpl in *; try discriminate.
    destruct selected as [[|f fl]|]; try discriminate.
    destruct save; simpl in *; try discriminate;
      [|reflexivity|rewrite fired_app; cbn; lia].
    destruct activate as [answer|]; try discriminate.
    destruct (String.eqb answer "Yes"); try discriminate.
    rewrite (setActiveScope_failed _ _ _ Hfail). simpl.
    rewrite !fired_app. cbn. lia.
  - unfold editScope in *.
    destruct (chooseScope s scopeName picked) as [m|[n|]];
      try discriminate.
    destruct (truthy n); simpl in *; try discriminate.
    destruct action as [action|];
      [|destruct (get (scopes s) n); discriminate].
    destruct (get (scopes s) n) as [|current|]; try discriminate.
    + exact (proj2 (edit_fires s n (Some current) action save) Hfail).
    + exact (proj2 (edit_fires s n None action save) Hfail).
  - unfold deleteScope in *.
    destruct (chooseScope s scopeName picked) as [m|[n|]];
      try discriminate.
    destruct (negb (truthy n) || negb (present (scopes s) n));
      try discriminate.
    destruct confirmation as [answer|]; try discriminate.
    destruct (String.eqb answer "Delete"); try discriminate.
    destruct (eqActive _ n);
      destruct save; simpl in *; try discriminate;
      rewrite ?fired_app; cbn; lia.
  - unfold switchScope in *.
    destruct (decide (scopes s = ∅)) as [He|He]; try discriminate.
    destruct selected as [[n|]|]; try discriminate.
    + destruct (truthy n);
        [now apply setActiveScope_failed|now apply clearActiveScope_failed].
    + now apply clearActiveScope_failed.
  - now apply setActiveScope_failed.
  - now apply clearActiveScope_failed.
Qed.

End StoreFacts.

(** ** Scope store: early returns, saved settings, frames of the edits *)

Module StoreMore.
Import Str StrFacts Js Store Obs2 VisibilityFacts StoreFacts.

Lemma sameState_refl (s : ScopeManager) : sameState s s.
Proof. repeat split. Qed.

Lemma sameState_emit (s : ScopeManager) (e : Effect) : sameState (emit s e) s.
Proof. repeat split. Qed.

Lemma setActiveScope_early (s : ScopeManager) (n : string)
    (save : SaveOutcome) :
  snd (setActiveScope s n save) <> Done ->
  snd (setActiveScope s n save) <> Failed ->
  sameState (fst (setActiveScope s n save)) s
  /\ fired (trace (fst (setActiveScope s n save))) = fired (trace s).
Proof.
  destruct save.
  - rewrite setActiveScope_saved. cbv zeta.
    destruct (get (scopes s) n); simpl; try congruence.
    + intros _ _. split; [apply sameState_emit|].
      rewrite fired_app. cbn. lia.
    + destruct (truthy n); simpl; congruence.
  - unfold setActiveScope. destruct (present (scopes s) n); simpl;
      [congruence|].
    intros _ _. split; [apply sameState_emit|].
    rewrite fired_app. cbn. lia.
  - unfold setActiveScope. destruct (present (scopes s) n); simpl;
      [congruence|].
    intros _ _. split; [apply sameState_emit|].
    rewrite fired_app. cbn. lia.
Qed.

Lemma clearActiveScope_early (s : ScopeManager) (save : SaveOutcome) :
  snd (clearActiveScope s save) <> Done ->
  snd (clearActiveScope s save) <> Failed ->
  sameState (fst (clearActiveScope s save)) s
  /\ fired (trace (fst (clearActiveScope s save))) = fired (trace s).
Proof.
  unfold clearActiveScope.
  destruct (activeScope s) as [p|]; [destruct (truthy p)|]; simpl.
  - destruct save; simpl; congruence.
  - intros _ _. split; [apply sameState_emit|].
    rewrite fired_app. cbn. lia.
  - intros _ _. split; [apply sameState_emit|].
    rewrite fired_app. cbn. lia.
Qed.

Lemma createScope_early (s : ScopeManager) (typed : option string)
    (selected : option (list string)) (now : string) (save : SaveOutcome)
    (activate : option string) (save' : SaveOutcome) :
  let r := createScope s typed selected now save activate save' in
  snd r <> Done -> snd r <> Failed ->
  fst r = s.
Proof.
  unfold createScope.
  destruct (showInputBox _ typed) as [m|[n|]]; simpl; auto.
  destruct (truthy n); simpl; auto.
  destruct selected as [[|f fl]|]; simpl; auto.
  destruct save; simpl; try congruence.
  destruct activate as [answer|]; simpl; try congruence.
  destruct (String.eqb answer "Yes"); simpl; try congruence.
  match goal with
  | |- snd (setActiveScope ?s0 _ _) <> _ -> _ =>
      assert (Hg : get (scopes s0) n = Own (mkScope (f :: fl) now ""))
        by (apply get_own; simpl; apply lookup_insert_eq)
  end.
  destruct save'.
  - rewrite setActiveScope_saved. cbv zeta. rewrite Hg. simpl. congruence.
  - unfold setActiveScope, present. rewrite Hg. simpl. congruence.
  - unfold setActiveScope, present. rewrite Hg. simpl. congruence.
Qed.

Lemma editScope_early (s : ScopeManager) (scopeName picked : option string)
    (action : option EditAction) (save : SaveOutcome) :
  let r := editScope s scopeName picked action save in
  snd r <> Done -> snd r <> Failed -> snd r <> Unscoped ->
  sameState (fst r) s /\ fired (trace (fst r)) = fired (trace s).
Proof.
  assert (Hsame : sameState s s /\ fired (trace s) = fired (trace s))
    by (split; [apply sameState_refl|reflexivity]).
  assert (Hedit : forall n current chosen,
    let r := edit s n current chosen save in
    snd r <> Done -> snd r <> Failed -> snd r <> Unscoped ->
    sameState (fst r) s /\ fired (trace (fst r)) = fired (trace s)).
  { intros n current [typed|selected|typed]; cbv zeta; unfold edit.
    - unfold editScopeName.
      destruct (showInputBox _ typed) as [m|[newName|]]; simpl;
        try (intros _ _ _; exact Hsame).
      destruct (negb (truthy newName) || String.eqb newName n); simpl;
        try (intros _ _ _; exact Hsame).
      destruct current as [current|]; simpl; [|congruence].
      destruct (eqActive _ n); destruct save; simpl; congruence.
    - unfold editScopeFolders. destruct selected as [fl|]; simpl;
        try (intros _ _ _; exact Hsame).
      destruct current as [current|]; simpl; [|congruence].
      destruct save; simpl; congruence.
    - unfold editScopeDescription. destruct typed as [d|]; simpl;
        try (intros _ _ _; exact Hsame).
      destruct current as [current|]; simpl; [|congruence].
      destruct save; simpl; congruence. }
  unfold editScope.
  destruct (chooseScope s scopeName picked) as [m|[n|]]; simpl.
  - intros _ _ _. split; [apply sameState_emit|].
    rewrite fired_app. cbn. lia.
  - destruct (truthy n); simpl; [|intros _ _ _; exact Hsame].
    destruct (get (scopes s) n) as [|current|]; simpl;
      [intros _ _ _; exact Hsame| |];
      (destruct action as [chosen|]; [apply Hedit|intros _ _ _; exact Hsame]).
  - intros _ _ _. exact Hsame.
Qed.

Lemma deleteScope_early (s : ScopeManager) (scopeName picked : option string)
    (confirmation : option string) (save : SaveOutcome) :
  let r := deleteScope s scopeName picked confirmation save in
  snd r <> Done -> snd r <> Failed ->
  sameState (fst r) s /\ fired (trace (fst r)) = fired (trace s).
Proof.
  unfold deleteScope.
  destruct (chooseScope s scopeName picked) as [m|[n|]]; simpl.
  - intros _ _. split; [apply sameState_emit|]. rewrite fired_app. cbn. lia.
  - destruct (negb (truthy n) || negb (present (scopes s) n)); simpl;
      try (intros _ _; split; [apply sameState_refl|reflexivity]).
    destruct confirmation as [answer|]; simpl;
      try (intros _ _; split; [apply sameState_refl|reflexivity]).
    destruct (String.eqb answer "Delete"); simpl;
      try (intros _ _; split; [apply sameState_refl|reflexivity]).
    destruct (eqActive _ n); destruct save; simpl; congruence.
  - intros _ _. split; [apply sameState_refl|reflexivity].
Qed.

(** X1. A command that returns early, whether silently or with a refusal,
    leaves the scopes, the active scope and the saved settings as they
    were and fires no event: nothing is half done.  (An edit that writes
    an object that is no scope is no early return.) *)
Theorem early_return_changes_nothing (c : Command) (save : SaveOutcome)
    (s : ScopeManager) :
  snd (run c save s) <> Done ->
  snd (run c save s) <> Failed ->
  snd (run c save s) <> Unscoped ->
  sameState (fst (run c save s)) s
  /\ fired (trace (fst (run c save s))) = fired (trace s).
Proof.
  destruct c as [typed selected now activate save'
                |scopeName picked action
                |scopeName picked confirmation
                |selected|scopeName|]; simpl.
  - intros H1 H2 _.
    rewrite (createScope_early s typed selected now save activate save'
               H1 H2).
    split; [apply sameState_refl|reflexivity].
  - apply editScope_early.
  - intros H1 H2 _. now apply deleteScope_early.
  - unfold switchScope.
    destruct (decide (scopes s = ∅)) as [He|He]; simpl.
    + intros _ _ _. split; [apply sameState_emit|].
      rewrite fired_app. cbn. lia.
    + destruct selected as [[n|]|]; simpl.
      * destruct (truthy n); intros H1 H2 _;
          [now apply setActiveScope_early|now apply clearActiveScope_early].
      * intros H1 H2 _. now apply clearActiveScope_early.
      * intros _ _ _. split; [apply sameState_refl|reflexivity].
  - intros H1 H2 _. now apply setActiveScope_early.
  - intros H1 H2 _. now apply clearActiveScope_early.
Qed.

Lemma early_return_changes_nothing_witness :
  snd (run (SetActiveScope "Ghost") Saves Demo.manager) <> Done
  /\ snd (run (SetActiveScope "Ghost") Saves Demo.manager) <> Failed
  /\ snd (run (SetActiveScope "Ghost") Saves Demo.manager) <> Unscoped
  /\ sameState (fst (run (SetActiveScope "Ghost") Saves Demo.manager))
       Demo.manager.
Proof.
  assert (H1 : snd (run (SetActiveScope "Ghost") Saves Demo.manager)
               <> Done) by (vm_compute; discriminate).
  assert (H2 : snd (run (SetActiveScope "Ghost") Saves Demo.manager)
               <> Failed) by (vm_compute; discriminate).
  assert (H3 : snd (run (SetActiveScope "Ghost") Saves Demo.manager)
               <> Unscoped) by (vm_compute; discriminate).
  split; [exact H1|]. split; [exact H2|]. split; [exact H3|].
  exact (proj1 (early_return_changes_nothing (SetActiveScope "Ghost") Saves
                  Demo.manager H1 H2 H3)).
Defined.

Lemma setActiveScope_inSync (s : ScopeManager) (n : string)
    (save : SaveOutcome) :
  snd (setActiveScope s n save) = Done ->
  inSync (fst (setActiveScope s n save)).
Proof.
  destruct save.
  - rewrite setActiveScope_saved. cbv zeta.
    destruct (get (scopes s) n); simpl; try discriminate;
      [reflexivity|].
    destruct (truthy n); simpl; try discriminate. reflexivity.
  - unfold setActiveScope. destruct (present _ _); discriminate.
  - unfold setActiveScope. destruct (present _ _); discriminate.
Qed.

Lemma clearActiveScope_inSync (s : ScopeManager) (save : SaveOutcome) :
  snd (clearActiveScope s save) = Done ->
  inSync (fst (clearActiveScope s save)).
Proof.
  unfold clearActiveScope.
  destruct (activeScope s) as [p|]; [destruct (truthy p)|]; simpl;
    try discriminate.
  destruct save; simpl; try discriminate. reflexivity.
Qed.

(** X2. When a command runs to its end, the saved settings hold exactly the
    scopes and the active scope that are in memory. *)
Theorem done_means_saved (c : Command) (save : SaveOutcome)
    (s : ScopeManager) :
  snd (run c save s) = Done -> inSync (fst (run c save s)).
Proof.
  destruct c as [typed selected now activate save'
                |scopeName picked action
                |scopeName picked confirmation
                |selected|scopeName|]; simpl.
  - unfold createScope.
    destruct (showInputBox _ typed) as [m|[n|]]; simpl; try discriminate.
    destruct (truthy n); simpl; try discriminate.
    destruct selected as [[|f fl]|]; simpl; try discriminate.
    destruct save; simpl; try discriminate.
    destruct activate as [answer|]; simpl; [|reflexivity].
    destruct (String.eqb answer "Yes"); simpl; [|reflexivity].
    apply setActiveScope_inSync.
  - unfold editScope.
    destruct (chooseScope s scopeName picked) as [m|[n|]]; simpl;
      try discriminate.
    destruct (truthy n); simpl; try discriminate.
    assert (Hedit : forall current chosen,
              snd (edit s n current chosen save) = Done ->
              inSync (fst (edit s n current chosen save))).
    { intros current [typed|selected|typed]; unfold edit.
      - unfold editScopeName.
        destruct (showInputBox _ typed) as [m|[newName|]]; simpl;
          try discriminate.
        destruct (negb (truthy newName) || String.eqb newName n); simpl;
          try discriminate.
        destruct current as [current|]; simpl; try discriminate.
        destruct (eqActive _ n); destruct save; simpl; try discriminate;
          reflexivity.
      - unfold editScopeFolders. destruct selected as [fl|]; simpl;
          try discriminate.
        destruct current as [current|]; simpl; try discriminate.
        destruct save; simpl; try discriminate. reflexivity.
      - unfold editScopeDescription. destruct typed as [d|]; simpl;
          try discriminate.
        destruct current as [current|]; simpl; try discriminate.
        destruct save; simpl; try discriminate. reflexivity. }
    destruct (get (scopes s) n) as [|current|]; simpl; try discriminate;
      (destruct action as [chosen|]; [apply Hedit|discriminate]).
  - unfold deleteScope.
    destruct (chooseScope s scopeName picked) as [m|[n|]]; simpl;
      try discriminate.
    destruct (negb (truthy n) || negb (present (scopes s) n)); simpl;
      try discriminate.
    destruct confirmation as [answer|]; simpl; try discriminate.
    destruct (String.eqb answer "Delete"); simpl; try discriminate.
    destruct (eqActive _ n); destruct save; simpl; try discriminate;
      reflexivity.
  - unfold switchScope.
    destruct (decide (scopes s = ∅)) as [He|He]; simpl; try discriminate.
    destruct selected as [[n|]|]; simpl; try discriminate.
    + destruct (truthy n);
        [apply setActiveScope_inSync|apply clearActiveScope_inSync].
    + apply clearActiveScope_inSync.
  - apply setActiveScope_inSync.
  - apply clearActiveScope_inSync.
Qed.

Lemma done_means_saved_witness :
  snd (run (DeleteScope (Some "Backend") None (Some "Delete")) Saves
         Demo.manager) = Done
  /\ inSync (fst (run (DeleteScope (Some "Backend") None (Some "Delete"))
                    Saves Demo.manager)).
Proof.
  assert (H : snd (run (DeleteScope (Some "Backend") None (Some "Delete"))
                     Saves Demo.manager) = Done) by reflexivity.
  split; [exact H|].
  exact (done_means_saved (DeleteScope (Some "Backend") None (Some "Delete"))
           Saves Demo.manager H).
Defined.

(** How [editScope] and [deleteScope] reach their work for a scope that
    is named and known. *)
Lemma editScope_known (s : ScopeManager) (n : string) (current : Scope)
    (picked : option string) (action : EditAction) (save : SaveOutcome) :
  n <> "" -> scopes s !! n = Some current ->
  editScope s (Some n) picked (Some action) save
  = edit s n (Some current) action save.
Proof.
  intros Hne Hcur. apply truthy_ne in Hne.
  unfold editScope, chooseScope. rewrite Hne. cbn.
  rewrite Hne, (get_own _ _ _ Hcur). reflexivity.
Qed.

Lemma editScopeName_accepts (s : ScopeManager) (oldName newName : string)
    (current : Scope) (save : SaveOutcome) :
  blank newName = false -> newName <> oldName ->
  scopes s !! newName = None -> inherited newName = false ->
  editScopeName s oldName (Some current) (Some newName) save
  = let s1 := withScopes s
                (delete oldName (<[newName := current]> (scopes s))) in
    let s2 := if eqActive (activeScope s) oldName
              then withActiveScope s1 (Some newName) else s1 in
    match saveScopes s2 save with
    | (s3, false) => (s3, Failed)
    | (s3, true) =>
        (emit (emit s3 ScopeChanged) (Shown (Renamed oldName newName)), Done)
    end.
Proof.
  intros Hb Hdiff Hfresh Hplain. pose proof (blank_truthy _ Hb) as Ht.
  pose proof (proj2 (present_false _ _) (conj Hfresh Hplain)) as Hp.
  assert (String.eqb newName oldName = false) as Hneq
    by now apply String.eqb_neq.
  unfold editScopeName, showInputBox. rewrite Hb, Hneq, Hp. cbn.
  rewrite Ht, Hneq. reflexivity.
Qed.

Lemma deleteScope_present (s : ScopeManager) (n : string)
    (picked : option string) (save : SaveOutcome) :
  n <> "" -> present (scopes s) n = true ->
  deleteScope s (Some n) picked (Some "Delete") save
  = let s1 := withScopes s (delete n (scopes s)) in
    let s2 := if eqActive (activeScope s) n
              then withActiveScope s1 None else s1 in
    match saveScopes s2 save with
    | (s3, false) => (s3, Failed)
    | (s3, true) => (emit (emit s3 ScopeChanged) (Shown (Deleted n)), Done)
    end.
Proof.
  intros Hne Hin. apply truthy_ne in Hne.
  unfold deleteScope, chooseScope. rewrite Hne. cbn. rewrite Hne, Hin.
  reflexivity.
Qed.

Lemma deleteScope_known (s : ScopeManager) (n : string)
    (picked : option string) (save : SaveOutcome) :
  n <> "" -> is_Some (scopes s !! n) ->
  deleteScope s (Some n) picked (Some "Delete") save
  = let s1 := withScopes s (delete n (scopes s)) in
    let s2 := if eqActive (activeScope s) n
              then withActiveScope s1 None else s1 in
    match saveScopes s2 save with
    | (s3, false) => (s3, Failed)
    | (s3, true) => (emit (emit s3 ScopeChanged) (Shown (Deleted n)), Done)
    end.
Proof.
  intros Hne Hin. apply deleteScope_present; [exact Hne|].
  now apply present_key.
Qed.

(** X3. A delete whose save is rejected is not rolled back: the call fails
    with the scope gone from memory, and no event is fired.  When the write
    of the scopes is rejected, the saved settings, which were in step with
    memory, are as before and still hold the scope; when that write goes
    through and the write of the active scope is rejected, the saved scopes
    have lost the scope and the saved active scope is the one saved before,
    the deleted scope if that was active. *)
Theorem failed_delete_is_not_rolled_back (s : ScopeManager) (n : string)
    (current : Scope) (picked : option string) (save : SaveOutcome) :
  n <> "" -> scopes s !! n = Some current -> inSync s -> save <> Saves ->
  let r := deleteScope s (Some n) picked (Some "Delete") save in
  snd r = Failed
  /\ getScopes (fst r) !! n = None
  /\ fired (trace (fst r)) = fired (trace s)
  /\ (save = RejectsScopes ->
      config (fst r) = config s
      /\ cfgScopes (config (fst r)) !! n = Some current)
  /\ (save = RejectsActiveScope ->
      cfgScopes (config (fst r)) !! n = None
      /\ cfgActiveScope (config (fst r)) = getActiveScope s).
Proof.
  intros Hne Hcur Hsync Hsave. cbv zeta.
  rewrite (deleteScope_known s n picked save Hne)
    by (rewrite Hcur; eauto).
  unfold inSync in Hsync. unfold getActiveScope, getScopes.
  destruct save; [congruence| |];
    destruct (eqActive (activeScope s) n); simpl; rewrite ?Hsync; simpl;
    rewrite ?lookup_delete_eq, ?fired_app; cbn;
    repeat split; try reflexivity; try discriminate; try lia; auto.
Qed.

Lemma failed_delete_is_not_rolled_back_witness :
  let r := deleteScope Demo.manager (Some "Frontend") None (Some "Delete")
             RejectsActiveScope in
  "Frontend" <> ""
  /\ scopes Demo.manager !! "Frontend" = Some Demo.frontend
  /\ inSync Demo.manager
  /\ RejectsActiveScope <> Saves
  /\ snd r = Failed
  /\ getScopes (fst r) !! "Frontend" = None
  /\ cfgScopes (config (fst r)) !! "Frontend" = None
  /\ cfgActiveScope (config (fst r)) = Some "Frontend".
Proof.
  assert (H1 : "Frontend" <> "") by discriminate.
  assert (H2 : scopes Demo.manager !! "Frontend" = Some Demo.frontend)
    by reflexivity.
  assert (H3 : inSync Demo.manager) by reflexivity.
  assert (H4 : RejectsActiveScope <> Saves) by discriminate.
  pose proof (failed_delete_is_not_rolled_back Demo.manager "Frontend"
                Demo.frontend None RejectsActiveScope H1 H2 H3 H4)
    as [R1 [R2 [_ [_ R5]]]].
  destruct (R5 eq_refl) as [R6 R7].
  cbv zeta. split; [exact H1|]. split; [exact H2|]. split; [exact H3|].
  split; [exact H4|]. split; [exact R1|]. split; [exact R2|].
  split; [exact R6|exact R7].
Defined.

(** X4. The two settings are written one after the other.  When the active
    scope is renamed to a name that the input box accepts, and the write
    of the active scope is rejected after the write of the scopes went
    through, the call fails and the saved settings name an active scope
    that the saved scopes no longer hold. *)
Theorem rename_with_half_a_save (s : ScopeManager) (oldName newName : string)
    (current : Scope) (picked : option string) :
  oldName <> "" -> scopes s !! oldName = Some current ->
  activeScope s = Some oldName ->
  cfgActiveScope (config s) = Some oldName ->
  blank newName = false -> newName <> oldName ->
  scopes s !! newName = None -> inherited newName = false ->
  let r := editScope s (Some oldName) picked
             (Some (EditName (Some newName))) RejectsActiveScope in
  snd r = Failed
  /\ getActiveScope (fst r) = Some newName
  /\ cfgActiveScope (config (fst r)) = Some oldName
  /\ cfgScopes (config (fst r)) !! oldName = None
  /\ cfgScopes (config (fst r)) !! newName = Some current.
Proof.
  intros Hne Hcur Hact Hcfg Hb Hdiff Hfresh Hplain. cbv zeta.
  rewrite (editScope_known s oldName current picked _ _ Hne Hcur).
  unfold edit.
  rewrite (editScopeName_accepts s oldName newName current _ Hb Hdiff
             Hfresh Hplain).
  rewrite Hact. simpl. rewrite String.eqb_refl. simpl.
  rewrite Hcfg, lookup_delete_eq, lookup_delete_ne, lookup_insert_eq
    by congruence.
  auto.
Qed.

Lemma rename_with_half_a_save_witness :
  let r := editScope Demo.manager (Some "Frontend") None
             (Some (EditName (Some "UI"))) RejectsActiveScope in
  "Frontend" <> ""
  /\ scopes Demo.manager !! "Frontend" = Some Demo.frontend
  /\ inherited "UI" = false
  /\ snd r = Failed
  /\ cfgActiveScope (config (fst r)) = Some "Frontend"
  /\ cfgScopes (config (fst r)) !! "Frontend" = None.
Proof.
  assert (H1 : "Frontend" <> "") by discriminate.
  assert (H2 : scopes Demo.manager !! "Frontend" = Some Demo.frontend)
    by reflexivity.
  assert (H3 : activeScope Demo.manager = Some "Frontend") by reflexivity.
  assert (H4 : cfgActiveScope (config Demo.manager) = Some "Frontend")
    by reflexivity.
  assert (H5 : blank "UI" = false) by reflexivity.
  assert (H6 : "UI" <> "Frontend") by discriminate.
  assert (H7 : scopes Demo.manager !! "UI" = None) by reflexivity.
  assert (H8 : inherited "UI" = false) by reflexivity.
  pose proof (rename_with_half_a_save Demo.manager "Frontend" "UI"
                Demo.frontend None H1 H2 H3 H4 H5 H6 H7 H8)
    as [R1 [_ [R3 [R4 _]]]].
  cbv zeta. split; [exact H1|]. split; [exact H2|]. split; [exact H8|].
  split; [exact R1|]. split; [exact R3|exact R4].
Defined.

(** X5. A rename to a name that the input box accepts (not empty once
    trimmed, not in the collection, no name that objects inherit) moves
    the scope, with its folders, description and creation time, from the
    old name to the new one, keeps every other scope and the number of
    scopes, and keeps the active scope when it is another one; this holds
    in memory whatever becomes of the save. *)
Theorem rename_moves_one_scope (s : ScopeManager) (oldName newName : string)
    (current : Scope) (picked : option string) (save : SaveOutcome) :
  oldName <> "" -> scopes s !! oldName = Some current ->
  blank newName = false -> newName <> oldName ->
  scopes s !! newName = None -> inherited newName = false ->
  let s' := fst (editScope s (Some oldName) picked
                   (Some (EditName (Some newName))) save) in
  getScopes s' !! newName = Some current
  /\ getScopes s' !! oldName = None
  /\ (forall k, k <> oldName -> k <> newName ->
        getScopes s' !! k = getScopes s !! k)
  /\ size (getScopes s') = size (getScopes s)
  /\ (getActiveScope s <> Some oldName ->
      getActiveScope s' = getActiveScope s).
Proof.
  intros Hne Hcur Hb Hdiff Hfresh Hplain. cbv zeta.
  rewrite (editScope_known s oldName current picked _ _ Hne Hcur).
  unfold edit.
  rewrite (editScopeName_accepts s oldName newName current _ Hb Hdiff
             Hfresh Hplain).
  unfold getScopes, getActiveScope.
  assert (Hsize : size (delete oldName (<[newName := current]> (scopes s)))
                  = size (scopes s)).
  { rewrite map_size_delete, lookup_insert_ne, Hcur by congruence.
    rewrite map_size_insert_None by exact Hfresh. reflexivity. }
  assert (Hact : getActiveScope s <> Some oldName ->
                 eqActive (activeScope s) oldName = false).
  { unfold getActiveScope. intros Hn. unfold eqActive.
    destruct (activeScope s) as [a|]; [|reflexivity].
    apply String.eqb_neq. congruence. }
  destruct (eqActive (activeScope s) oldName) eqn:Ea; destruct save; simpl;
    rewrite ?lookup_delete_eq, ?lookup_delete_ne, ?lookup_insert_eq
      by congruence;
    (split; [reflexivity|]); (split; [reflexivity|]);
    (split; [intros k Hk1 Hk2;
             now rewrite lookup_delete_ne, lookup_insert_ne by congruence|]);
    (split; [exact Hsize|]); intros Hn;
    try reflexivity; specialize (Hact Hn); congruence.
Qed.

Lemma rename_moves_one_scope_witness :
  "Backend" <> ""
  /\ scopes Demo.manager !! "Backend" = Some Demo.backend
  /\ getScopes (fst (editScope Demo.manager (Some "Backend") None
                       (Some (EditName (Some "API"))) Saves)) !! "API"
     = Some Demo.backend.
Proof.
  assert (H1 : "Backend" <> "") by discriminate.
  assert (H2 : scopes Demo.manager !! "Backend" = Some Demo.backend)
    by reflexivity.
  assert (H3 : blank "API" = false) by reflexivity.
  assert (H4 : "API" <> "Backend") by discriminate.
  assert (H5 : scopes Demo.manager !! "API" = None) by reflexivity.
  assert (H6 : inherited "API" = false) by reflexivity.
  split; [exact H1|]. split; [exact H2|].
  exact (proj1 (rename_moves_one_scope Demo.manager "Backend" "API"
                  Demo.backend None Saves H1 H2 H3 H4 H5 H6)).
Defined.

(** X6. A rename is refused, and changes nothing, when the new name is
    empty once trimmed or is the name of another scope. *)
Theorem rename_refusals (s : ScopeManager) (oldName typed : string)
    (current : Scope) (picked : option string) (save : SaveOutcome) :
  oldName <> "" -> scopes s !! oldName = Some current ->
  (blank typed = true ->
   editScope s (Some oldName) picked (Some (EditName (Some typed))) save
   = (s, Refused NameEmpty))
  /\ (blank typed = false -> typed <> oldName ->
      is_Some (scopes s !! typed) ->
      editScope s (Some oldName) picked (Some (EditName (Some typed))) save
      = (s, Refused NameExists)).
Proof.
  intros Hne Hcur.
  rewrite (editScope_known s oldName current picked _ _ Hne Hcur).
  unfold edit, editScopeName, showInputBox. split.
  - intros Hb. now rewrite Hb.
  - intros Hb Hdiff Hin. apply present_key in Hin.
    apply String.eqb_neq in Hdiff. now rewrite Hb, Hdiff, Hin.
Qed.

Lemma rename_refusals_witness :
  "Backend" <> ""
  /\ scopes Demo.manager !! "Backend" = Some Demo.backend
  /\ editScope Demo.manager (Some "Backend") None
       (Some (EditName (Some "Frontend"))) Saves
     = (Demo.manager, Refused NameExists).
Proof.
  assert (H1 : "Backend" <> "") by discriminate.
  assert (H2 : scopes Demo.manager !! "Backend" = Some Demo.backend)
    by reflexivity.
  assert (H3 : blank "Frontend" = false) by reflexivity.
  assert (H4 : "Frontend" <> "Backend") by discriminate.
  assert (H5 : is_Some (scopes Demo.manager !! "Frontend"))
    by (vm_compute; eauto).
  split; [exact H1|]. split; [exact H2|].
  exact (proj2 (rename_refusals Demo.manager "Backend" "Frontend"
                  Demo.backend None Saves H1 H2) H3 H4 H5).
Defined.

(** X7. Replacing the folders of a scope writes the chosen list, the empty
    list included, keeps its description and creation time, every other
    scope, the number of scopes and the active scope. *)
Theorem folders_edit_changes_folders_only (s : ScopeManager) (n : string)
    (current : Scope) (picked : option string) (chosen : list string)
    (save : SaveOutcome) :
  n <> "" -> scopes s !! n = Some current ->
  let s' := fst (editScope s (Some n) picked
                   (Some (EditFolders (Some chosen))) save) in
  getScopes s' !! n
  = Some (mkScope chosen (created current) (description current))
  /\ (forall k, k <> n -> getScopes s' !! k = getScopes s !! k)
  /\ size (getScopes s') = size (getScopes s)
  /\ getActiveScope s' = getActiveScope s.
Proof.
  intros Hne Hcur. cbv zeta.
  rewrite (editScope_known s n current picked _ _ Hne Hcur).
  unfold edit, editScopeFolders, getScopes, getActiveScope.
  assert (Hsize : forall v, size (<[n := v]> (scopes s)) = size (scopes s)).
  { intros v. apply map_size_insert_Some. rewrite Hcur. eauto. }
  destruct save; simpl; rewrite lookup_insert_eq;
    (split; [reflexivity|]);
    (split; [intros k Hk; now rewrite lookup_insert_ne by congruence|]);
    (split; [apply Hsize|reflexivity]).
Qed.

Lemma folders_edit_changes_folders_only_witness :
  "Backend" <> ""
  /\ scopes Demo.manager !! "Backend" = Some Demo.backend
  /\ getScopes (fst (editScope Demo.manager (Some "Backend") None
                       (Some (EditFolders (Some []))) Saves)) !! "Backend"
     = Some (mkScope [] (created Demo.backend) (description Demo.backend)).
Proof.
  assert (H1 : "Backend" <> "") by discriminate.
  assert (H2 : scopes Demo.manager !! "Backend" = Some Demo.backend)
    by reflexivity.
  split; [exact H1|]. split; [exact H2|].
  exact (proj1 (folders_edit_changes_folders_only Demo.manager "Backend"
                  Demo.backend None [] Saves H1 H2)).
Defined.

(** X8. Editing the description of a scope writes the text entered, the
    empty text included, keeps its folders and creation time, every other
    scope, the number of scopes and the active scope. *)
Theorem description_edit_changes_description_only (s : ScopeManager)
    (n : string) (current : Scope) (picked : option string) (text : string)
    (save : SaveOutcome) :
  n <> "" -> scopes s !! n = Some current ->
  let s' := fst (editScope s (Some n) picked
                   (Some (EditDescription (Some text))) save) in
  getScopes s' !! n
  = Some (mkScope (folders current) (created current) text)
  /\ (forall k, k <> n -> getScopes s' !! k = getScopes s !! k)
  /\ size (getScopes s') = size (getScopes s)
  /\ getActiveScope s' = getActiveScope s.
Proof.
  intros Hne Hcur. cbv zeta.
  rewrite (editScope_known s n current picked _ _ Hne Hcur).
  unfold edit, editScopeDescription, getScopes, getActiveScope.
  assert (Hsize : forall v, size (<[n := v]> (scopes s)) = size (scopes s)).
  { intros v. apply map_size_insert_Some. rewrite Hcur. eauto. }
  destruct save; simpl; rewrite lookup_insert_eq;
    (split; [reflexivity|]);
    (split; [intros k Hk; now rewrite lookup_insert_ne by congruence|]);
    (split; [apply Hsize|reflexivity]).
Qed.

Lemma description_edit_changes_description_only_witness :
  "Backend" <> ""
  /\ scopes Demo.manager !! "Backend" = Some Demo.backend
  /\ getScopes (fst (editScope Demo.manager (Some "Backend") None
                       (Some (EditDescription (Some ""))) Saves))
       !! "Backend"
     = Some (mkScope (folders Demo.backend) (created Demo.backend) "").
Proof.
  assert (H1 : "Backend" <> "") by discriminate.
  assert (H2 : scopes Demo.manager !! "Backend" = Some Demo.backend)
    by reflexivity.
  split; [exact H1|]. split; [exact H2|].
  exact (proj1 (description_edit_changes_description_only Demo.manager
                  "Backend" Demo.backend None "" Saves H1 H2)).
Defined.

(** X9. A confirmed delete removes the named scope and no other: the other
    scopes stay, the number of scopes goes down by one, and the active
    scope stays when it is another one; this holds in memory whatever
    becomes of the save. *)
Theorem delete_removes_one_scope (s : ScopeManager) (n : string)
    (picked : option string) (save : SaveOutcome) :
  n <> "" -> is_Some (scopes s !! n) ->
  let s' := fst (deleteScope s (Some n) picked (Some "Delete") save) in
  getScopes s' !! n = None
  /\ (forall k, k <> n -> getScopes s' !! k = getScopes s !! k)
  /\ S (size (getScopes s')) = size (getScopes s)
  /\ (getActiveScope s <> Some n -> getActiveScope s' = getActiveScope s).
Proof.
  intros Hne Hin. cbv zeta.
  rewrite (deleteScope_known s n picked save Hne Hin).
  unfold getScopes, getActiveScope.
  assert (Hsize : S (size (delete n (scopes s))) = size (scopes s)).
  { rewrite map_size_delete. destruct Hin as [v Hv]. rewrite Hv.
    assert (size (scopes s) <> 0).
    { intros H0. apply map_size_empty_iff in H0. rewrite H0 in Hv.
      now rewrite lookup_empty in Hv. }
    simpl. lia. }
  assert (Hact : activeScope s <> Some n ->
                 eqActive (activeScope s) n = false).
  { intros Hn. unfold eqActive.
    destruct (activeScope s) as [a|]; [|reflexivity].
    apply String.eqb_neq. congruence. }
  destruct (eqActive (activeScope s) n) eqn:Ea; destruct save; simpl;
    rewrite lookup_delete_eq;
    (split; [reflexivity|]);
    (split; [intros k Hk; now rewrite lookup_delete_ne by congruence|]);
    (split; [exact Hsize|]); intros Hn;
    try reflexivity; specialize (Hact Hn); congruence.
Qed.

Lemma delete_removes_one_scope_witness :
  "Backend" <> ""
  /\ is_Some (scopes Demo.manager !! "Backend")
  /\ getScopes (fst (deleteScope Demo.manager (Some "Backend") None
                       (Some "Delete") Saves)) !! "Backend" = None.
Proof.
  assert (H1 : "Backend" <> "") by discriminate.
  assert (H2 : is_Some (scopes Demo.manager !! "Backend"))
    by (vm_compute; eauto).
  split; [exact H1|]. split; [exact H2|].
  exact (proj1 (delete_removes_one_scope Demo.manager "Backend" None Saves
                  H1 H2)).
Defined.

(** X10. Asked to edit or delete a scope whose name is no key of the
    collection and no name that objects inherit, the store returns
    silently: nothing changes and no message is shown.  A delete that is
    not confirmed with [Delete] does the same, whatever the name.  For a
    name that objects inherit and that is no key, a confirmed delete does
    not return early: it removes nothing, saves, fires the event and
    reports the scope as deleted. *)
Theorem unknown_scope_is_a_silent_return (s : ScopeManager) (n : string)
    (picked : option string) (action : option EditAction)
    (confirmation : option string) (save : SaveOutcome) :
  n <> "" ->
  (scopes s !! n = None -> inherited n = false ->
   editScope s (Some n) picked action save = (s, Nothing)
   /\ deleteScope s (Some n) picked confirmation save = (s, Nothing))
  /\ (confirmation <> Some "Delete" ->
      deleteScope s (Some n) picked confirmation save = (s, Nothing))
  /\ (scopes s !! n = None -> inherited n = true ->
      getActiveScope s <> Some n ->
      let r := deleteScope s (Some n) picked (Some "Delete") Saves in
      snd r = Done
      /\ getScopes (fst r) = getScopes s
      /\ getActiveScope (fst r) = getActiveScope s
      /\ trace (fst r)
         = (trace s ++ [ConfigUpdate KeyScopes; ConfigUpdate KeyActiveScope;
                        ScopeChanged; Shown (Deleted n)])%list).
Proof.
  intros Hne. pose proof (proj2 (truthy_ne n) Hne) as Ht. split; [|split].
  - intros Hout Hplain.
    pose proof (proj2 (present_false _ _) (conj Hout Hplain)) as Hp. split.
    + unfold editScope, chooseScope. rewrite Ht. cbn.
      now rewrite Ht, (get_undefined _ _ Hout Hplain).
    + unfold deleteScope, chooseScope. rewrite Ht. cbn.
      now rewrite Ht, Hp.
  - intros Hconf. unfold deleteScope, chooseScope. rewrite Ht. cbn.
    rewrite Ht. cbn. destruct (present (scopes s) n); [|reflexivity]. cbn.
    destruct confirmation as [answer|]; [|reflexivity].
    destruct (String.eqb_spec answer "Delete") as [->|Hd];
      [congruence|reflexivity].
  - intros Hout Hi Hact. cbv zeta.
    rewrite (deleteScope_present s n picked Saves Hne
               (present_inherited _ _ Hi)).
    assert (Hea : eqActive (activeScope s) n = false).
    { unfold getActiveScope in Hact. unfold eqActive.
      destruct (activeScope s) as [a|]; [|reflexivity].
      apply String.eqb_neq. congruence. }
    rewrite Hea. unfold getScopes, getActiveScope. simpl.
    rewrite <- !app_assoc. simpl.
    repeat split. now apply delete_id.
Qed.

Lemma unknown_scope_is_a_silent_return_witness :
  "Ghost" <> ""
  /\ scopes Demo.manager !! "Ghost" = None
  /\ inherited "Ghost" = false
  /\ deleteScope Demo.manager (Some "Ghost") None (Some "Delete") Saves
     = (Demo.manager, Nothing)
  /\ "valueOf" <> ""
  /\ scopes Demo.manager !! "valueOf" = None
  /\ inherited "valueOf" = true
  /\ getActiveScope Demo.manager <> Some "valueOf"
  /\ snd (deleteScope Demo.manager (Some "valueOf") None (Some "Delete")
            Saves) = Done.
Proof.
  assert (H1 : "Ghost" <> "") by discriminate.
  assert (H2 : scopes Demo.manager !! "Ghost" = None) by reflexivity.
  assert (H3 : inherited "Ghost" = false) by reflexivity.
  assert (H4 : "valueOf" <> "") by discriminate.
  assert (H5 : scopes Demo.manager !! "valueOf" = None) by reflexivity.
  assert (H6 : inherited "valueOf" = true) by reflexivity.
  assert (H7 : getActiveScope Demo.manager <> Some "valueOf")
    by discriminate.
  split; [exact H1|]. split; [exact H2|]. split; [exact H3|]. split.
  - exact (proj2 (proj1 (unknown_scope_is_a_silent_return Demo.manager
                           "Ghost" None None (Some "Delete") Saves H1)
                    H2 H3)).
  - split; [exact H4|]. split; [exact H5|]. split; [exact H6|].
    split; [exact H7|].
    exact (proj1 (proj2 (proj2 (unknown_scope_is_a_silent_return
                                  Demo.manager "valueOf" None None
                                  (Some "Delete") Saves H4)) H5 H6 H7)).
Defined.

(** X30. Activating a name that is no key of the collection but that
    objects inherit is not refused as unknown: the reference is set and
    saved, the status bar gets the name, and reading the folders for its
    tooltip throws.  The call fails after the save, with a reference that
    names no scope in memory and in the saved settings, and fires no
    event. *)
Theorem activation_of_inherited_name_dangles (s : ScopeManager)
    (n : string) :
  scopes s !! n = None -> inherited n = true ->
  let r := setActiveScope s n Saves in
  snd r = Failed
  /\ getActiveScope (fst r) = Some n
  /\ getScopes (fst r) !! n = None
  /\ config (fst r) = mkConfig (scopes s) (Some n)
  /\ trace (fst r)
     = (trace s ++ [ConfigUpdate KeyScopes; ConfigUpdate KeyActiveScope;
                    StatusBar (Some n)])%list
  /\ ~ valid (fst r).
Proof.
  intros Hout Hi. cbv zeta. rewrite setActiveScope_saved. cbv zeta.
  rewrite (get_inherited _ _ Hout Hi), (inherited_truthy _ Hi). simpl.
  rewrite <- !app_assoc. simpl.
  repeat split; try assumption.
  unfold valid, validRef. simpl. intros [->|[v Hv]]; [discriminate|].
  congruence.
Qed.

Lemma activation_of_inherited_name_dangles_witness :
  let r := setActiveScope Demo.manager "constructor" Saves in
  scopes Demo.manager !! "constructor" = None
  /\ inherited "constructor" = true
  /\ snd r = Failed
  /\ getActiveScope (fst r) = Some "constructor"
  /\ cfgActiveScope (config (fst r)) = Some "constructor".
Proof.
  assert (H1 : scopes Demo.manager !! "constructor" = None) by reflexivity.
  assert (H2 : inherited "constructor" = true) by reflexivity.
  pose proof (activation_of_inherited_name_dangles Demo.manager
                "constructor" H1 H2) as [R1 [R2 [_ [R4 _]]]].
  cbv zeta. split; [exact H1|]. split; [exact H2|]. split; [exact R1|].
  split; [exact R2|]. now rewrite R4.
Defined.

Lemma statusBarUpdates_app (a b : list Effect) :
  statusBarUpdates (a ++ b)%list = statusBarUpdates a + statusBarUpdates b.
Proof.
  unfold statusBarUpdates. induction a as [|e a IH]; simpl; [reflexivity|].
  destruct e; simpl; rewrite IH; reflexivity.
Qed.

(** X11. Editing or deleting a scope never refreshes the status bar, not
    even when the scope is the active one that the bar names; activating a
    scope refreshes it once, with the name of that scope. *)
Theorem status_bar_follows_activation_only (s : ScopeManager)
    (scopeName picked : option string) (action : option EditAction)
    (confirmation : option string) (n : string) (save : SaveOutcome) :
  statusBarUpdates (trace (fst (editScope s scopeName picked action save)))
  = statusBarUpdates (trace s)
  /\ statusBarUpdates
       (trace (fst (deleteScope s scopeName picked confirmation save)))
     = statusBarUpdates (trace s)
  /\ (n <> "" -> is_Some (scopes s !! n) ->
      trace (fst (setActiveScope s n Saves))
      = (trace s ++ [ConfigUpdate KeyScopes; ConfigUpdate KeyActiveScope;
                     StatusBar (Some n); ScopeChanged;
                     Shown (Activated n)])%list).
Proof.
  split; [|split].
  - unfold editScope.
    destruct (chooseScope s scopeName picked) as [m|[k|]]; simpl;
      [rewrite statusBarUpdates_app; cbn; lia| |reflexivity].
    destruct (truthy k); simpl; [|reflexivity].
    assert (Hedit : forall current chosen,
              statusBarUpdates (trace (fst (edit s k current chosen save)))
              = statusBarUpdates (trace s)).
    { intros current [typed|selected|typed]; unfold edit.
      - unfold editScopeName.
        destruct (showInputBox _ typed) as [m|[newName|]]; simpl;
          try reflexivity.
        destruct (negb (truthy newName) || String.eqb newName k); simpl;
          try reflexivity.
        destruct current as [current|]; simpl; try reflexivity.
        destruct (eqActive _ k); destruct save; simpl;
          rewrite ?statusBarUpdates_app; cbn; lia.
      - unfold editScopeFolders. destruct selected as [fl|]; simpl;
          try reflexivity.
        destruct current as [current|]; simpl; try reflexivity.
        destruct save; simpl; rewrite ?statusBarUpdates_app; cbn; lia.
      - unfold editScopeDescription. destruct typed as [d|]; simpl;
          try reflexivity.
        destruct current as [current|]; simpl; try reflexivity.
        destruct save; simpl; rewrite ?statusBarUpdates_app; cbn; lia. }
    destruct (get (scopes s) k) as [|current|]; simpl; [reflexivity| |];
      (destruct action as [chosen|]; [apply Hedit|reflexivity]).
  - unfold deleteScope.
    destruct (chooseScope s scopeName picked) as [m|[k|]]; simpl;
      [rewrite statusBarUpdates_app; cbn; lia| |reflexivity].
    destruct (negb (truthy k) || negb (present (scopes s) k)); simpl;
      try reflexivity.
    destruct confirmation as [answer|]; simpl; try reflexivity.
    destruct (String.eqb answer "Delete"); simpl; try reflexivity.
    destruct (eqActive _ k); destruct save; simpl;
      rewrite ?statusBarUpdates_app; cbn; lia.
  - intros Hne Hin. apply truthy_ne in Hne. destruct Hin as [v Hv].
    rewrite setActiveScope_saved. cbv zeta.
    rewrite (get_own _ _ _ Hv), Hne. simpl.
    now rewrite <- !app_assoc.
Qed.

Lemma status_bar_follows_activation_only_witness :
  "Backend" <> ""
  /\ is_Some (scopes Demo.manager !! "Backend")
  /\ trace (fst (setActiveScope Demo.manager "Backend" Saves))
     = [ConfigUpdate KeyScopes; ConfigUpdate KeyActiveScope;
        StatusBar (Some "Backend"); ScopeChanged;
        Shown (Activated "Backend")].
Proof.
  assert (H1 : "Backend" <> "") by discriminate.
  assert (H2 : is_Some (scopes Demo.manager !! "Backend"))
    by (vm_compute; eauto).
  split; [exact H1|]. split; [exact H2|].
  exact (proj2 (proj2 (status_bar_follows_activation_only Demo.manager None
                         None None None "Backend" Saves)) H1 H2).
Defined.

(** X12. Creating a scope changes at most one entry of the collection: the
    entry of the name entered, which is not empty once trimmed and was not
    in the collection, and which receives the chosen folders, at least one,
    the time of creation and an empty description. *)
Theorem createScope_writes_one_new_entry (s : ScopeManager)
    (typed : option string) (selected : option (list string)) (now : string)
    (save : SaveOutcome) (activate : option string) (save' : SaveOutcome)
    (k : string) :
  let s' := fst (createScope s typed selected now save activate save') in
  getScopes s' !! k <> getScopes s !! k ->
  typed = Some k /\ blank k = false /\ getScopes s !! k = None
  /\ exists chosen,
       selected = Some chosen /\ chosen <> []
       /\ getScopes s' !! k = Some (mkScope chosen now "").
Proof.
  cbv zeta. unfold createScope, getScopes.
  destruct typed as [value|]; simpl; [|congruence].
  destruct (blank value) eqn:Hb; simpl; [congruence|].
  destruct (present (scopes s) value) eqn:Hp; simpl; [congruence|].
  destruct (truthy value); simpl; [|congruence].
  destruct selected as [[|f fl]|]; simpl; try congruence.
  apply present_false in Hp as [Hp _].
  assert (Hcore : forall m : gmap string Scope,
            m = <[value := mkScope (f :: fl) now ""]> (scopes s) ->
            m !! k <> scopes s !! k ->
            Some value = Some k /\ blank k = false /\ scopes s !! k = None
            /\ exists chosen,
                 Some (f :: fl) = Some chosen /\ chosen <> []
                 /\ m !! k = Some (mkScope chosen now "")).
  { intros m -> Hdiff. destruct (decide (value = k)) as [->|Hvk].
    - split; [reflexivity|]. split; [exact Hb|]. split; [exact Hp|].
      exists (f :: fl). split; [reflexivity|]. split; [discriminate|].
      apply lookup_insert_eq.
    - rewrite lookup_insert_ne in Hdiff by exact Hvk. congruence. }
  destruct save; simpl; try (apply Hcore; reflexivity).
  destruct activate as [answer|]; simpl; [|apply Hcore; reflexivity].
  destruct (String.eqb answer "Yes"); simpl; [|apply Hcore; reflexivity].
  apply Hcore.
  unfold setActiveScope. simpl.
  destruct (present _ value); simpl; [|reflexivity].
  destruct save'; simpl; try reflexivity.
  unfold updateStatusBar. now destruct (guard _ _).
Qed.

Lemma createScope_writes_one_new_entry_witness :
  let s' := fst (createScope Demo.manager (Some "Tests") (Some ["tests"])
                   "2025-01-03T00:00:00.000Z" Saves None Saves) in
  getScopes s' !! "Tests" <> getScopes Demo.manager !! "Tests"
  /\ blank "Tests" = false.
Proof.
  cbv zeta.
  assert (H : getScopes (fst (createScope Demo.manager (Some "Tests")
                                (Some ["tests"]) "2025-01-03T00:00:00.000Z"
                                Saves None Saves)) !! "Tests"
              <> getScopes Demo.manager !! "Tests")
    by (vm_compute; discriminate).
  split; [exact H|].
  exact (proj1 (proj2 (createScope_writes_one_new_entry Demo.manager
                         (Some "Tests") (Some ["tests"])
                         "2025-01-03T00:00:00.000Z" Saves None Saves "Tests"
                         H))).
Defined.

End StoreMore.

(** ** Visibility filter: separators, order of folders, parents *)

Module VisibilityMore.
Import Str StrFacts Js Visibility Obs2 VisibilityFacts.

Lemma append_cons (c : ascii) (a b : string) :
  String c a ++ b = String c (a ++ b).
Proof. reflexivity. Qed.

Lemma append_nil_l (b : string) : "" ++ b = b.
Proof. reflexivity. Qed.

Lemma normalize_app (a b : string) :
  normalize (a ++ b) = normalize a ++ normalize b.
Proof.
  induction a as [|c a IH]; [reflexivity|].
  rewrite append_cons. simpl. now rewrite IH, append_cons.
Qed.

(** Two ways of cutting one string: one cut comes first. *)
Lemma append_eq_append (a b c d : string) :
  a ++ b = c ++ d ->
  exists e, (a = c ++ e /\ d = e ++ b) \/ (c = a ++ e /\ b = e ++ d).
Proof.
  revert c. induction a as [|x a IH]; intros c H.
  - exists c. right. rewrite append_nil_l in H. auto.
  - destruct c as [|y c].
    + exists (String x a). left. rewrite append_nil_l in H. auto.
    + rewrite !append_cons in H. injection H as -> H.
      destruct (IH c H) as [e [[-> ->]|[-> ->]]]; exists e;
        [left|right]; rewrite ?append_cons; auto.
Qed.

(** After a cut, what follows starts with the separator or is empty. *)
Lemma cut_at_separator (e b r : string) :
  "/" ++ r = e ++ "/" ++ b ->
  e = "" \/ exists e', e = "/" ++ e'.
Proof.
  intros H. destruct e as [|c e]; [now left|]. right.
  rewrite !append_cons in H. injection H as <- _. now exists e.
Qed.

Lemma withinFolders_normalize (p : string) (fs : list string) :
  withinFolders (normalize p) fs = withinFolders p fs.
Proof.
  induction fs as [|f fs IH]; simpl; [reflexivity|].
  now rewrite normalize_idem, IH.
Qed.

Lemma withinFolders_normalize_folders (p : string) (fs : list string) :
  withinFolders p (map normalize fs) = withinFolders p fs.
Proof.
  induction fs as [|f fs IH]; simpl; [reflexivity|].
  now rewrite normalize_idem, IH.
Qed.

Lemma normalize_withBackslashes (s : string) :
  normalize (withBackslashes s) = normalize s.
Proof.
  induction s as [|c s IH]; [reflexivity|].
  simpl. rewrite IH. f_equal. unfold slash.
  destruct (Ascii.eqb_spec c "/"%char) as [->|Hc]; [reflexivity|].
  reflexivity.
Qed.

Lemma withinFolders_ext (p q : string) (fs gs : list string) :
  normalize p = normalize q -> map normalize fs = map normalize gs ->
  withinFolders p fs = withinFolders q gs.
Proof.
  intros Hp. revert gs. induction fs as [|f fs IH]; intros [|g gs] Hfs;
    try discriminate; [reflexivity|].
  simpl in Hfs. injection Hfs as Hf Hrest. simpl.
  now rewrite Hp, Hf, (IH gs Hrest).
Qed.

(** X13. A backslash counts as a slash: a path written with backslashes is
    decided as the same path written with slashes, and so are the folders
    of the scope, whichever way each of them is written; [src\api\auth.js]
    lies in the folder [src/api], and [src/api/auth.js] in the folder
    [src\api]. *)
Theorem decision_ignores_separator_style (P : string)
    (activeScope : option string) (scopes : gmap string Scope)
    (fs : list string) :
  shouldShowEntry (withBackslashes P) activeScope scopes
  = shouldShowEntry P activeScope scopes
  /\ withinFolders (withBackslashes P) fs = withinFolders P fs
  /\ withinFolders P (map withBackslashes fs) = withinFolders P fs
  /\ withinFolders "src\api\auth.js" ["src/api"] = true
  /\ withinFolders "src/api/auth.js" ["src\api"] = true.
Proof.
  assert (Hfs : map normalize (map withBackslashes fs) = map normalize fs).
  { rewrite map_map. apply map_ext. intros f.
    apply normalize_withBackslashes. }
  split; [|split; [|split; [|split; reflexivity]]].
  - unfold shouldShowEntry.
    destruct (guard activeScope scopes) as [|scope|]; try reflexivity.
    f_equal. apply withinFolders_ext; [|reflexivity].
    apply normalize_withBackslashes.
  - apply withinFolders_ext; [|reflexivity].
    apply normalize_withBackslashes.
  - now apply withinFolders_ext.
Qed.

(** X14. Folders only add: a path shown with some folders is shown with any
    list that holds them all, in whatever order and however often. *)
Theorem more_folders_show_more (P : string) (fs fs' : list string) :
  (forall f, In f fs -> In f fs') ->
  withinFolders P fs = true -> withinFolders P fs' = true.
Proof.
  intros Hsub H. apply withinFolders_spec in H as [f [Hf Hr]].
  apply withinFolders_spec. exists f. auto.
Qed.

Lemma more_folders_show_more_witness :
  (forall f, In f ["src/api"] -> In f ["docs"; "src/api"; "docs"])
  /\ withinFolders "src/api/auth.js" ["src/api"] = true
  /\ withinFolders "src/api/auth.js" ["docs"; "src/api"; "docs"] = true.
Proof.
  assert (H1 : forall f, In f ["src/api"] ->
                         In f ["docs"; "src/api"; "docs"]).
  { intros f [<-|[]]. simpl. tauto. }
  assert (H2 : withinFolders "src/api/auth.js" ["src/api"] = true)
    by reflexivity.
  split; [exact H1|]. split; [exact H2|].
  exact (more_folders_show_more "src/api/auth.js" ["src/api"]
           ["docs"; "src/api"; "docs"] H1 H2).
Defined.

Lemma related_parent (P x f : string) :
  related (P ++ "/" ++ x) f -> related P f.
Proof.
  unfold related. rewrite !normalize_app.
  change (normalize "/") with "/".
  set (p := normalize P). set (y := normalize x). set (g := normalize f).
  intros [H|[[r H]|[r H]]].
  - right; right. exists y. now rewrite <- H.
  - apply append_eq_append in H as [e [[Hp Hd]|[Hg Hd]]].
    + destruct (cut_at_separator _ _ _ Hd) as [->|[e' ->]].
      * left. rewrite Hp. clear. induction g as [|c g IH];
          [reflexivity|]. now rewrite append_cons, IH.
      * right; left. now exists e'.
    + symmetry in Hd.
      destruct (cut_at_separator e r y) as [->|[e' ->]].
      { now rewrite Hd. }
      * left. rewrite Hg. clear. induction p as [|c p IH];
          [reflexivity|]. now rewrite append_cons, <- IH.
      * right; right. now exists e'.
  - right; right. exists (y ++ "/" ++ r).
    rewrite H. now rewrite !app_assoc_str.
Qed.

(** X15. What is shown is closed under taking the parent: when an entry
    [P/x] is shown, so is the directory [P] that holds it, so that a tree
    can always be opened down to an entry that is shown. *)
Theorem shown_entry_has_shown_parent (P x : string)
    (activeScope : option string) (scopes : gmap string Scope) :
  shouldShowEntry (P ++ "/" ++ x) activeScope scopes = Returned true ->
  shouldShowEntry P activeScope scopes = Returned true.
Proof.
  unfold shouldShowEntry.
  destruct (guard activeScope scopes) as [|scope|];
    [reflexivity| |discriminate].
  intros H. injection H as H. f_equal.
  apply withinFolders_spec in H as [f [Hf Hr]].
  apply withinFolders_spec. exists f. split; [exact Hf|].
  now apply related_parent with x.
Qed.

Lemma shown_entry_has_shown_parent_witness :
  shouldShowEntry ("src" ++ "/" ++ "components") (Some "Frontend")
    Demo.someScopes = Returned true
  /\ shouldShowEntry "src" (Some "Frontend") Demo.someScopes
     = Returned true.
Proof.
  assert (H : shouldShowEntry ("src" ++ "/" ++ "components")
                (Some "Frontend") Demo.someScopes = Returned true)
    by reflexivity.
  split; [exact H|].
  exact (shown_entry_has_shown_parent "src" "components" (Some "Frontend")
           Demo.someScopes H).
Defined.

End VisibilityMore.

(** ** Directory listings: shape of the enumeration, order of the tree
    listing, relative paths *)

Module FsMore.
Import Str StrFacts Fs Obs Obs2 FsFacts.

Lemma isDirectoryAt_app (fs : FileSystem) (pre suf : Path) :
  forall dir,
    isDirectoryAt fs dir (pre ++ suf)%list = true ->
    isDirectoryAt fs dir pre = true.
Proof.
  induction pre as [|n pre IH]; intros dir H; [reflexivity|].
  simpl in *. destruct (readdir fs dir) as [items|]; [|discriminate].
  apply andb_true_iff in H as [H1 H2]. rewrite H1. simpl. now apply IH.
Qed.

Lemma unexcluded_app (pre suf : Path) :
  unexcluded (pre ++ suf)%list = true -> unexcluded pre = true.
Proof.
  unfold unexcluded. rewrite forallb_app. intros H.
  now apply andb_true_iff in H as [H _].
Qed.

(** X16. The enumeration is closed under taking the parent: with every
    directory it lists, it lists each directory above it short of the
    root. *)
Theorem enumeration_lists_the_parents (fs : FileSystem) (root pre suf : Path)
    (maxDepth : nat) :
  pre <> [] ->
  In (pre ++ suf)%list (getDirectoriesRecursive fs root root maxDepth 0) ->
  In pre (getDirectoriesRecursive fs root root maxDepth 0).
Proof.
  intros Hne Hin. apply listDirectories_In in Hin as [_ [Hlen [Hdir Hun]]].
  apply listDirectories_In. split; [exact Hne|]. split.
  - rewrite length_app in Hlen. lia.
  - split; [now apply isDirectoryAt_app with suf
           |now apply unexcluded_app with suf].
Qed.

Lemma enumeration_lists_the_parents_witness :
  ["src"] <> []
  /\ In (["src"] ++ ["components"; "ui"])%list
        (getDirectoriesRecursive Demo.disk Demo.ws Demo.ws 3 0)
  /\ In ["src"] (getDirectoriesRecursive Demo.disk Demo.ws Demo.ws 3 0).
Proof.
  assert (H1 : ["src"] <> ([] : Path)) by discriminate.
  assert (H2 : In (["src"] ++ ["components"; "ui"])%list
                  (getDirectoriesRecursive Demo.disk Demo.ws Demo.ws 3 0))
    by (vm_compute; tauto).
  split; [exact H1|]. split; [exact H2|].
  exact (enumeration_lists_the_parents Demo.disk Demo.ws ["src"]
           ["components"; "ui"] 3 H1 H2).
Defined.

(** X17. A larger depth bound only adds directories: what is listed with
    one bound is listed with every larger one, and with the bound 0
    nothing is listed. *)
Theorem enumeration_grows_with_the_bound (fs : FileSystem) (root rel : Path)
    (maxDepth maxDepth' : nat) :
  maxDepth <= maxDepth' ->
  In rel (getDirectoriesRecursive fs root root maxDepth 0) ->
  In rel (getDirectoriesRecursive fs root root maxDepth' 0)
  /\ maxDepth <> 0.
Proof.
  intros Hle Hin. apply listDirectories_In in Hin as [Hne [Hlen [Hd Hu]]].
  split.
  - apply listDirectories_In. split; [exact Hne|]. split; [lia|auto].
  - destruct rel; [congruence|]. simpl in Hlen. lia.
Qed.

Lemma enumeration_grows_with_the_bound_witness :
  1 <= 3
  /\ In ["src"] (getDirectoriesRecursive Demo.disk Demo.ws Demo.ws 1 0)
  /\ In ["src"] (getDirectoriesRecursive Demo.disk Demo.ws Demo.ws 3 0).
Proof.
  assert (H1 : 1 <= 3) by lia.
  assert (H2 : In ["src"]
                  (getDirectoriesRecursive Demo.disk Demo.ws Demo.ws 1 0))
    by (vm_compute; tauto).
  split; [exact H1|]. split; [exact H2|].
  exact (proj1 (enumeration_grows_with_the_bound Demo.disk Demo.ws ["src"]
                  1 3 H1 H2)).
Defined.

(** *** Order of the tree listing *)

Lemma insertBy_Permutation {A} (cmp : A -> A -> Z) (x : A) (l : list A) :
  Permutation (insertBy cmp x l) (x :: l).
Proof.
  induction l as [|y l IH]; simpl; [reflexivity|].
  destruct (cmp x y <=? 0)%Z; [reflexivity|].
  rewrite IH. apply perm_swap.
Qed.

Lemma sortBy_Permutation {A} (cmp : A -> A -> Z) (l : list A) :
  Permutation (sortBy cmp l) l.
Proof.
  unfold sortBy. induction l as [|x l IH]; simpl; [reflexivity|].
  rewrite insertBy_Permutation. now constructor.
Qed.

Lemma forallb_insertBy {A} (cmp : A -> A -> Z) (f : A -> bool) (x : A)
    (l : list A) :
  forallb f (insertBy cmp x l) = f x && forallb f l.
Proof.
  induction l as [|y l IH]; simpl; [reflexivity|].
  destruct (cmp x y <=? 0)%Z; simpl; [reflexivity|].
  rewrite IH. destruct (f x), (f y); reflexivity.
Qed.

Lemma directoriesFirst_insertBy (h : Host) (x : Child) (l : list Child) :
  directoriesFirst l = true ->
  directoriesFirst (insertBy (compareChildren h) x l) = true.
Proof.
  induction l as [|y l IH]; intros Hl.
  - simpl. destruct (c_type x); reflexivity.
  - simpl in Hl. simpl. unfold compareChildren.
    destruct (c_type x) eqn:Tx, (c_type y) eqn:Ty; simpl.
    + destruct (localeCompare h (c_name x) (c_name y) <=? 0)%Z; simpl;
        rewrite ?Tx, ?Ty; simpl.
      * exact Hl.
      * rewrite forallb_insertBy, Tx. exact Hl.
    + rewrite ?Tx, ?Ty. now apply IH.
    + rewrite ?Tx, ?Ty. simpl. exact Hl.
    + destruct (localeCompare h (c_name x) (c_name y) <=? 0)%Z; simpl;
        rewrite ?Tx, ?Ty; [exact Hl|now apply IH].
Qed.

Lemma directoriesFirst_sortBy (h : Host) (l : list Child) :
  directoriesFirst (sortBy (compareChildren h) l) = true.
Proof.
  unfold sortBy. induction l as [|x l IH]; simpl; [reflexivity|].
  now apply directoriesFirst_insertBy.
Qed.

(** X18. The child listing of the tree shows every entry of the directory
    whose name is not excluded exactly once, nothing else, and no file
    before a directory. *)
Theorem tree_listing_is_complete_and_directories_first (fs : FileSystem)
    (h : Host) (dir : Path) :
  directoriesFirst (listChildren fs h dir) = true
  /\ forall entries,
       readdir fs dir = Some entries ->
       Permutation (map entryOf (listChildren fs h dir))
         (map (fun e => (d_name e, typeOf e))
            (List.filter (fun e => negb (excluded (d_name e))) entries)).
Proof.
  split.
  - unfold listChildren. destruct (readdir fs dir); [|reflexivity].
    apply directoriesFirst_sortBy.
  - intros entries Hread. unfold listChildren. rewrite Hread. clear Hread.
    rewrite sortBy_Permutation.
    induction entries as [|e entries IH]; simpl; [reflexivity|].
    fold (excluded (d_name e)).
    destruct (excluded (d_name e)); simpl; [exact IH|].
    now constructor.
Qed.

Lemma tree_listing_is_complete_and_directories_first_witness :
  readdir Demo.disk Demo.ws
  = Some [Demo.file "README.md"; Demo.dir ".git"; Demo.dir "node_modules";
          Demo.dir "src"; Demo.dir "locked"]
  /\ Permutation (map entryOf (listChildren Demo.disk Demo.posix Demo.ws))
       [("README.md", File); ("src", Directory); ("locked", Directory)].
Proof.
  assert (H : readdir Demo.disk Demo.ws
              = Some [Demo.file "README.md"; Demo.dir ".git";
                      Demo.dir "node_modules"; Demo.dir "src";
                      Demo.dir "locked"]) by reflexivity.
  split; [exact H|].
  exact (proj2 (tree_listing_is_complete_and_directories_first Demo.disk
                  Demo.posix Demo.ws) _ H).
Defined.

Lemma compareChildren_antisym (h : Host) :
  (forall a b, (0 < localeCompare h a b)%Z -> (localeCompare h b a <= 0)%Z) ->
  forall a b,
    (0 < compareChildren h a b)%Z -> (compareChildren h b a <= 0)%Z.
Proof.
  intros Hanti a b. unfold compareChildren.
  destruct (c_type a), (c_type b); simpl; try lia; apply Hanti.
Qed.

Lemma insertBy_Sorted {A} (cmp : A -> A -> Z) (x : A) (l : list A) :
  (forall a b, (0 < cmp a b)%Z -> (cmp b a <= 0)%Z) ->
  Sorted (fun a b => (cmp a b <= 0)%Z) l ->
  Sorted (fun a b => (cmp a b <= 0)%Z) (insertBy cmp x l).
Proof.
  intros Hanti Hs. induction Hs as [|y l Hs IH Hd]; simpl.
  - repeat constructor.
  - destruct (Z.leb_spec (cmp x y) 0) as [Hle|Hgt].
    + constructor; [now constructor|now constructor].
    + constructor; [exact IH|].
      destruct l as [|z l]; simpl.
      * constructor. now apply Hanti.
      * destruct (Z.leb_spec (cmp x z) 0).
        -- constructor. now apply Hanti.
        -- constructor. now inversion Hd.
Qed.

(** X19. With a comparison of names that never puts two names each before
    the other, the child listing of the tree is in the order of its
    comparator: each child compares not after the next one, directories
    first and names in the order of the comparison within a kind. *)
Theorem tree_listing_is_sorted (fs : FileSystem) (h : Host) (dir : Path) :
  (forall a b, (0 < localeCompare h a b)%Z -> (localeCompare h b a <= 0)%Z) ->
  Sorted (fun a b => (compareChildren h a b <= 0)%Z) (listChildren fs h dir).
Proof.
  intros Hanti. unfold listChildren.
  destruct (readdir fs dir) as [entries|]; [|constructor].
  unfold sortBy.
  induction (flat_map _ entries) as [|c l IH]; simpl; [constructor|].
  apply insertBy_Sorted; [now apply compareChildren_antisym|exact IH].
Qed.

Lemma tree_listing_is_sorted_witness :
  (forall a b, (0 < localeCompare Demo.posix a b)%Z ->
               (localeCompare Demo.posix b a <= 0)%Z)
  /\ Sorted (fun a b => (compareChildren Demo.posix a b <= 0)%Z)
       (listChildren Demo.disk Demo.posix ["ws"; "src"; "components"]).
Proof.
  assert (H : forall a b, (0 < localeCompare Demo.posix a b)%Z ->
                          (localeCompare Demo.posix b a <= 0)%Z).
  { intros a b. simpl. rewrite (String.compare_antisym b a).
    destruct (String.compare a b); simpl; lia. }
  split; [exact H|].
  exact (tree_listing_is_sorted Demo.disk Demo.posix
           ["ws"; "src"; "components"] H).
Defined.

(** *** Relative paths of the overlay *)

Lemma append_nil_r (s : string) : s ++ "" = s.
Proof.
  induction s as [|c s IH]; [reflexivity|].
  change (String c (s ++ "") = String c s). now rewrite IH.
Qed.

Lemma concat_empty_cons (x : string) (xs : list string) :
  String.concat "" (x :: xs) = x ++ String.concat "" xs.
Proof. destruct xs; simpl; [now rewrite append_nil_r|reflexivity]. Qed.

Lemma concat_empty_app (l1 l2 : list string) :
  String.concat "" (l1 ++ l2)%list
  = String.concat "" l1 ++ String.concat "" l2.
Proof.
  induction l1 as [|x l1 IH]; [reflexivity|].
  change ((x :: l1) ++ l2)%list with (x :: (l1 ++ l2))%list.
  now rewrite !concat_empty_cons, IH, app_assoc_str.
Qed.

Lemma fsPathOf_app (h : Host) (a b : Path) :
  fsPathOf h (a ++ b)%list = fsPathOf h a ++ fsPathOf h b.
Proof. unfold fsPathOf. now rewrite map_app, concat_empty_app. Qed.

Lemma relative_common (base a b : Path) :
  relative (base ++ a)%list (base ++ b)%list = relative a b.
Proof.
  induction base as [|c base IH]; simpl; [reflexivity|].
  now rewrite String.eqb_refl.
Qed.

Lemma getRelativePath_inside (h : Host) (ws : Path) (others : list Path)
    (rel : Path) :
  getRelativePath h (ws :: others) (ws ++ rel)%list = display h rel.
Proof.
  simpl.
  assert (Hpre : startsWith (fsPathOf h (ws ++ rel)%list) (fsPathOf h ws)
                 = true).
  { apply startsWith_spec. exists (fsPathOf h rel). apply fsPathOf_app. }
  now rewrite Hpre, relative_below.
Qed.

(** X20. The path that the overlay tests is the path relative to the
    workspace folder for an entry below the first workspace folder, and
    the absolute path when there is no workspace folder or none is a
    prefix of the path. *)
Theorem relative_path_of_an_entry (h : Host) (ws : Path)
    (others workspaceFolders : list Path) (rel absolutePath : Path) :
  getRelativePath h (ws :: others) (ws ++ rel)%list = display h rel
  /\ getRelativePath h [] absolutePath = fsPathOf h absolutePath
  /\ ((forall w, In w workspaceFolders ->
         startsWith (fsPathOf h absolutePath) (fsPathOf h w) = false) ->
      getRelativePath h workspaceFolders absolutePath
      = fsPathOf h absolutePath).
Proof.
  split; [apply getRelativePath_inside|]. split; [reflexivity|].
  induction workspaceFolders as [|w wfs IH]; intros Hout; [reflexivity|].
  simpl. rewrite (Hout w) by now left.
  apply IH. intros w' Hw'. apply Hout. now right.
Qed.

Lemma relative_path_of_an_entry_witness :
  (forall w, In w [Demo.ws] ->
     startsWith (fsPathOf Demo.posix ["tmp"; "x"]) (fsPathOf Demo.posix w)
     = false)
  /\ getRelativePath Demo.posix [Demo.ws] ["tmp"; "x"] = "/tmp/x".
Proof.
  assert (H : forall w, In w [Demo.ws] ->
                startsWith (fsPathOf Demo.posix ["tmp"; "x"])
                  (fsPathOf Demo.posix w) = false).
  { intros w [<-|[]]. reflexivity. }
  split; [exact H|].
  exact (proj2 (proj2 (relative_path_of_an_entry Demo.posix Demo.ws [] 
                         [Demo.ws] [] ["tmp"; "x"])) H).
Defined.

Lemma append_self_nil (n s : string) : n = n ++ s -> s = "".
Proof.
  induction n as [|c n IH]; [intros H; symmetry; exact H|].
  intros H. change (String c n = String c (n ++ s)) in H.
  injection H as H. now apply IH.
Qed.

(** X21. The test for "inside the workspace folder" is a test on the
    strings of the paths.  A directory beside the workspace folder whose
    name only continues the name of the workspace folder passes it, and
    the path tested for it then climbs out of the workspace with [..]. *)
Theorem neighbour_of_the_workspace_counts_as_inside (h : Host) (base : Path)
    (n s : string) (rest : Path) :
  s <> "" ->
  getRelativePath h [(base ++ [n])%list] (base ++ (n ++ s)%string :: rest)%list
  = display h (".." :: (n ++ s) :: rest).
Proof.
  intros Hs. simpl.
  assert (Hpre : startsWith (fsPathOf h (base ++ (n ++ s)%string :: rest)%list)
                   (fsPathOf h (base ++ [n])%list) = true).
  { apply startsWith_spec. exists (s ++ fsPathOf h rest).
    rewrite !fsPathOf_app. unfold fsPathOf at 2 4.
    change (map (fun c => sep h ++ c) ((n ++ s) :: rest))
      with ((sep h ++ (n ++ s)) :: map (fun c => sep h ++ c) rest).
    change (map (fun c => sep h ++ c) [n]) with [sep h ++ n].
    rewrite concat_empty_cons. simpl String.concat.
    unfold fsPathOf. now rewrite !app_assoc_str. }
  rewrite Hpre, relative_common. simpl.
  destruct (String.eqb_spec n (n ++ s)) as [Heq|Hne]; [|reflexivity].
  now apply append_self_nil in Heq.
Qed.

Lemma neighbour_of_the_workspace_counts_as_inside_witness :
  "-old" <> ""
  /\ getRelativePath Demo.posix [["home"; "ws"]] ["home"; "ws-old"; "src"]
     = "../ws-old/src".
Proof.
  assert (H : "-old" <> "") by discriminate.
  split; [exact H|].
  exact (neighbour_of_the_workspace_counts_as_inside Demo.posix ["home"]
           "ws" "-old" ["src"] H).
Defined.

(** X22. Below the first workspace folder the overlay decides each entry
    read from the directory on the path of the entry relative to the
    workspace folder: the path of the directory followed by the name of
    the entry.  When the decision throws at an entry, the directory is
    reported as not found; otherwise the overlay lists, in the order read,
    the entries that the decision shows. *)
Theorem overlay_filters_by_relative_path (fs : FileSystem) (h : Host)
    (ws : Path) (others : list Path) (activeScope : option string)
    (scopes : gmap string Scope) (d : Path) (entries : list Dirent) :
  readdir fs (ws ++ d)%list = Some entries ->
  let decision e :=
    Visibility.shouldShowEntry (display h (d ++ [d_name e])%list)
      activeScope scopes in
  readDirectory fs h (ws :: others) activeScope scopes (ws ++ d)%list
  = if existsb (fun e => throws (decision e)) entries
    then Thrown (FileNotFound (ws ++ d)%list)
    else Returned
           (map (fun e => (d_name e, typeOf e))
              (List.filter (fun e => shown (decision e)) entries)).
Proof.
  intros Hread. cbv zeta. unfold readDirectory. rewrite Hread.
  assert (Hloop :
    visibleEntries h (ws :: others) activeScope scopes (ws ++ d)%list entries
    = if existsb
           (fun e => throws (Visibility.shouldShowEntry
                               (display h (d ++ [d_name e])%list)
                               activeScope scopes)) entries
      then None
      else Some
             (map (fun e => (d_name e, typeOf e))
                (List.filter
                   (fun e => shown (Visibility.shouldShowEntry
                                      (display h (d ++ [d_name e])%list)
                                      activeScope scopes)) entries))).
  { clear Hread. induction entries as [|e entries IH]; [reflexivity|].
    cbn [visibleEntries existsb List.filter]. rewrite IH.
    unfold join. rewrite <- app_assoc, getRelativePath_inside.
    destruct (Visibility.shouldShowEntry _ activeScope scopes) as [show|];
      [|reflexivity].
    cbn [throws shown orb].
    destruct (existsb _ entries); [reflexivity|].
    now destruct show. }
  rewrite Hloop. now destruct (existsb _ entries).
Qed.

Lemma overlay_filters_by_relative_path_witness :
  readdir Demo.disk (Demo.ws ++ ["src"])%list
  = Some [Demo.dir "components"; Demo.dir "api"]
  /\ readDirectory Demo.disk Demo.posix [Demo.ws] (Some "Frontend")
       Demo.someScopes (Demo.ws ++ ["src"])%list
     = Returned [("components", Directory)]
  /\ readDirectory Demo.disk Demo.posix [Demo.ws] (Some "toString")
       Demo.someScopes (Demo.ws ++ ["src"])%list
     = Thrown (FileNotFound (Demo.ws ++ ["src"])%list).
Proof.
  assert (H : readdir Demo.disk (Demo.ws ++ ["src"])%list
              = Some [Demo.dir "components"; Demo.dir "api"])
    by reflexivity.
  split; [exact H|]. split.
  - exact (overlay_filters_by_relative_path Demo.disk Demo.posix Demo.ws []
             (Some "Frontend") Demo.someScopes ["src"] _ H).
  - exact (overlay_filters_by_relative_path Demo.disk Demo.posix Demo.ws []
             (Some "toString") Demo.someScopes ["src"] _ H).
Defined.

(** X23. An active scope without folders hides everything: the decision is
    false for every path, the overlay lists no entry of any directory, and
    the root of the scoped file tree is empty. *)
Theorem scope_without_folders_hides_everything (fs : FileSystem) (h : Host)
    (workspaceFolders : list Path) (scopes : gmap string Scope)
    (active : string) (scope : Scope) :
  active <> "" -> scopes !! active = Some scope -> folders scope = [] ->
  (forall P, Visibility.shouldShowEntry P (Some active) scopes
             = Returned false)
  /\ (forall dir entries,
        readdir fs dir = Some entries ->
        readDirectory fs h workspaceFolders (Some active) scopes dir
        = Returned [])
  /\ listing (getChildren fs h workspaceFolders (Some active) scopes None)
     = [].
Proof.
  intros Hne Hin Hempty.
  pose proof (VisibilityFacts.guard_active _ _ _ Hne Hin) as Hf.
  assert (Hshow : forall P,
            Visibility.shouldShowEntry P (Some active) scopes
            = Returned false).
  { intros P. unfold Visibility.shouldShowEntry. now rewrite Hf, Hempty. }
  split; [exact Hshow|]. split.
  - intros dir entries Hread. unfold readDirectory. rewrite Hread.
    assert (Hloop : visibleEntries h workspaceFolders (Some active) scopes
                      dir entries = Some []).
    { clear Hread. induction entries as [|e entries IH]; [reflexivity|].
      simpl. now rewrite Hshow, IH. }
    now rewrite Hloop.
  - unfold getChildren. rewrite Hf.
    destruct workspaceFolders; [reflexivity|]. simpl.
    unfold rootItems. now rewrite Hempty.
Qed.

Lemma scope_without_folders_hides_everything_witness :
  let scopes := <["Empty" := mkScope [] "" ""]> Demo.someScopes in
  "Empty" <> ""
  /\ scopes !! "Empty" = Some (mkScope [] "" "")
  /\ Visibility.shouldShowEntry "src" (Some "Empty") scopes
     = Returned false.
Proof.
  cbv zeta.
  assert (H1 : "Empty" <> "") by discriminate.
  assert (H2 : <["Empty" := mkScope [] "" ""]> Demo.someScopes !! "Empty"
               = Some (mkScope [] "" "")) by reflexivity.
  assert (H3 : folders (mkScope [] "" "") = []) by reflexivity.
  split; [exact H1|]. split; [exact H2|].
  exact (proj1 (scope_without_folders_hides_everything Demo.disk Demo.posix
                  [Demo.ws] _ "Empty" _ H1 H2 H3) "src").
Defined.

End FsMore.

(** ** Scope list view and folder choice *)

Module ViewFacts.
Import Str StrFacts Fs Obs Obs2 Store ScopeTree Picker VisibilityFacts
  FsFacts FsMore.

Lemma stripMark_mark (b : bool) (name : string) :
  stripMark (mark b ++ name) = name.
Proof. destruct b, name; reflexivity. Qed.

Lemma startsWith_mark (b : bool) (name : string) :
  startsWith (mark b ++ name) (mark true) = b.
Proof. destruct b, name; reflexivity. Qed.

(** X24. The label of a scope in the list view gives the name of the scope
    back when its mark is removed, also for a name that itself begins with
    a mark; so the edit and delete commands called on the item of a scope
    act on that scope. *)
Theorem label_names_its_scope (s : ScopeManager) (activeScope : option string)
    (name : string) (scope : Scope) (picked : option string)
    (action : option EditAction) (confirmation : option string)
    (save : SaveOutcome) :
  stripMark (label (scopeItem activeScope name scope)) = name
  /\ editScopeCommand s (Some (scopeItem activeScope name scope)) picked
       action save
     = editScope s (Some name) picked action save
  /\ deleteScopeCommand s (Some (scopeItem activeScope name scope)) picked
       confirmation save
     = deleteScope s (Some name) picked confirmation save.
Proof.
  unfold editScopeCommand, deleteScopeCommand. simpl.
  rewrite stripMark_mark. auto.
Qed.

Lemma root_labels (s : ScopeManager) :
  map (fun it => stripMark (label it)) (listing (getChildren s None))
  = map fst (map_to_list (getScopes s)).
Proof.
  simpl. rewrite map_map. apply map_ext. intros [name scope]. simpl.
  apply stripMark_mark.
Qed.

(** X25. The root of the list view is returned and has one item for each
    scope of the collection and no other: the labels without their marks
    are the names of the scopes, each once.  The item that carries the
    mark of the active scope is the item of the active scope, and no other
    item carries it. *)
Theorem root_items_are_the_scopes (s : ScopeManager) :
  getChildren s None = Returned (listing (getChildren s None))
  /\ List.length (listing (getChildren s None)) = size (getScopes s)
  /\ List.NoDup (map (fun it => stripMark (label it))
                   (listing (getChildren s None)))
  /\ (forall name,
        In name (map (fun it => stripMark (label it))
                   (listing (getChildren s None)))
        <-> is_Some (getScopes s !! name))
  /\ (forall it,
        In it (listing (getChildren s None)) ->
        (startsWith (label it) (mark true) = true
         <-> getActiveScope s = Some (stripMark (label it)))).
Proof.
  split; [reflexivity|]. split; [|split; [|split]].
  - simpl. rewrite length_map. apply length_map_to_list.
  - rewrite root_labels. apply NoDup_ListNoDup.
    apply (NoDup_fst_map_to_list (getScopes s)).
  - intros name. rewrite root_labels, in_map_iff. split.
    + intros [[k v] [<- Hin]]. simpl. exists v.
      apply elem_of_map_to_list. now apply list_elem_of_In.
    + intros [v Hv]. exists (name, v). split; [reflexivity|].
      apply list_elem_of_In. now apply elem_of_map_to_list.
  - intros it Hin. simpl in Hin. apply in_map_iff in Hin
      as [[name scope] [<- _]]. simpl.
    rewrite stripMark_mark, startsWith_mark.
    unfold eqActive, getActiveScope.
    destruct (activeScope s) as [a|]; [|split; discriminate].
    rewrite String.eqb_eq. split; congruence.
Qed.

Lemma root_items_are_the_scopes_witness :
  is_Some (getScopes Demo.manager !! "Frontend")
  /\ In "Frontend"
        (map (fun it => stripMark (label it))
           (listing (getChildren Demo.manager None))).
Proof.
  assert (H : is_Some (getScopes Demo.manager !! "Frontend"))
    by (vm_compute; eauto).
  split; [exact H|].
  exact (proj2 (proj1 (proj2 (proj2 (proj2 (root_items_are_the_scopes
                                              Demo.manager)))) "Frontend")
           H).
Defined.

(** X26. Opening the item of a scope shows the folders of the scope as
    they are stored, in their order.  An item whose label, without its
    mark, is no key of the collection opens to nothing, unless the label
    is a name that objects inherit: then opening it throws. *)
Theorem scope_item_opens_to_its_folders (s : ScopeManager) (el : TreeItem)
    (name : string) (scope : Scope) :
  (getScopes s !! name = Some scope ->
   getChildren s (Some (scopeItem (getActiveScope s) name scope))
   = Returned (map folderItem (folders scope))
   /\ map label (map folderItem (folders scope)) = folders scope)
  /\ (getScopes s !! stripMark (label el) = None ->
      inherited (stripMark (label el)) = false ->
      getChildren s (Some el) = Returned [])
  /\ (getScopes s !! stripMark (label el) = None ->
      inherited (stripMark (label el)) = true ->
      getChildren s (Some el) = Thrown TypeError).
Proof.
  split; [|split].
  - intros Hin. split.
    + unfold getChildren. cbn [label scopeItem].
      now rewrite stripMark_mark, (get_own _ _ _ Hin).
    + rewrite map_map. simpl. apply map_id.
  - intros Hout Hplain. unfold getChildren.
    now rewrite (get_undefined _ _ Hout Hplain).
  - intros Hout Hi. unfold getChildren.
    now rewrite (get_inherited _ _ Hout Hi).
Qed.

Lemma scope_item_opens_to_its_folders_witness :
  getScopes Demo.manager !! "Frontend" = Some Demo.frontend
  /\ getChildren Demo.manager
       (Some (scopeItem (getActiveScope Demo.manager) "Frontend"
                Demo.frontend))
     = Returned [folderItem "src/components"; folderItem "src/pages"]
  /\ getScopes Demo.manager !! stripMark (label (folderItem "constructor"))
     = None
  /\ inherited (stripMark (label (folderItem "constructor"))) = true
  /\ getChildren Demo.manager (Some (folderItem "constructor"))
     = Thrown TypeError.
Proof.
  assert (H : getScopes Demo.manager !! "Frontend" = Some Demo.frontend)
    by reflexivity.
  assert (H2 : getScopes Demo.manager
                 !! stripMark (label (folderItem "constructor")) = None)
    by reflexivity.
  assert (H3 : inherited (stripMark (label (folderItem "constructor")))
               = true) by reflexivity.
  split; [exact H|]. split.
  - exact (proj1 (proj1 (scope_item_opens_to_its_folders Demo.manager
                           (folderItem "") "Frontend" Demo.frontend) H)).
  - split; [exact H2|]. split; [exact H3|].
    exact (proj2 (proj2 (scope_item_opens_to_its_folders Demo.manager
                           (folderItem "constructor") "Frontend"
                           Demo.frontend)) H2 H3).
Defined.

(** *** Folder choice *)

Lemma unique_In (l seen : list string) (x : string) :
  In x (unique seen l) <-> In x l /\ ~ In x seen.
Proof.
  revert seen. induction l as [|y l IH]; intros seen; simpl.
  - tauto.
  - destruct (existsb (String.eqb y) seen) eqn:E.
    + apply existsb_exists in E as [z [Hz Hyz]].
      apply String.eqb_eq in Hyz. subst z. rewrite IH.
      split; [tauto|]. intros [[->|H] Hn]; tauto.
    + assert (Hy : ~ In y seen).
      { intros Hin. assert (existsb (String.eqb y) seen = true) as X.
        { apply existsb_exists. exists y. split; [exact Hin|].
          apply String.eqb_refl. }
        congruence. }
      simpl. rewrite IH. simpl. split.
      * intros [<-|[H Hn]]; [tauto|]. split; [tauto|]. tauto.
      * intros [[<-|H] Hn]; [tauto|].
        destruct (string_dec y x) as [->|Hne]; [tauto|]. right.
        split; [exact H|]. intros [?|?]; tauto.
Qed.

Lemma unique_NoDup (l seen : list string) : List.NoDup (unique seen l).
Proof.
  revert seen. induction l as [|y l IH]; intros seen; simpl.
  - constructor.
  - destruct (existsb (String.eqb y) seen); [apply IH|].
    constructor; [|apply IH].
    intros Hin. apply unique_In in Hin as [_ Hn]. apply Hn. now left.
Qed.

Lemma compareUnits_antisym (a b : string) :
  compareUnits b a = CompOpp (compareUnits a b).
Proof.
  revert b. induction a as [|x a IH]; intros [|y b]; try reflexivity.
  simpl. rewrite (N.compare_antisym (unitKey x) (unitKey y)).
  destruct (N.compare (unitKey x) (unitKey y)); simpl; auto.
Qed.

Lemma compareStrings_antisym (a b : string) :
  (0 < compareStrings a b)%Z -> (compareStrings b a <= 0)%Z.
Proof.
  unfold compareStrings. rewrite (compareUnits_antisym a b).
  destruct (compareUnits a b); simpl; lia.
Qed.

Lemma getAllWorkspaceFolders_In (fs : FileSystem) (h : Host)
    (workspaceFolders : list Path) (f : string) :
  In f (getAllWorkspaceFolders fs h workspaceFolders) <->
  exists ws rel,
    In ws workspaceFolders
    /\ In rel (getDirectoriesRecursive fs ws ws 3 0)
    /\ f = display h rel.
Proof.
  unfold getAllWorkspaceFolders. rewrite In_sortBy, unique_In, in_flat_map.
  split.
  - intros [[ws [Hws Hin]] _]. apply in_map_iff in Hin as [rel [<- Hrel]].
    exists ws, rel. auto.
  - intros [ws [rel [Hws [Hrel ->]]]]. split; [|tauto].
    exists ws. split; [exact Hws|]. apply in_map_iff. now exists rel.
Qed.

(** X27. The folders offered for a scope are the directories that the
    enumeration finds, with the depth bound 3, below the workspace
    folders, each offered once, in the order of [sort()] without a
    comparison function, which is the order of the UTF-16 code units and
    not of the code points: U+1F600 comes before U+FF5E. *)
Theorem offered_folders (fs : FileSystem) (h : Host)
    (workspaceFolders : list Path) :
  List.NoDup (getAllWorkspaceFolders fs h workspaceFolders)
  /\ Sorted (fun a b => (compareStrings a b <= 0)%Z)
       (getAllWorkspaceFolders fs h workspaceFolders)
  /\ (forall f,
        In f (getAllWorkspaceFolders fs h workspaceFolders) <->
        exists ws rel,
          In ws workspaceFolders
          /\ In rel (getDirectoriesRecursive fs ws ws 3 0)
          /\ f = display h rel)
  /\ compareStrings grinningFace fullwidthTilde = (-1)%Z
  /\ compareStrings "src/api" "src/components" = (-1)%Z
  /\ compareStrings "src" "src/api" = (-1)%Z.
Proof.
  split; [|split; [|split; [|repeat split]]].
  - unfold getAllWorkspaceFolders.
    eapply Permutation_NoDup;
      [symmetry; apply sortBy_Permutation|apply unique_NoDup].
  - unfold getAllWorkspaceFolders, sortBy.
    induction (unique [] _) as [|x l IH]; simpl; [constructor|].
    apply insertBy_Sorted; [apply compareStrings_antisym|exact IH].
  - apply getAllWorkspaceFolders_In.
Qed.

(** X28. Choosing folders gives nothing without a workspace folder or when
    the choice is dismissed.  Otherwise every folder chosen is one of the
    folders offered: the path of a directory at most three levels below a
    workspace folder none of whose components is a hidden name or
    [node_modules]. *)
Theorem chosen_folders_are_enumerated (fs : FileSystem) (h : Host)
    (workspaceFolders : list Path) (currentFolders : list string)
    (choice : option (PickItem -> bool)) (chosen : list string) :
  selectFolders fs h [] currentFolders choice = None
  /\ selectFolders fs h workspaceFolders currentFolders None = None
  /\ (selectFolders fs h workspaceFolders currentFolders choice
      = Some chosen ->
      forall f, In f chosen ->
        exists ws rel,
          In ws workspaceFolders /\ f = display h rel
          /\ rel <> [] /\ List.length rel <= 3
          /\ isDirectoryAt fs ws rel = true /\ unexcluded rel = true).
Proof.
  split; [reflexivity|]. split; [now destruct workspaceFolders|].
  unfold selectFolders. destruct workspaceFolders as [|w wfs];
    [discriminate|].
  destruct choice as [ticked|]; [|discriminate].
  intros Heq f Hf. injection Heq as <-.
  apply in_map_iff in Hf as [item [<- Hitem]].
  apply filter_In in Hitem as [Hitem _].
  unfold pickItems in Hitem. apply in_map_iff in Hitem as [g [<- Hg]].
  simpl. apply getAllWorkspaceFolders_In in Hg as [ws [rel [Hws [Hrel ->]]]].
  apply listDirectories_In in Hrel as [Hne [Hlen [Hdir Hun]]].
  exists ws, rel. repeat (split; [assumption || reflexivity|]). exact Hun.
Qed.

Lemma chosen_folders_are_enumerated_witness :
  selectFolders Demo.disk Demo.posix [Demo.ws] []
    (Some (fun item => String.eqb (pickLabel item) "src/api"))
  = Some ["src/api"]
  /\ exists ws rel,
       In ws [Demo.ws] /\ "src/api" = display Demo.posix rel
       /\ rel <> [] /\ List.length rel <= 3
       /\ isDirectoryAt Demo.disk ws rel = true /\ unexcluded rel = true.
Proof.
  assert (H : selectFolders Demo.disk Demo.posix [Demo.ws] []
                (Some (fun item => String.eqb (pickLabel item) "src/api"))
              = Some ["src/api"]) by reflexivity.
  split; [exact H|].
  exact (proj2 (proj2 (chosen_folders_are_enumerated Demo.disk Demo.posix
                         [Demo.ws] [] _ ["src/api"])) H "src/api"
           (or_introl eq_refl)).
Defined.

End ViewFacts.

(** ** Visibility filter: names that only continue a folder name *)

Module VisibilityEdge.
Import Str StrFacts Js Visibility VisibilityFacts VisibilityMore FsMore.

(** X29. A folder of the scope shows what lies below it, not what merely
    continues its name: beside the only folder [f] of a scope, a path [f]
    followed by anything that does not start with a separator is hidden. *)
Theorem continued_name_is_hidden (scopes : gmap string Scope)
    (active f : string) (scope : Scope) (c : ascii) (s : string) :
  active <> "" -> scopes !! active = Some scope -> folders scope = [f] ->
  slash c <> "/"%char ->
  shouldShowEntry (f ++ String c s) (Some active) scopes = Returned false.
Proof.
  intros Hne Hin Hf Hc. unfold shouldShowEntry.
  rewrite (guard_active _ _ _ Hne Hin), Hf.
  destruct (withinFolders (f ++ String c s) [f]) eqn:E; [|reflexivity].
  exfalso. apply withinFolders_spec in E as [g [[<-|[]] Hr]].
  unfold related in Hr. rewrite normalize_app in Hr. simpl in Hr.
  set (nf := normalize f) in *. set (ns := normalize s) in *.
  destruct Hr as [H|[[r H]|[r H]]].
  - symmetry in H. apply append_self_nil in H. discriminate.
  - apply String.app_inj in H. injection H as H _. contradiction.
  - rewrite app_assoc_str in H. apply append_self_nil in H. discriminate.
Qed.

Lemma continued_name_is_hidden_witness :
  "Backend" <> ""
  /\ Demo.someScopes !! "Backend" = Some Demo.backend
  /\ folders Demo.backend = ["src/api"]
  /\ slash "-"%char <> "/"%char
  /\ shouldShowEntry ("src/api" ++ String "-"%char "old") (Some "Backend")
       Demo.someScopes = Returned false.
Proof.
  assert (H1 : "Backend" <> "") by discriminate.
  assert (H2 : Demo.someScopes !! "Backend" = Some Demo.backend)
    by reflexivity.
  assert (H3 : folders Demo.backend = ["src/api"]) by reflexivity.
  assert (H4 : slash "-"%char <> "/"%char) by (vm_compute; discriminate).
  split; [exact H1|]. split; [exact H2|]. split; [exact H3|].
  split; [exact H4|].
  exact (continued_name_is_hidden Demo.someScopes "Backend" "src/api"
           Demo.backend "-"%char "old" H1 H2 H3 H4).
Defined.

End VisibilityEdge.
